(** * superfile: sidebar directory filter and zoxide history modal

    A shallow embedding of

    - the sidebar directory source and its group-preserving fuzzy filter
      ([getDirectories], [getPinnedDirectories], [fuzzySearch],
      [getFilteredDirectories]), module [Sidebar];
    - the zoxide history modal of package [zoxide]
      (src/plugins/zoxide/zoxide.go, first file), module [Zoxide];
    - the stand-alone zoxide plugin of package [main] (second file of the
      same path), module [ZoxideMain].

    Go's [int] is modelled as [Z] with 64-bit two's-complement wrap-around
    ([GoInt.wrap]); slices are lists (the code builds new slices and
    assigns them, it never writes through a shared one), [map[string]T]
    is [gmap string T]; indexing out of range and dereferencing [nil]
    are run-time panics ([Result]).  Library calls
    whose code is not part of the repository (fzf-lib, encoding/json,
    path/filepath, strings.ToLower, bubbles/textinput, the zoxide binary)
    are parameters of the sections that use them. *)

From Stdlib Require Import ZArith Lia String Ascii Bool.
From stdpp Require Import base option list gmap strings.

Local Open Scope string_scope.
Local Open Scope list_scope.
Local Open Scope Z_scope.

(** ** Go integers *)

Module GoInt.

Definition minInt : Z := - 2 ^ 63.
Definition maxInt : Z := 2 ^ 63 - 1.

(** Two's-complement reduction to the range of a 64-bit [int]. *)
Definition wrap (z : Z) : Z := (z + 2 ^ 63) mod 2 ^ 64 - 2 ^ 63.

Definition add (a b : Z) : Z := wrap (a + b).
Definition sub (a b : Z) : Z := wrap (a - b).
Definition mul (a b : Z) : Z := wrap (a * b).
(** Go's [/] truncates toward zero. *)
Definition div (a b : Z) : Z := wrap (Z.quot a b).

(** [len(s)] of a slice. *)
Definition len {A} (l : list A) : Z := Z.of_nat (length l).

Definition inRange (z : Z) : Prop := minInt <= z <= maxInt.

End GoInt.

(** ** Run-time panics *)

Inductive Result (A : Type) : Type :=
| Ok (a : A)
| Panic (msg : string).
Arguments Ok {A} a.
Arguments Panic {A} msg.

Definition rbind {A B} (r : Result A) (k : A -> Result B) : Result B :=
  match r with
  | Ok a => k a
  | Panic msg => Panic msg
  end.

#[export] Instance Result_bind : MBind Result :=
  fun A B k r => rbind r k.
#[export] Instance Result_ret : MRet Result := fun A a => Ok a.

(** [s[i]] on a slice: a run-time panic outside [0, len(s)). *)
Definition index {A} (l : list A) (i : Z) : Result A :=
  if (i <? 0) || (GoInt.len l <=? i) then Panic "index out of range"
  else match l !! Z.to_nat i with
       | Some x => Ok x
       | None => Panic "index out of range"
       end.

(** ** Sidebar directories (package internal) *)

Module Sidebar.

Record directory : Type := mkDirectory {
  location : string;
  name : string
}.

#[export] Instance directory_eq_dec : EqDecision directory.
Proof. solve_decision. Defined.

(** One [outPutLog(message, err)] call. *)
Record LogLine : Type := mkLog { logMessage : string; logError : string }.

(** A value together with the log lines written while computing it. *)
Definition Logged (A : Type) : Type := A * list LogLine.

Definition pinnedLocation : string := "Pinned+-*/=?".
Definition disksLocation : string := "Disks+-*/=?".

(** [directory{location: "Pinned+-*/=?"}]: the other field is zero. *)
Definition pinnedBoundary : directory := mkDirectory pinnedLocation "".
Definition disksBoundary : directory := mkDirectory disksLocation "".

(** The JSON record of the newer pinned-file format. *)
Record pinnedDir : Type := mkPinnedDir { Location : string; Name : string }.

(** What the operating system answers during one call. *)
Record World : Type := mkWorld {
  (** [os.IsNotExist(err)] for the [err] of [os.Stat(path)] *)
  statNotExist : string -> bool;
  (** [os.ReadFile(variable.PinnedFile)]: error text or contents *)
  pinnedFile : string + string;
  (** [disk.Partitions(true)]: mount points, and the error if any *)
  partitions : list string;
  partitionsErr : option string
}.

Section Collaborators.

(** The eight XDG entries of [getWellKnownDirectories]; their paths
    and icons are constants of packages [xdg] and [icon]. *)
Variable wellKnownDirectories : list directory.
(** [filepath.Base] *)
Variable Base : string -> string.
(** [json.Unmarshal(data, &paths)] with [paths []string] *)
Variable unmarshalPaths : string -> string + list string.
(** [json.Unmarshal(data, &pinnedDirs)] *)
Variable unmarshalPinned : string -> string + list pinnedDir.
(** [isExternalDiskPath], defined elsewhere in the package *)
Variable isExternalDiskPath : string -> bool.
(** fzf-lib: [fzf.New(haystack, fzf.DefaultOptions())], [Search(query)],
    one receive from the result channel; the [Key]s of
    [result.Matches], in order. *)
Variable fzf : string -> list string -> list string.

Definition getWellKnownDirectories (w : World) : list directory :=
  filter (fun dir => negb (statNotExist w (location dir)) = true)
         wellKnownDirectories.

Definition getPinnedDirectories (w : World) : Logged (list directory) :=
  match pinnedFile w with
  | inl err => ([], [mkLog "Read superfile data error" err])
  | inr jsonData =>
      match unmarshalPaths jsonData with
      | inr paths =>
          ((fun path => mkDirectory path (Base path)) <$> paths, [])
      | inl _ =>
          match unmarshalPinned jsonData with
          | inr pinnedDirs =>
              ((fun p => mkDirectory (Location p) (Name p)) <$> pinnedDirs,
               [])
          | inl err => ([], [mkLog "Error parsing pinned data" err])
          end
      end
  end.

Definition getExternalMediaFolders (w : World) : Logged (list directory) :=
  let log :=
    match partitionsErr w with
    | Some err => [mkLog "Error while getting external media: " err]
    | None => []
    end in
  let disks :=
    (fun mountpoint => mkDirectory mountpoint (Base mountpoint))
      <$> filter (fun mountpoint => isExternalDiskPath mountpoint = true)
                 (partitions w) in
  (disks, log ++ log).

Definition getDirectories (w : World) : Logged (list directory) :=
  let '(pinned, log1) := getPinnedDirectories w in
  let '(disks, log2) := getExternalMediaFolders w in
  (getWellKnownDirectories w ++ [pinnedBoundary] ++ pinned
     ++ [disksBoundary] ++ disks,
   log1 ++ log2).

(** [dirMap[dir.name] = dir] for every [dir], in order. *)
Definition buildDirMap (dirs : list directory) : gmap string directory :=
  foldl (fun dirMap dir => <[name dir := dir]> dirMap) ∅ dirs.

Definition fuzzySearch (query : string) (dirs : list directory)
  : list directory :=
  match dirs with
  | [] => []
  | _ =>
      let haystack := name <$> dirs in
      let dirMap := buildDirMap dirs in
      omap (fun key => dirMap !! key) (fzf query haystack)
  end.

(** The target of the [currentGroup] pointer. *)
Inductive groupRef : Type := refPinnedDirs | refDiskDirs.

Record groups : Type := mkGroups {
  currentGroup : option groupRef;
  noneDirs : list directory;
  pinnedDirs : list directory;
  diskDirs : list directory
}.

Definition partitionStep (g : groups) (dir : directory) : groups :=
  if (location dir =? pinnedLocation)%string then
    mkGroups (Some refPinnedDirs) (noneDirs g) (pinnedDirs g) (diskDirs g)
  else if (location dir =? disksLocation)%string then
    mkGroups (Some refDiskDirs) (noneDirs g) (pinnedDirs g) (diskDirs g)
  else
    match currentGroup g with
    | Some refPinnedDirs =>
        mkGroups (currentGroup g) (noneDirs g) (pinnedDirs g ++ [dir])
                 (diskDirs g)
    | Some refDiskDirs =>
        mkGroups (currentGroup g) (noneDirs g) (pinnedDirs g)
                 (diskDirs g ++ [dir])
    | None =>
        mkGroups (currentGroup g) (noneDirs g ++ [dir]) (pinnedDirs g)
                 (diskDirs g)
    end.

Definition partitionDirs (allDirs : list directory) : groups :=
  foldl partitionStep (mkGroups None [] [] []) allDirs.

(** The three haystacks, in the order they are searched. *)
Definition haystacks (g : groups) : list (list directory) :=
  [noneDirs g; pinnedDirs g; diskDirs g].

Definition getFilteredDirectories (w : World) (query : string)
  : Logged (list directory) :=
  let '(allDirs, log) := getDirectories w in
  let g := partitionDirs allDirs in
  let filteredNone := fuzzySearch query (noneDirs g) in
  let filteredPinned := fuzzySearch query (pinnedDirs g) in
  let filteredDisks := fuzzySearch query (diskDirs g) in
  (filteredNone ++ [pinnedBoundary] ++ filteredPinned
     ++ [disksBoundary] ++ filteredDisks,
   log).

(** A group-boundary sentinel is recognised by its location. *)
Definition isBoundary (dir : directory) : bool :=
  (location dir =? pinnedLocation)%string
  || (location dir =? disksLocation)%string.

End Collaborators.

(** [d] is the last directory of [dirs] named [key]. *)
Definition lastNamed (key : string) (d : directory) (dirs : list directory)
  : Prop :=
  exists i : nat,
    dirs !! i = Some d /\ name d = key
    /\ forall (j : nat) (d' : directory),
         (i < j)%nat -> dirs !! j = Some d' -> name d' <> key.

(** No group holds a boundary. *)
Definition plainGroups (g : groups) : Prop :=
  Forall (fun d => isBoundary d = false) (noneDirs g)
  /\ Forall (fun d => isBoundary d = false) (pinnedDirs g)
  /\ Forall (fun d => isBoundary d = false) (diskDirs g).

(** The samples the properties below are run on: two well-known
    directories, and a world whose pinned file holds two paths that end
    in the same name and whose only external disk is [/mnt/usb]. *)
Definition sampleWellKnown : list directory :=
  [mkDirectory "/home/u" "Home"; mkDirectory "/home/u/dl" "Downloads"].

Definition sampleWorld (pinned : string + string) : World :=
  mkWorld (fun _ => false) pinned ["/"; "/mnt/usb"] None.

End Sidebar.

(** ** Strings (package strings) *)

Module Strings.

(** [strings.Contains(s, substr)], on the bytes of the strings. *)
Fixpoint Contains (s substr : string) : bool :=
  String.prefix substr s
  || match s with
     | EmptyString => false
     | String _ rest => Contains rest substr
     end.

(** [strings.Split(s, sep)] for a separator [sep] of one byte: the pieces
    between the separators, [acc] being the piece read so far. *)
Fixpoint splitAcc (sep : ascii) (acc : string) (s : string) : list string :=
  match s with
  | EmptyString => [acc]
  | String c rest =>
      if Ascii.eqb c sep then acc :: splitAcc sep EmptyString rest
      else splitAcc sep (acc +:+ String c EmptyString) rest
  end.

Definition SplitLines (s : string) : list string :=
  splitAcc "010"%char EmptyString s.

End Strings.

(** ** The text input of the search bar (bubbles/textinput) *)

Module TextInput.

Record Model : Type := mkModel {
  value : string;
  focus : bool;
  Placeholder : string;
  CharLimit : Z;
  Width : Z
}.

(** [textinput.New()]: empty and blurred. *)
Definition New : Model := mkModel "" false "" 0 0.

Definition Value (m : Model) : string := value m.

(** [SetValue(s)].  The library also sanitises [s] and cuts it to
    [CharLimit]; both leave the empty string, the only argument the
    plugins pass, as it is. *)
Definition SetValue (s : string) (m : Model) : Model :=
  mkModel s (focus m) (Placeholder m) (CharLimit m) (Width m).

Definition Focus (m : Model) : Model :=
  mkModel (value m) true (Placeholder m) (CharLimit m) (Width m).

Definition setPlaceholder (p : string) (m : Model) : Model :=
  mkModel (value m) (focus m) p (CharLimit m) (Width m).

Definition setCharLimit (n : Z) (m : Model) : Model :=
  mkModel (value m) (focus m) (Placeholder m) n (Width m).

Definition setWidth (n : Z) (m : Model) : Model :=
  mkModel (value m) (focus m) (Placeholder m) (CharLimit m) n.

End TextInput.

(** A [tea.Msg]: a key press, given by [msg.String()], or anything else. *)
Inductive Msg : Type :=
| KeyMsg (key : string)
| OtherMsg.

(** The outcome of running [zoxide query -l --exclude path]: the error of
    the process, or its standard output. *)
Definition CmdOutcome : Type := (string + string)%type.

(** The history tool failed, or printed nothing. *)
Definition failedOrEmpty (run : CmdOutcome) : bool :=
  match run with
  | inl _ => true
  | inr out => (out =? "")%string
  end.

(** A key that goes into the search bar rather than ending the search. *)
Definition typed (key : string) : bool :=
  negb (key =? "enter")%string && negb (key =? "esc")%string.


(** ** The zoxide history modal (package zoxide) *)

Module Zoxide.

Record ZoxideModal : Type := mkModal {
  Width : Z;
  Height : Z;
  Cursor : Z;
  RenderIndex : Z;
  Entries : list string;
  AllEntries : list string;
  SearchBar : TextInput.Model;
  SearchMode : bool
}.

(** [Modal] is a pointer, [None] being [nil]; the mutex [mu] has no
    counterpart, calls being modelled one at a time. *)
Record ZoxidePlugin : Type := mkPlugin {
  Modal : option ZoxideModal;
  isOpen : bool;
  initialized : bool
}.

Record ZoxideMsg : Type := mkZoxideMsg { msgEntries : list string }.

(** The commands the plugin hands back to the runtime: the closure built
    by [Open], and whatever the text input returns. *)
Inductive Cmd : Type :=
| LoadHistory (excludePath : string)
| TextInputCmd.

Definition setCursor (c r : Z) (m : ZoxideModal) : ZoxideModal :=
  mkModal (Width m) (Height m) c r (Entries m) (AllEntries m)
          (SearchBar m) (SearchMode m).

Definition setEntries (es : list string) (m : ZoxideModal) : ZoxideModal :=
  mkModal (Width m) (Height m) (Cursor m) (RenderIndex m) es (AllEntries m)
          (SearchBar m) (SearchMode m).

Definition setAllEntries (es : list string) (m : ZoxideModal) : ZoxideModal :=
  mkModal (Width m) (Height m) (Cursor m) (RenderIndex m) (Entries m) es
          (SearchBar m) (SearchMode m).

Definition setSearchBar (b : TextInput.Model) (m : ZoxideModal) : ZoxideModal :=
  mkModal (Width m) (Height m) (Cursor m) (RenderIndex m) (Entries m)
          (AllEntries m) b (SearchMode m).

Definition setSearchMode (b : bool) (m : ZoxideModal) : ZoxideModal :=
  mkModal (Width m) (Height m) (Cursor m) (RenderIndex m) (Entries m)
          (AllEntries m) (SearchBar m) b.

Definition setSize (w h : Z) (m : ZoxideModal) : ZoxideModal :=
  mkModal w h (Cursor m) (RenderIndex m) (Entries m) (AllEntries m)
          (SearchBar m) (SearchMode m).

Definition setModal (m : ZoxideModal) (z : ZoxidePlugin) : ZoxidePlugin :=
  mkPlugin (Some m) (isOpen z) (initialized z).

Definition setIsOpen (b : bool) (z : ZoxidePlugin) : ZoxidePlugin :=
  mkPlugin (Modal z) b (initialized z).

(** [z.Modal.f]: dereferencing a nil [Modal] panics. *)
Definition modalOf (z : ZoxidePlugin) : Result ZoxideModal :=
  match Modal z with
  | Some m => Ok m
  | None => Panic "nil pointer dereference"
  end.

Definition Init (z : ZoxidePlugin) : ZoxidePlugin :=
  if initialized z then z
  else
    let searchBar :=
      TextInput.setWidth (GoInt.sub 60 4)
        (TextInput.setCharLimit 100
           (TextInput.setPlaceholder "Search zoxide history..."
              TextInput.New)) in
    mkPlugin (Some (mkModal 60 20 0 0 [] [] searchBar false)) (isOpen z) true.

Definition IsOpen (z : ZoxidePlugin) : bool := isOpen z.

Definition minInt (a b : Z) : Z := if a <? b then a else b.

Definition maxInt (a b : Z) : Z := if a >? b then a else b.

Definition Close (z : ZoxidePlugin) : ZoxidePlugin := setIsOpen false z.

Section Libraries.

(** [strings.TrimSpace] *)
Variable TrimSpace : string -> string.
(** [strings.ToLower] *)
Variable ToLower : string -> string.
(** fzf-lib: the [Key]s of the matches of [Search(query)] over the
    haystack, in result order. *)
Variable fzf : string -> list string -> list string.
(** [textinput.Model.Update] on a key press: the new model, and whether
    a command came back with it. *)
Variable tiUpdate : TextInput.Model -> string -> TextInput.Model * bool.

(** [getZoxideHistory], given the outcome of the process it runs:
    the pair [(entries, err)]. *)
Definition getZoxideHistory (run : CmdOutcome) : list string * option string :=
  match run with
  | inl err => ([], Some err)
  | inr out =>
      if Z.of_nat (String.length out) =? 0 then ([], None)
      else (Strings.SplitLines (TrimSpace out), None)
  end.

Definition Open (excludePath : string) (z : ZoxidePlugin)
  : Result (ZoxidePlugin * option Cmd) :=
  if isOpen z then Ok (z, None)
  else
    let z := if negb (initialized z) then Init z else z in
    let z := setIsOpen true z in
    m ← modalOf z;
    let m := setCursor 0 0 m in
    let m := setSearchBar (TextInput.SetValue "" (SearchBar m)) m in
    let m := setSearchMode false m in
    Ok (setModal m z, Some (LoadHistory excludePath)).

(** Running the closure returned by [Open]. *)
Definition runLoadHistory (run : CmdOutcome) (z : ZoxidePlugin)
  : Result (ZoxidePlugin * option ZoxideMsg) :=
  let '(entries, err) := getZoxideHistory run in
  if bool_decide (err <> None) || (GoInt.len entries =? 0) then
    Ok (setIsOpen false z, None)
  else
    m ← modalOf z;
    let m := setEntries entries m in
    let m := setAllEntries entries m in
    Ok (setModal m z, Some (mkZoxideMsg entries)).

Definition applySearch (z : ZoxidePlugin) : Result ZoxidePlugin :=
  m ← modalOf z;
  let searchTerm := ToLower (TextInput.Value (SearchBar m)) in
  if (searchTerm =? "")%string then
    Ok (setModal (setCursor 0 0 (setEntries (AllEntries m) m)) z)
  else
    let results := fzf searchTerm (AllEntries m) in
    if GoInt.len results =? 0 then
      Ok (setModal (setCursor 0 0 m) z)
    else
      let filtered := results in
      Ok (setModal (setCursor 0 0 (setEntries filtered m)) z).

Definition handleKeypress (key : string) (z : ZoxidePlugin)
  : Result (ZoxidePlugin * option Cmd * string) :=
  m ← modalOf z;
  if SearchMode m then
    if (key =? "enter")%string then
      z ← applySearch z;
      m ← modalOf z;
      Ok (setModal (setSearchMode false m) z, None, "")
    else if (key =? "esc")%string then
      let m := setSearchBar (TextInput.SetValue "" (SearchBar m)) m in
      let m := setEntries (AllEntries m) m in
      let m := setSearchMode false m in
      Ok (setModal m z, None, "")
    else
      let '(bar, cmd) := tiUpdate (SearchBar m) key in
      Ok (setModal (setSearchBar bar m) z,
          if cmd then Some TextInputCmd else None, "")
  else if (key =? "q")%string || (key =? "esc")%string then
    Ok (Close z, None, "")
  else if (key =? "enter")%string then
    if (GoInt.len (Entries m) >? 0) && (Cursor m <? GoInt.len (Entries m)) then
      selectedDir ← index (Entries m) (Cursor m);
      Ok (Close z, None, selectedDir)
    else Ok (z, None, "")
  else if (key =? "up")%string || (key =? "k")%string then
    if Cursor m >? 0 then
      let cursor := GoInt.sub (Cursor m) 1 in
      let render :=
        if cursor <? RenderIndex m then cursor else RenderIndex m in
      Ok (setModal (setCursor cursor render m) z, None, "")
    else
      let cursor := GoInt.sub (GoInt.len (Entries m)) 1 in
      let render :=
        maxInt 0 (GoInt.add (GoInt.sub (GoInt.len (Entries m)) (Height m)) 4) in
      Ok (setModal (setCursor cursor render m) z, None, "")
  else if (key =? "down")%string || (key =? "j")%string then
    if Cursor m <? GoInt.sub (GoInt.len (Entries m)) 1 then
      let cursor := GoInt.add (Cursor m) 1 in
      let render :=
        if cursor >=? GoInt.sub (GoInt.add (RenderIndex m) (Height m)) 4
        then GoInt.add (RenderIndex m) 1 else RenderIndex m in
      Ok (setModal (setCursor cursor render m) z, None, "")
    else
      Ok (setModal (setCursor 0 0 m) z, None, "")
  else if (key =? "/")%string then
    let m := setSearchBar (TextInput.Focus (SearchBar m)) m in
    Ok (setModal (setSearchMode true m) z, None, "")
  else Ok (z, None, "").

Definition Update (msg : Msg) (z : ZoxidePlugin)
  : Result (ZoxidePlugin * option Cmd * string) :=
  if negb (isOpen z) then Ok (z, None, "")
  else
    match msg with
    | KeyMsg key => handleKeypress key z
    | OtherMsg => Ok (z, None, "")
    end.

Definition UpdateModalSize (width height : Z) (z : ZoxidePlugin)
  : Result ZoxidePlugin :=
  m ← modalOf z;
  let w := minInt (maxInt (GoInt.div (GoInt.mul width 2) 3) 40) 100 in
  let h := minInt (maxInt (GoInt.div (GoInt.mul height 2) 3) 10) 30 in
  let m := setSize w h m in
  let m := setSearchBar (TextInput.setWidth (GoInt.sub (Width m) 4)
                                            (SearchBar m)) m in
  Ok (setModal m z).

(** The entry loop of [View]: [endIdx], the indices [i] it visits, and
    the lines it writes. *)
Definition endIdx (m : ZoxideModal) : Z :=
  let e := GoInt.sub (GoInt.add (RenderIndex m) (Height m)) 4 in
  if e >? GoInt.len (Entries m) then GoInt.len (Entries m) else e.

Definition renderedIndices (m : ZoxideModal) : list Z :=
  seqZ (RenderIndex m) (endIdx m - RenderIndex m).

(** One line of the loop: the entry at [i], marked when the cursor is
    on it. *)
Definition viewLine (m : ZoxideModal) (i : Z) : Result string :=
  entry ← index (Entries m) i;
  Ok (if i =? Cursor m then "> " +:+ entry else "  " +:+ entry).

Definition viewEntries (m : ZoxideModal) : Result (list string) :=
  foldl (fun acc i => lines ← acc; line ← viewLine m i; Ok (lines ++ [line]))
        (Ok []) (renderedIndices m).

(** [View] draws [Height - 4] entries, the other rows being header and
    footer: the height of the viewport. *)
Definition viewportHeight (m : ZoxideModal) : Z := Height m - 4.

(** What the host sends to the plugin: a key press, or a new terminal
    size. *)
Inductive Event : Type :=
| Key (key : string)
| Resize (width height : Z).

Definition step (e : Event) (z : ZoxidePlugin) : Result ZoxidePlugin :=
  match e with
  | Key key => '(z, _, _) ← handleKeypress key z; Ok z
  | Resize width height => UpdateModalSize width height z
  end.

Fixpoint run (es : list Event) (z : ZoxidePlugin) : Result ZoxidePlugin :=
  match es with
  | [] => Ok z
  | e :: es => z ← step e z; run es z
  end.

End Libraries.

(** A plugin is well formed when its modal exists once it is
    initialised, as [Init] arranges. *)
Definition wellFormed (z : ZoxidePlugin) : Prop :=
  initialized z = true -> is_Some (Modal z).

(** The state the modal is kept in while it shows a list: the list and
    its source are not empty, the filtered list is no longer than its
    source, the cursor is on an entry, and the viewport, of at least one
    row, contains it. *)
Definition Inv (m : ZoxideModal) : Prop :=
  5 <= Height m <= 2 ^ 31
  /\ 0 < GoInt.len (Entries m) <= GoInt.len (AllEntries m)
  /\ GoInt.len (AllEntries m) <= 2 ^ 62
  /\ 0 <= RenderIndex m
  /\ RenderIndex m <= Cursor m <= RenderIndex m + viewportHeight m - 1
  /\ Cursor m < GoInt.len (Entries m).

End Zoxide.

(** ** The stand-alone zoxide plugin (package main) *)

Module ZoxideMain.

Record zoxideModal : Type := mkModal {
  open : bool;
  width : Z;
  height : Z;
  cursor : Z;
  search : TextInput.Model;
  entries : list string;
  allItems : list string;
  render : Z;
  basePath : string;
  searching : bool
}.

(** [emptyFlag] is a Go map and [modal] a pointer; [None] is [nil]. *)
Record ZoxidePlugin : Type := mkPlugin {
  emptyFlag : option (gmap string bool);
  modal : option zoxideModal
}.

Definition setOpen (b : bool) (m : zoxideModal) : zoxideModal :=
  mkModal b (width m) (height m) (cursor m) (search m) (entries m)
          (allItems m) (render m) (basePath m) (searching m).

Definition setCursor (c r : Z) (m : zoxideModal) : zoxideModal :=
  mkModal (open m) (width m) (height m) c (search m) (entries m)
          (allItems m) r (basePath m) (searching m).

Definition setEntries (es : list string) (m : zoxideModal) : zoxideModal :=
  mkModal (open m) (width m) (height m) (cursor m) (search m) es
          (allItems m) (render m) (basePath m) (searching m).

Definition setAllItems (es : list string) (m : zoxideModal) : zoxideModal :=
  mkModal (open m) (width m) (height m) (cursor m) (search m) (entries m)
          es (render m) (basePath m) (searching m).

Definition setSearch (b : TextInput.Model) (m : zoxideModal) : zoxideModal :=
  mkModal (open m) (width m) (height m) (cursor m) b (entries m)
          (allItems m) (render m) (basePath m) (searching m).

Definition setSearching (b : bool) (m : zoxideModal) : zoxideModal :=
  mkModal (open m) (width m) (height m) (cursor m) (search m) (entries m)
          (allItems m) (render m) (basePath m) b.

Definition setBasePath (p : string) (m : zoxideModal) : zoxideModal :=
  mkModal (open m) (width m) (height m) (cursor m) (search m) (entries m)
          (allItems m) (render m) p (searching m).

Definition setSize (w h : Z) (m : zoxideModal) : zoxideModal :=
  mkModal (open m) w h (cursor m) (search m) (entries m)
          (allItems m) (render m) (basePath m) (searching m).

Definition setModal (m : zoxideModal) (z : ZoxidePlugin) : ZoxidePlugin :=
  mkPlugin (emptyFlag z) (Some m).

(** [z.modal.f]: dereferencing a nil [modal] panics. *)
Definition modalOf (z : ZoxidePlugin) : Result zoxideModal :=
  match modal z with
  | Some m => Ok m
  | None => Panic "nil pointer dereference"
  end.

Definition Init (z : ZoxidePlugin) : ZoxidePlugin :=
  let search :=
    TextInput.setWidth 40
      (TextInput.setCharLimit 100
         (TextInput.setPlaceholder "Search zoxide history..."
            TextInput.New)) in
  mkPlugin (Some ∅)
           (Some (mkModal false 60 20 0 search [] [] 0 "" false)).

(** [var Plugin = &ZoxidePlugin{}] *)
Definition Plugin : ZoxidePlugin := mkPlugin None None.

(** [main] *)
Definition main : ZoxidePlugin := Init Plugin.

Section Libraries.

(** [strings.TrimSpace] *)
Variable TrimSpace : string -> string.
(** [strings.ToLower] *)
Variable ToLower : string -> string.
(** [textinput.Model.Update] on a key press: the new model, and whether
    a command came back with it. *)
Variable tiUpdate : TextInput.Model -> string -> TextInput.Model * bool.

(** [IsEmptyHistory(cwd)]; [run] is the outcome of the process it starts
    when the cache has no answer.  Reading a nil map finds nothing,
    writing to one panics. *)
Definition IsEmptyHistory (cwd : string) (run : CmdOutcome) (z : ZoxidePlugin)
  : Result (ZoxidePlugin * bool) :=
  match emptyFlag z ≫= (fun flags => flags !! cwd) with
  | Some val => Ok (z, val)
  | None =>
      let empty :=
        match run with
        | inl _ => true
        | inr out => Z.of_nat (String.length out) =? 0
        end in
      match emptyFlag z with
      | Some flags => Ok (mkPlugin (Some (<[cwd := empty]> flags)) (modal z),
                          empty)
      | None => Panic "assignment to entry in nil map"
      end
  end.

(** [Show(baseDir)]; [check] is the outcome of the process started by
    [IsEmptyHistory], [query] that of the one [Show] starts itself. *)
Definition Show (baseDir : string) (check query : CmdOutcome)
  (z : ZoxidePlugin) : Result ZoxidePlugin :=
  '(z, empty) ← IsEmptyHistory baseDir check z;
  if (empty : bool) then Ok z
  else
    match query with
    | inl _ => Ok z
    | inr output =>
        let history := TrimSpace output in
        let entries := Strings.SplitLines history in
        m ← modalOf z;
        let m := setBasePath baseDir m in
        let m := setEntries entries m in
        let m := setAllItems entries m in
        let m := setCursor 0 0 m in
        let m := setOpen true m in
        let m := setSearch (TextInput.SetValue "" (search m)) m in
        let m := setSearching false m in
        Ok (setModal m z)
    end.

Definition applySearch (z : ZoxidePlugin) : Result ZoxidePlugin :=
  m ← modalOf z;
  let searchTerm := ToLower (TextInput.Value (search m)) in
  if (searchTerm =? "")%string then
    Ok (setModal (setEntries (allItems m) m) z)
  else
    let filtered :=
      filter (fun entry => Strings.Contains (ToLower entry) searchTerm = true)
             (allItems m) in
    Ok (setModal (setCursor 0 0 (setEntries filtered m)) z).

Definition HandleKeypress (key : string) (z : ZoxidePlugin)
  : Result (ZoxidePlugin * bool * string) :=
  m ← modalOf z;
  if negb (open m) then Ok (z, false, "")
  else if searching m then
    if (key =? "enter")%string then
      z ← applySearch z;
      m ← modalOf z;
      Ok (setModal (setSearching false m) z, true, "")
    else if (key =? "esc")%string then
      let m := setSearch (TextInput.SetValue "" (search m)) m in
      let m := setEntries (allItems m) m in
      let m := setSearching false m in
      Ok (setModal m z, true, "")
    else
      let '(bar, _) := tiUpdate (search m) key in
      Ok (setModal (setSearch bar m) z, true, "")
  else if (key =? "q")%string || (key =? "esc")%string then
    Ok (setModal (setOpen false m) z, true, "")
  else if (key =? "enter")%string then
    if (GoInt.len (entries m) >? 0) && (cursor m <? GoInt.len (entries m)) then
      selectedDir ← index (entries m) (cursor m);
      Ok (setModal (setOpen false m) z, true, selectedDir)
    else Ok (z, true, "")
  else if (key =? "up")%string || (key =? "k")%string then
    if cursor m >? 0 then
      let c := GoInt.sub (cursor m) 1 in
      let r := if c <? render m then c else render m in
      Ok (setModal (setCursor c r m) z, true, "")
    else
      let c := GoInt.sub (GoInt.len (entries m)) 1 in
      let r := GoInt.sub (GoInt.len (entries m)) (height m) in
      let r := if r <? 0 then 0 else r in
      Ok (setModal (setCursor c r m) z, true, "")
  else if (key =? "down")%string || (key =? "j")%string then
    if cursor m <? GoInt.sub (GoInt.len (entries m)) 1 then
      let c := GoInt.add (cursor m) 1 in
      let r := if c >=? GoInt.add (render m) (height m)
               then GoInt.add (render m) 1 else render m in
      Ok (setModal (setCursor c r m) z, true, "")
    else
      Ok (setModal (setCursor 0 0 m) z, true, "")
  else if (key =? "/")%string then
    let m := setSearch (TextInput.Focus (search m)) m in
    Ok (setModal (setSearching true m) z, true, "")
  else Ok (z, true, "").

Definition UpdateModalSize (width' height' : Z) (z : ZoxidePlugin)
  : Result ZoxidePlugin :=
  m ← modalOf z;
  let w := GoInt.div (GoInt.mul width' 2) 3 in
  let w := if w >? 100 then 100 else if w <? 40 then 40 else w in
  let h := GoInt.div (GoInt.mul height' 2) 3 in
  let h := if h >? 30 then 30 else if h <? 10 then 10 else h in
  Ok (setModal (setSize w h m) z).

Definition IsOpen (z : ZoxidePlugin) : Result bool :=
  m ← modalOf z; Ok (open m).

Definition Close (z : ZoxidePlugin) : Result ZoxidePlugin :=
  m ← modalOf z; Ok (setModal (setOpen false m) z).

(** The entry loop of [RenderModal]: [endIdx], the indices [i] it visits,
    and the lines it writes. *)
Definition endIdx (m : zoxideModal) : Z :=
  let e := GoInt.sub (GoInt.add (render m) (height m)) 4 in
  if e >? GoInt.len (entries m) then GoInt.len (entries m) else e.

Definition renderedIndices (m : zoxideModal) : list Z :=
  seqZ (render m) (endIdx m - render m).

Definition renderEntries (m : zoxideModal) : Result (list string) :=
  foldl (fun acc i =>
           lines ← acc;
           entry ← index (entries m) i;
           Ok (lines ++ [if i =? cursor m then "> " +:+ entry
                         else "  " +:+ entry]))
        (Ok []) (renderedIndices m).

(** [RenderModal] draws [height - 4] entries. *)
Definition viewportHeight (m : zoxideModal) : Z := height m - 4.

Definition step (key : string) (z : ZoxidePlugin) : Result ZoxidePlugin :=
  '(z, _, _) ← HandleKeypress key z; Ok z.

Fixpoint run (keys : list string) (z : ZoxidePlugin) : Result ZoxidePlugin :=
  match keys with
  | [] => Ok z
  | key :: keys => z ← step key z; run keys z
  end.

End Libraries.

End ZoxideMain.

(** ** Sample instances of the libraries

    Executable stand-ins for the library calls, on ASCII text, used to
    run the embedding on concrete inputs. *)

Module Sample.

Definition lowerChar (c : ascii) : ascii :=
  let n := nat_of_ascii c in
  if (65 <=? n)%nat && (n <=? 90)%nat then ascii_of_nat (n + 32) else c.

Fixpoint asciiLower (s : string) : string :=
  match s with
  | EmptyString => EmptyString
  | String c rest => String (lowerChar c) (asciiLower rest)
  end.

Definition isSpace (c : ascii) : bool :=
  let n := nat_of_ascii c in
  ((9 <=? n)%nat && (n <=? 13)%nat) || (n =? 32)%nat.

Fixpoint trimLeft (s : string) : string :=
  match s with
  | EmptyString => EmptyString
  | String c rest => if isSpace c then trimLeft rest else s
  end.

Fixpoint trimRight (s : string) : string :=
  match s with
  | EmptyString => EmptyString
  | String c rest =>
      let rest' := trimRight rest in
      if isSpace c && (rest' =? "")%string then EmptyString
      else String c rest'
  end.

Definition asciiTrim (s : string) : string := trimRight (trimLeft s).

(** A scorer that keeps, in haystack order, the candidates that contain
    the query, ignoring case. *)
Definition substringScorer (query : string) (haystack : list string)
  : list string :=
  filter (fun h => Strings.Contains (asciiLower h) (asciiLower query) = true)
         haystack.

(** A text input that appends what is typed. *)
Definition typeKey (m : TextInput.Model) (key : string)
  : TextInput.Model * bool :=
  (TextInput.mkModel (TextInput.value m +:+ key) (TextInput.focus m)
                     (TextInput.Placeholder m) (TextInput.CharLimit m)
                     (TextInput.Width m),
   false).

(** The last path element, for slash-separated paths. *)
Fixpoint baseAcc (acc : string) (s : string) : string :=
  match s with
  | EmptyString => acc
  | String c rest =>
      if Ascii.eqb c "/"%char then baseAcc EmptyString rest
      else baseAcc (acc +:+ String c EmptyString) rest
  end.

Definition slashBase (path : string) : string := baseAcc EmptyString path.

(** Decoder stand-ins: a file holds one path or one record per line,
    records being marked by a leading [@]. *)
Definition isRecordLine (line : string) : bool :=
  String.prefix "@" line.

Definition samplePaths (data : string) : string + list string :=
  let lines := Strings.SplitLines data in
  if forallb (fun line => negb (isRecordLine line)) lines then inr lines
  else inl "json: cannot unmarshal object into Go value of type string".

Definition sampleRecords (data : string)
  : string + list Sidebar.pinnedDir :=
  let lines := Strings.SplitLines data in
  if forallb isRecordLine lines then
    inr ((fun line =>
            let path := String.substring 1 (String.length line - 1) line in
            Sidebar.mkPinnedDir path (slashBase path)) <$> lines)
  else inl "json: cannot unmarshal string into Go value of type struct".

Definition newline : string := String "010"%char EmptyString.

(** Three pinned files: two paths; two records; one of each. *)
Definition pathsFile : string := "/a/proj" +:+ newline +:+ "/b/proj".
Definition recordsFile : string := "@/a/proj" +:+ newline +:+ "@/srv/www".
Definition brokenFile : string := "/a/proj" +:+ newline +:+ "@/srv/www".

Definition sidebar (pinned : string + string) (query : string)
  : Sidebar.Logged (list Sidebar.directory) :=
  Sidebar.getFilteredDirectories Sidebar.sampleWellKnown slashBase
    samplePaths sampleRecords (fun path => String.prefix "/mnt" path)
    substringScorer (Sidebar.sampleWorld pinned) query.

Definition pinned (file : string + string)
  : Sidebar.Logged (list Sidebar.directory) :=
  Sidebar.getPinnedDirectories slashBase samplePaths sampleRecords
    (Sidebar.sampleWorld file).

(** What the history tool prints for [n] visited directories, one path
    per line. *)
Definition entryName (i : nat) : string :=
  "/dir/" +:+ String (ascii_of_nat (97 + i)) EmptyString.

Definition historyOutput (n : nat) : string :=
  String.concat "" ((fun i => entryName i +:+ newline) <$> seq 0 n).

(** Package zoxide: a new plugin, opened on a history of [n] entries. *)
Definition opened (n : nat) : Result Zoxide.ZoxidePlugin :=
  '(z, _) ← Zoxide.Open "/cwd" (Zoxide.mkPlugin None false false);
  '(z, _) ← Zoxide.runLoadHistory asciiTrim (inr (historyOutput n)) z;
  Ok z.

Definition openedModal (n : nat) : Zoxide.ZoxideModal :=
  match opened n with
  | Ok (Zoxide.mkPlugin (Some m) _ _) => m
  | _ => Zoxide.mkModal 0 0 0 0 [] [] TextInput.New false
  end.

Definition openedPlugin (n : nat) : Zoxide.ZoxidePlugin :=
  Zoxide.mkPlugin (Some (openedModal n)) true true.

(** The same plugin in search mode, with [text] in the search bar. *)
Definition searchingModal (n : nat) (text : string) : Zoxide.ZoxideModal :=
  let m := openedModal n in
  Zoxide.setSearchMode true
    (Zoxide.setSearchBar
       (TextInput.Focus (TextInput.SetValue text (Zoxide.SearchBar m))) m).

Definition searchingPlugin (n : nat) (text : string) : Zoxide.ZoxidePlugin :=
  Zoxide.mkPlugin (Some (searchingModal n text)) true true.

Definition runKeys (es : list Zoxide.Event) (z : Zoxide.ZoxidePlugin)
  : Result Zoxide.ZoxidePlugin :=
  Zoxide.run asciiLower substringScorer typeKey es z.

(** Package main: the plugin after [main], shown on a history of [n]
    entries. *)
Definition shown (n : nat) : Result ZoxideMain.ZoxidePlugin :=
  ZoxideMain.Show asciiTrim "/cwd" (inr (historyOutput n))
                  (inr (historyOutput n)) ZoxideMain.main.

Definition shownModal (n : nat) : ZoxideMain.zoxideModal :=
  match shown n with
  | Ok (ZoxideMain.mkPlugin _ (Some m)) => m
  | _ => ZoxideMain.mkModal false 0 0 0 TextInput.New [] [] 0 "" false
  end.

Definition shownPlugin (n : nat) : ZoxideMain.ZoxidePlugin :=
  ZoxideMain.mkPlugin
    (Some {["/cwd" := false]}) (Some (shownModal n)).

Definition mainSearchingModal (n : nat) (text : string)
  : ZoxideMain.zoxideModal :=
  let m := shownModal n in
  ZoxideMain.setSearching true
    (ZoxideMain.setSearch
       (TextInput.Focus (TextInput.SetValue text (ZoxideMain.search m))) m).

Definition mainSearchingPlugin (n : nat) (text : string)
  : ZoxideMain.ZoxidePlugin :=
  ZoxideMain.mkPlugin
    (Some {["/cwd" := false]}) (Some (mainSearchingModal n text)).

Definition mainKeys (keys : list string) (z : ZoxideMain.ZoxidePlugin)
  : Result ZoxideMain.ZoxidePlugin :=
  ZoxideMain.run asciiLower typeKey keys z.

(** The modal of a plugin state, if the run reached one. *)
Definition modalOfRun (r : Result Zoxide.ZoxidePlugin)
  : option Zoxide.ZoxideModal :=
  match r with
  | Ok z => Zoxide.Modal z
  | Panic _ => None
  end.

Definition mainModalOfRun (r : Result ZoxideMain.ZoxidePlugin)
  : option ZoxideMain.zoxideModal :=
  match r with
  | Ok z => ZoxideMain.modal z
  | Panic _ => None
  end.

End Sample.

(** ** Rendering and the states of the modals *)

Module Render.

Definition newline : string := String "010"%char EmptyString.

(** The lines of the entry loop, each followed by a line break, as the
    string builder collects them. *)
Definition joinLines (lines : list string) : string :=
  String.concat "" ((fun line => line +:+ newline) <$> lines).

Definition helpText : string :=
  newline +:+ "Enter: select, Esc: cancel, /: search".

Section Libraries.

(** [textinput.Model.View] *)
Variable tiView : TextInput.Model -> string.
(** The lipgloss style of each modal, applied to its content:
    [style.Width(w).Height(h).Render(content)]; the two packages draw
    their borders in different colours. *)
Variable styleRender : Z -> Z -> string -> string.
Variable styleRenderMain : Z -> Z -> string -> string.

(** [View] of package zoxide. *)
Definition View (z : Zoxide.ZoxidePlugin) : Result string :=
  if negb (Zoxide.isOpen z) then Ok ""
  else
    match Zoxide.Modal z with
    | None => Ok ""
    | Some m =>
        let searchLine :=
          if Zoxide.SearchMode m
          then tiView (Zoxide.SearchBar m) +:+ newline +:+ newline
          else "Search: " +:+ TextInput.Value (Zoxide.SearchBar m)
                 +:+ newline +:+ newline in
        lines ← Zoxide.viewEntries m;
        Ok (styleRender (Zoxide.Width m) (Zoxide.Height m)
              ("Zoxide History" +:+ newline +:+ newline
                 +:+ searchLine +:+ joinLines lines +:+ helpText))
    end.

(** [RenderModal] of package main. *)
Definition RenderModal (z : ZoxideMain.ZoxidePlugin) : Result string :=
  m ← ZoxideMain.modalOf z;
  if negb (ZoxideMain.open m) then Ok ""
  else
    let searchLine :=
      if ZoxideMain.searching m
      then tiView (ZoxideMain.search m) +:+ newline +:+ newline
      else "Search: " +:+ TextInput.Value (ZoxideMain.search m)
             +:+ newline +:+ newline in
    lines ← ZoxideMain.renderEntries m;
    Ok (styleRenderMain (ZoxideMain.width m) (ZoxideMain.height m)
          ("Zoxide History" +:+ newline +:+ newline
             +:+ searchLine +:+ joinLines lines +:+ helpText)).

End Libraries.

End Render.

(** The state package zoxide keeps under every event, changes of size
    included: the list and its source are not empty, the filtered list is
    no longer than its source, and the cursor is on an entry at or below
    the first one drawn. *)
Definition OnEntry (m : Zoxide.ZoxideModal) : Prop :=
  5 <= Zoxide.Height m <= 2 ^ 31
  /\ 0 < GoInt.len (Zoxide.Entries m) <= GoInt.len (Zoxide.AllEntries m)
  /\ GoInt.len (Zoxide.AllEntries m) <= 2 ^ 62
  /\ 0 <= Zoxide.RenderIndex m <= Zoxide.Cursor m
  /\ Zoxide.Cursor m < GoInt.len (Zoxide.Entries m).

(** The state package main keeps under every key that does not panic:
    the displayed list is a sublist of all items, the offset is not
    negative and not beyond the cursor, and the cursor is on an entry,
    or at 0 on the empty list, or at -1. *)
Definition MainKept (m : ZoxideMain.zoxideModal) : Prop :=
  1 <= ZoxideMain.height m <= 2 ^ 31
  /\ sublist (ZoxideMain.entries m) (ZoxideMain.allItems m)
  /\ GoInt.len (ZoxideMain.allItems m) <= 2 ^ 62
  /\ 0 <= ZoxideMain.render m <= Z.max 0 (ZoxideMain.cursor m)
  /\ -1 <= ZoxideMain.cursor m
     < Z.max 1 (GoInt.len (ZoxideMain.entries m)).

(** The one key press of package main that panics: [enter] outside search
    mode with the cursor at [-1] on a list that is not empty. *)
Definition readsBeforeFirst (key : string) (m : ZoxideMain.zoxideModal)
  : Prop :=
  key = "enter" /\ ZoxideMain.open m = true
  /\ ZoxideMain.searching m = false
  /\ ZoxideMain.cursor m = -1 /\ ZoxideMain.entries m <> [].

(** * Properties *)

(** ** Go integers and slices *)

Lemma wrap_id z : GoInt.inRange z -> GoInt.wrap z = z.
Proof.
  unfold GoInt.inRange, GoInt.minInt, GoInt.maxInt, GoInt.wrap. intros H.
  rewrite Z.mod_small; lia.
Qed.

Lemma wrap_inRange z : GoInt.inRange (GoInt.wrap z).
Proof.
  unfold GoInt.inRange, GoInt.minInt, GoInt.maxInt, GoInt.wrap.
  pose proof (Z.mod_pos_bound (z + 2 ^ 63) (2 ^ 64) ltac:(lia)). lia.
Qed.

Lemma len_nonneg {A} (l : list A) : 0 <= GoInt.len l.
Proof. unfold GoInt.len. lia. Qed.

Lemma len_nil_iff {A} (l : list A) : GoInt.len l = 0 <-> l = [].
Proof. unfold GoInt.len. destruct l; simpl; split; intros; try done; lia. Qed.

Lemma len_pos_iff {A} (l : list A) : 0 < GoInt.len l <-> l <> [].
Proof. unfold GoInt.len. destruct l; simpl; split; intros; try done; lia. Qed.

Lemma index_in_range {A} (l : list A) (i : Z) :
  0 <= i < GoInt.len l -> exists x, index l i = Ok x /\ l !! Z.to_nat i = Some x.
Proof.
  intros Hi. unfold index.
  destruct (Z.ltb_spec i 0); [lia |].
  destruct (Z.leb_spec (GoInt.len l) i); [lia |]. simpl.
  destruct (l !! Z.to_nat i) as [x |] eqn:E; [eauto |].
  apply lookup_ge_None in E. unfold GoInt.len in *. lia.
Qed.

Lemma index_negative {A} (l : list A) (i : Z) :
  i < 0 -> index l i = Panic "index out of range".
Proof.
  intros Hi. unfold index. destruct (Z.ltb_spec i 0); [done | lia].
Qed.

(** ** The sidebar: directory map and fuzzy search *)

Section SidebarFacts.

Import Sidebar.

Context (wellKnownDirectories : list directory)
        (Base : string -> string)
        (unmarshalPaths : string -> string + list string)
        (unmarshalPinned : string -> string + list pinnedDir)
        (isExternalDiskPath : string -> bool)
        (fzf : string -> list string -> list string).

Lemma buildDirMap_snoc (dirs : list directory) (dir : directory) :
  buildDirMap (dirs ++ [dir]) = <[name dir := dir]> (buildDirMap dirs).
Proof. unfold buildDirMap. by rewrite foldl_app. Qed.

Lemma buildDirMap_lookup (dirs : list directory) (key : string)
  (d : directory) :
  buildDirMap dirs !! key = Some d -> lastNamed key d dirs.
Proof.
  revert d. induction dirs as [| x l IH] using rev_ind; intros d H.
  - unfold buildDirMap in H. simpl in H. by rewrite lookup_empty in H.
  - rewrite buildDirMap_snoc in H.
    destruct (decide (name x = key)) as [Heq | Hne].
    + rewrite Heq, lookup_insert_eq in H. injection H as <-.
      exists (length l). split; [| split]; [| done |].
      * by rewrite lookup_app_r, Nat.sub_diag.
      * intros j d' Hj Hd'. apply lookup_lt_Some in Hd'.
        rewrite length_app in Hd'. simpl in Hd'. lia.
    + rewrite lookup_insert_ne in H by done.
      destruct (IH d H) as (i & Hi & Hn & Hlast).
      exists i. split; [| split]; [| done |].
      * by apply lookup_app_l_Some.
      * intros j d' Hj Hd'.
        destruct (decide (j < length l)%nat) as [Hlt | Hge].
        -- rewrite lookup_app_l in Hd' by done. eauto.
        -- rewrite lookup_app_r in Hd' by lia.
           destruct (j - length l)%nat eqn:E; simpl in Hd'; [| done].
           by injection Hd' as <-.
Qed.

Lemma lastNamed_unique (key : string) (d1 d2 : directory)
  (dirs : list directory) :
  lastNamed key d1 dirs -> lastNamed key d2 dirs -> d1 = d2.
Proof.
  intros (i & Hi & Hn1 & Hl1) (j & Hj & Hn2 & Hl2).
  destruct (lt_eq_lt_dec i j) as [[Hlt | ->] | Hgt].
  - exfalso. by apply (Hl1 j d2).
  - congruence.
  - exfalso. by apply (Hl2 i d1).
Qed.

Lemma fuzzySearch_elem (query : string) (dirs : list directory)
  (d : directory) :
  d ∈ fuzzySearch fzf query dirs ->
  name d ∈ fzf query (name <$> dirs) /\ lastNamed (name d) d dirs.
Proof.
  unfold fuzzySearch. destruct dirs as [| d0 l]; [by intros ?%elem_of_nil |].
  intros (key & Hkey & Hlk)%list_elem_of_omap.
  apply buildDirMap_lookup in Hlk.
  assert (name d = key) as -> by (destruct Hlk as (? & ? & ? & ?); done).
  done.
Qed.

Lemma fuzzySearch_subset (query : string) (dirs : list directory)
  (d : directory) :
  d ∈ fuzzySearch fzf query dirs -> d ∈ dirs.
Proof.
  intros [_ (i & Hi & _)]%fuzzySearch_elem. by eapply list_elem_of_lookup_2.
Qed.

(** The map holds a directory for exactly the names of the list. *)
Lemma buildDirMap_is_Some (dirs : list directory) (key : string) :
  is_Some (buildDirMap dirs !! key) <-> key ∈ name <$> dirs.
Proof.
  induction dirs as [| x l IH] using rev_ind.
  - unfold buildDirMap. simpl. rewrite lookup_empty, elem_of_nil.
    split; [by intros [? ?] | done].
  - rewrite buildDirMap_snoc, fmap_app, elem_of_app. simpl.
    rewrite list_elem_of_singleton.
    destruct (decide (name x = key)) as [<- | Hne].
    + rewrite lookup_insert_eq. split; eauto.
    + rewrite lookup_insert_ne by done. rewrite IH.
      split; [by left | by intros [? | ?]].
Qed.

Lemma fuzzySearch_omap (query : string) (dirs : list directory) :
  fuzzySearch fzf query dirs
  = omap (fun key => buildDirMap dirs !! key) (fzf query (name <$> dirs)).
Proof.
  destruct dirs as [| d l]; [| done]. simpl.
  induction (fzf query []) as [| key keys IH]; [done |].
  simpl. unfold buildDirMap at 1. simpl. by rewrite lookup_empty.
Qed.

(** Match by match, in the scorer's order and leaving out the keys that
    name no directory, the result holds the last directory of the input
    that bears the matched name. *)
Lemma fuzzySearch_resolved (query : string) (dirs : list directory) :
  Forall2 (fun key d => lastNamed key d dirs)
          (filter (fun key => key ∈ name <$> dirs)
                  (fzf query (name <$> dirs)))
          (fuzzySearch fzf query dirs).
Proof.
  rewrite fuzzySearch_omap.
  induction (fzf query (name <$> dirs)) as [| key keys IH]; [constructor |].
  assert (omap (fun key => buildDirMap dirs !! key) (key :: keys)
          = match buildDirMap dirs !! key with
            | Some d => d :: omap (fun key => buildDirMap dirs !! key) keys
            | None => omap (fun key => buildDirMap dirs !! key) keys
            end) as -> by reflexivity.
  destruct (buildDirMap dirs !! key) as [d |] eqn:E.
  - rewrite filter_cons_True
      by (apply buildDirMap_is_Some; by rewrite E).
    constructor; [by apply buildDirMap_lookup | done].
  - rewrite filter_cons_False; [done |].
    rewrite <- buildDirMap_is_Some, E. by intros [? ?].
Qed.

Lemma filter_all {A} (P : A -> Prop) `{!forall x, Decision (P x)}
  (l : list A) :
  Forall P l -> filter P l = l.
Proof.
  induction 1 as [| x l Hx _ IH]; [done |].
  by rewrite filter_cons_True, IH.
Qed.

(** *** Partition into the three groups *)

Lemma isBoundary_false (d : directory) :
  isBoundary d = false <->
  location d <> pinnedLocation /\ location d <> disksLocation.
Proof.
  unfold isBoundary. rewrite orb_false_iff, !String.eqb_neq. done.
Qed.

Lemma partitionStep_plain (g : groups) (d : directory) :
  isBoundary d = false ->
  partitionStep g d =
    match currentGroup g with
    | Some refPinnedDirs =>
        mkGroups (currentGroup g) (noneDirs g) (pinnedDirs g ++ [d])
                 (diskDirs g)
    | Some refDiskDirs =>
        mkGroups (currentGroup g) (noneDirs g) (pinnedDirs g)
                 (diskDirs g ++ [d])
    | None =>
        mkGroups (currentGroup g) (noneDirs g ++ [d]) (pinnedDirs g)
                 (diskDirs g)
    end.
Proof.
  intros [H1 H2]%isBoundary_false. unfold partitionStep.
  apply String.eqb_neq in H1, H2. by rewrite H1, H2.
Qed.

Lemma partition_plain (l : list directory) : forall g : groups,
  Forall (fun d => isBoundary d = false) l ->
  foldl partitionStep g l =
    match currentGroup g with
    | Some refPinnedDirs =>
        mkGroups (currentGroup g) (noneDirs g) (pinnedDirs g ++ l) (diskDirs g)
    | Some refDiskDirs =>
        mkGroups (currentGroup g) (noneDirs g) (pinnedDirs g) (diskDirs g ++ l)
    | None =>
        mkGroups (currentGroup g) (noneDirs g ++ l) (pinnedDirs g) (diskDirs g)
    end.
Proof.
  induction l as [| d l IH]; intros g Hl.
  - destruct g as [[[] |] ? ? ?]; simpl; by rewrite ?app_nil_r.
  - inversion Hl as [| ? ? Hd Hl']; subst. simpl.
    rewrite IH by done. rewrite partitionStep_plain by done.
    destruct g as [[[] |] ? ? ?]; simpl; by rewrite <- ?app_assoc.
Qed.

Lemma partitionStep_plainGroups (g : groups) (d : directory) :
  plainGroups g -> plainGroups (partitionStep g d).
Proof.
  intros (Hn & Hp & Hd). unfold partitionStep.
  destruct (location d =? pinnedLocation)%string eqn:E1; [done |].
  destruct (location d =? disksLocation)%string eqn:E2; [done |].
  assert (isBoundary d = false) by (unfold isBoundary; by rewrite E1, E2).
  destruct (currentGroup g) as [[] |]; repeat split; simpl;
    try done; apply Forall_app; by repeat constructor.
Qed.

Lemma partitionDirs_plainGroups (allDirs : list directory) :
  plainGroups (partitionDirs allDirs).
Proof.
  unfold partitionDirs.
  assert (plainGroups (mkGroups None [] [] [])) as H0
    by (repeat split; constructor).
  revert H0. generalize (mkGroups None [] [] []).
  induction allDirs as [| d l IH]; intros g Hg; simpl; [done |].
  apply IH. by apply partitionStep_plainGroups.
Qed.

Lemma partitionDirs_sources (wk pinned disks : list directory) :
  Forall (fun d => isBoundary d = false) (wk ++ pinned ++ disks) ->
  partitionDirs (wk ++ [pinnedBoundary] ++ pinned ++ [disksBoundary] ++ disks)
  = mkGroups (Some refDiskDirs) wk pinned disks.
Proof.
  rewrite !Forall_app. intros (Hwk & Hp & Hd).
  unfold partitionDirs.
  rewrite foldl_app, (partition_plain wk) by done. simpl.
  rewrite foldl_app, (partition_plain pinned) by done. simpl.
  by rewrite (partition_plain disks).
Qed.

Lemma filter_boundary_plain (l : list directory) :
  Forall (fun d => isBoundary d = false) l ->
  filter (fun d => isBoundary d = true) l = [].
Proof.
  induction 1 as [| d l Hd _ IH]; [done |].
  rewrite filter_cons_False; [done | by rewrite Hd].
Qed.

Lemma fuzzySearch_plain (query : string) (dirs : list directory) :
  Forall (fun d => isBoundary d = false) dirs ->
  Forall (fun d => isBoundary d = false) (fuzzySearch fzf query dirs).
Proof.
  rewrite !Forall_forall. intros H d Hd.
  apply H. by eapply fuzzySearch_subset.
Qed.

(** *** The group-preserving filter *)

Local Abbreviation getDirs :=
  (getDirectories wellKnownDirectories Base unmarshalPaths unmarshalPinned
                  isExternalDiskPath).
Local Abbreviation getPinned :=
  (getPinnedDirectories Base unmarshalPaths unmarshalPinned).
Local Abbreviation getFiltered :=
  (getFilteredDirectories wellKnownDirectories Base unmarshalPaths
                          unmarshalPinned isExternalDiskPath fzf).

Lemma getDirectories_eq (w : World) :
  (getDirs w).1 =
  getWellKnownDirectories wellKnownDirectories w ++ [pinnedBoundary]
    ++ (getPinned w).1 ++ [disksBoundary]
    ++ (getExternalMediaFolders Base isExternalDiskPath w).1.
Proof.
  unfold getDirectories.
  destruct (getPinned w), (getExternalMediaFolders _ _ w). done.
Qed.

Lemma getFilteredDirectories_eq (w : World) (query : string) :
  (getFiltered w query).1 =
  let g := partitionDirs (getDirs w).1 in
  fuzzySearch fzf query (noneDirs g) ++ [pinnedBoundary]
    ++ fuzzySearch fzf query (pinnedDirs g) ++ [disksBoundary]
    ++ fuzzySearch fzf query (diskDirs g).
Proof.
  unfold getFilteredDirectories. by destruct (getDirs w).
Qed.

(** C1, as amended: for every world and every query the filtered sidebar
    holds exactly two boundaries, one fewer than its three groups, the
    pinned one before the disks one, whatever the groups' results are;
    each group is searched on its own and its result follows its boundary;
    and when no source directory sits at a boundary location the three
    groups are the three sources, and the boundaries are those of the
    unfiltered sidebar. *)
Theorem getFilteredDirectories_boundaries (w : World) (query : string) :
  let out := (getFiltered w query).1 in
  let g := partitionDirs (getDirs w).1 in
  filter (fun d => isBoundary d = true) out = [pinnedBoundary; disksBoundary]
  /\ S (length (filter (fun d => isBoundary d = true) out))
     = length (haystacks g)
  /\ out = fuzzySearch fzf query (noneDirs g) ++ [pinnedBoundary]
             ++ fuzzySearch fzf query (pinnedDirs g) ++ [disksBoundary]
             ++ fuzzySearch fzf query (diskDirs g)
  /\ (Forall (fun d => isBoundary d = false)
        (getWellKnownDirectories wellKnownDirectories w ++ (getPinned w).1
           ++ (getExternalMediaFolders Base isExternalDiskPath w).1) ->
      noneDirs g = getWellKnownDirectories wellKnownDirectories w
      /\ pinnedDirs g = (getPinned w).1
      /\ diskDirs g = (getExternalMediaFolders Base isExternalDiskPath w).1
      /\ filter (fun d => isBoundary d = true) (getDirs w).1
         = filter (fun d => isBoundary d = true) out).
Proof.
  intros out g.
  assert (filter (fun d => isBoundary d = true) out
          = [pinnedBoundary; disksBoundary]) as Hb.
  { subst out. rewrite getFilteredDirectories_eq. cbv zeta. fold g.
    destruct (partitionDirs_plainGroups (getDirs w).1) as (Hn & Hp & Hd).
    fold g in Hn, Hp, Hd.
    rewrite !filter_app.
    rewrite (filter_boundary_plain _ (fuzzySearch_plain query _ Hn)),
      (filter_boundary_plain _ (fuzzySearch_plain query _ Hp)),
      (filter_boundary_plain _ (fuzzySearch_plain query _ Hd)).
    done. }
  split; [done |]. split; [by rewrite Hb |].
  split; [subst out; by rewrite getFilteredDirectories_eq |].
  intros Hplain. subst g. rewrite Hb, getDirectories_eq.
  rewrite partitionDirs_sources by done. cbn [noneDirs pinnedDirs diskDirs].
  repeat split.
  apply Forall_app in Hplain as [Hwk [Hp Hd]%Forall_app].
  rewrite !filter_app.
  rewrite (filter_boundary_plain _ Hwk), (filter_boundary_plain _ Hp),
    (filter_boundary_plain _ Hd).
  done.
Qed.

(** C7: the pinned file is read as a flat list of paths first, each path
    named by its base name, and as a list of location/name records only
    when that fails; a file that cannot be read, or that parses as
    neither, is logged and yields no directory.  The function always
    returns. *)
Theorem getPinnedDirectories_shapes (w : World) :
  (forall err, pinnedFile w = inl err ->
     getPinned w = ([], [mkLog "Read superfile data error" err]))
  /\ (forall data paths,
        pinnedFile w = inr data -> unmarshalPaths data = inr paths ->
        getPinned w
        = ((fun path => mkDirectory path (Base path)) <$> paths, []))
  /\ (forall data err pins,
        pinnedFile w = inr data -> unmarshalPaths data = inl err ->
        unmarshalPinned data = inr pins ->
        getPinned w
        = ((fun p => mkDirectory (Location p) (Name p)) <$> pins, []))
  /\ (forall data err1 err2,
        pinnedFile w = inr data -> unmarshalPaths data = inl err1 ->
        unmarshalPinned data = inl err2 ->
        getPinned w = ([], [mkLog "Error parsing pinned data" err2])).
Proof.
  unfold getPinnedDirectories. repeat split.
  - by intros err ->.
  - by intros data paths -> ->.
  - by intros data err pins -> -> ->.
  - by intros data err1 err2 -> -> ->.
Qed.

End SidebarFacts.

(** C10: whatever the scorer, [fuzzySearch] resolves every match by
    name.  Match by match, in the scorer's order and leaving out only
    the keys that name no directory of the input, its result holds the
    last directory of the input that bears the matched name; for a
    scorer that returns candidates only, that is one directory for each
    match.  So every directory returned was looked up by the name of a
    match and is the last one with that name; two returned directories
    with one name are the same directory, so of two different
    directories that share a name at most one is returned; and a scorer
    that matches both of them gets the later one twice. *)
Theorem fuzzySearch_resolves_by_name :
  (forall fzf query dirs,
     Forall2 (fun key d => Sidebar.lastNamed key d dirs)
             (filter (fun key => key ∈ Sidebar.name <$> dirs)
                     (fzf query (Sidebar.name <$> dirs)))
             (Sidebar.fuzzySearch fzf query dirs))
  /\ (forall fzf query dirs,
        Forall (fun key => key ∈ Sidebar.name <$> dirs)
               (fzf query (Sidebar.name <$> dirs)) ->
        Forall2 (fun key d => Sidebar.lastNamed key d dirs)
                (fzf query (Sidebar.name <$> dirs))
                (Sidebar.fuzzySearch fzf query dirs))
  /\ (forall fzf query dirs d,
        d ∈ Sidebar.fuzzySearch fzf query dirs ->
        Sidebar.name d ∈ fzf query (Sidebar.name <$> dirs)
        /\ Sidebar.lastNamed (Sidebar.name d) d dirs)
  /\ (forall fzf query dirs d1 d2,
        d1 ∈ Sidebar.fuzzySearch fzf query dirs ->
        d2 ∈ Sidebar.fuzzySearch fzf query dirs ->
        Sidebar.name d1 = Sidebar.name d2 -> d1 = d2)
  /\ (let first := Sidebar.mkDirectory "/a/proj" "proj" in
      let second := Sidebar.mkDirectory "/b/proj" "proj" in
      Sample.substringScorer "proj" (Sidebar.name <$> [first; second])
      = ["proj"; "proj"]
      /\ Sidebar.fuzzySearch Sample.substringScorer "proj" [first; second]
         = [second; second]).
Proof.
  split; [| split; [| split; [| split]]].
  - intros fzf query dirs. apply fuzzySearch_resolved.
  - intros fzf query dirs Hall.
    pose proof (fuzzySearch_resolved fzf query dirs) as H.
    by rewrite (filter_all _ _ Hall) in H.
  - intros fzf query dirs d. apply fuzzySearch_elem.
  - intros fzf query dirs d1 d2 [_ H1]%fuzzySearch_elem
      [_ H2]%fuzzySearch_elem Hname.
    rewrite Hname in H1. by eapply lastNamed_unique.
  - split; vm_compute; reflexivity.
Qed.

(** The sample sidebar, searched for [proj]: both pinned paths end in
    [proj], so the later one stands for both, and the empty first and
    third groups leave their boundaries in place. *)
Example sidebar_proj :
  (Sample.sidebar (inr Sample.pathsFile) "proj").1
  = [Sidebar.pinnedBoundary;
     Sidebar.mkDirectory "/b/proj" "proj";
     Sidebar.mkDirectory "/b/proj" "proj";
     Sidebar.disksBoundary].
Proof. vm_compute. reflexivity. Qed.

(** C1, as stated, fails: the sample sidebar has three groups and its
    filtered form two boundaries. *)
Lemma getFilteredDirectories_boundaries_counterexample :
  let w := Sidebar.sampleWorld (inr Sample.pathsFile) in
  let allDirs :=
    (Sidebar.getDirectories Sidebar.sampleWellKnown Sample.slashBase
       Sample.samplePaths Sample.sampleRecords
       (fun path => String.prefix "/mnt" path) w).1 in
  let out := (Sample.sidebar (inr Sample.pathsFile) "o").1 in
  length (Sidebar.haystacks (Sidebar.partitionDirs allDirs)) = 3%nat
  /\ length (filter (fun d => Sidebar.isBoundary d = true) out) = 2%nat
  /\ length (filter (fun d => Sidebar.isBoundary d = true) out)
     <> length (Sidebar.haystacks (Sidebar.partitionDirs allDirs)).
Proof. vm_compute. repeat split. discriminate. Qed.

Lemma getFilteredDirectories_boundaries_witness :
  let w := Sidebar.sampleWorld (inr Sample.pathsFile) in
  let out := (Sample.sidebar (inr Sample.pathsFile) "o").1 in
  filter (fun d => Sidebar.isBoundary d = true) out
  = [Sidebar.pinnedBoundary; Sidebar.disksBoundary]
  /\ Sidebar.pinnedDirs
       (Sidebar.partitionDirs
          (Sidebar.getDirectories Sidebar.sampleWellKnown Sample.slashBase
             Sample.samplePaths Sample.sampleRecords
             (fun path => String.prefix "/mnt" path) w).1)
     = (Sample.pinned (inr Sample.pathsFile)).1.
Proof.
  intros w out.
  pose proof (getFilteredDirectories_boundaries Sidebar.sampleWellKnown
                Sample.slashBase Sample.samplePaths Sample.sampleRecords
                (fun path => String.prefix "/mnt" path)
                Sample.substringScorer w "o") as (Hb & _ & _ & Hsrc).
  split; [exact Hb |].
  apply Hsrc. vm_compute. repeat constructor.
Defined.

Lemma getPinnedDirectories_shapes_witness :
  (Sample.pinned (inl "open pinned.json: no such file")
   = ([], [Sidebar.mkLog "Read superfile data error"
                         "open pinned.json: no such file"]))
  /\ (Sample.pinned (inr Sample.pathsFile)
      = ([Sidebar.mkDirectory "/a/proj" "proj";
          Sidebar.mkDirectory "/b/proj" "proj"], []))
  /\ (Sample.pinned (inr Sample.recordsFile)
      = ([Sidebar.mkDirectory "/a/proj" "proj";
          Sidebar.mkDirectory "/srv/www" "www"], []))
  /\ (Sample.pinned (inr Sample.brokenFile)
      = ([], [Sidebar.mkLog "Error parsing pinned data"
                "json: cannot unmarshal string into Go value of type struct"])).
Proof.
  unfold Sample.pinned.
  pose proof (fun w => getPinnedDirectories_shapes Sample.slashBase
                         Sample.samplePaths Sample.sampleRecords
                         (Sidebar.sampleWorld w)) as shapes.
  split; [| split; [| split]].
  - apply (proj1 (shapes _)). reflexivity.
  - etransitivity;
      [apply (proj1 (proj2 (shapes _)) Sample.pathsFile
                    ["/a/proj"; "/b/proj"]) |]; reflexivity.
  - etransitivity;
      [apply (proj1 (proj2 (proj2 (shapes _))) Sample.recordsFile
                "json: cannot unmarshal object into Go value of type string"
                [Sidebar.mkPinnedDir "/a/proj" "proj";
                 Sidebar.mkPinnedDir "/srv/www" "www"]) |]; reflexivity.
  - apply (proj2 (proj2 (proj2 (shapes _))) Sample.brokenFile
             "json: cannot unmarshal object into Go value of type string");
      reflexivity.
Defined.

Lemma fuzzySearch_resolves_by_name_witness :
  let first := Sidebar.mkDirectory "/a/proj" "proj" in
  let second := Sidebar.mkDirectory "/b/proj" "proj" in
  Forall2 (fun key d => Sidebar.lastNamed key d [first; second])
          ["proj"; "proj"]
          (Sidebar.fuzzySearch Sample.substringScorer "proj" [first; second])
  /\ length (Sidebar.fuzzySearch Sample.substringScorer "proj"
                [first; second]) = 2%nat
  /\ second ∈ Sidebar.fuzzySearch Sample.substringScorer "proj" [first; second]
  /\ Sidebar.lastNamed "proj" second [first; second]
  /\ first ∉ Sidebar.fuzzySearch Sample.substringScorer "proj" [first; second].
Proof.
  intros first second.
  assert (second ∈ Sidebar.fuzzySearch Sample.substringScorer "proj"
                     [first; second]) as Hin
    by (vm_compute; apply list_elem_of_here).
  destruct fuzzySearch_resolves_by_name as (_ & Hres & Hlast & Hone & _).
  assert (Forall2 (fun key d => Sidebar.lastNamed key d [first; second])
                  ["proj"; "proj"]
                  (Sidebar.fuzzySearch Sample.substringScorer "proj"
                     [first; second])) as Hall.
  { apply (Hres Sample.substringScorer "proj" [first; second]).
    by apply (bool_decide_unpack _). }
  split; [exact Hall |].
  split; [by rewrite <- (Forall2_length _ _ _ Hall) |]. split; [exact Hin |].
  split.
  - exact (proj2 (Hlast _ _ _ _ Hin)).
  - intros Hfirst. discriminate (Hone _ _ _ _ _ Hfirst Hin eq_refl).
Defined.

(** ** The zoxide modal (package zoxide) *)

Lemma bind_Ok {A B} (a : A) (k : A -> Result B) : (Ok a ≫= k) = k a.
Proof. reflexivity. Qed.

Lemma bind_Panic {A B} (msg : string) (k : A -> Result B) :
  (Panic msg ≫= k) = Panic msg.
Proof. reflexivity. Qed.

(** Go arithmetic on values far from the ends of [int] is exact. *)
Ltac go_arith :=
  unfold GoInt.add, GoInt.sub in *;
  repeat match goal with
    | |- context [GoInt.wrap ?z] =>
        rewrite (wrap_id z)
          by (unfold GoInt.inRange, GoInt.minInt, GoInt.maxInt; lia)
    | H : context [GoInt.wrap ?z] |- _ =>
        rewrite (wrap_id z) in H
          by (unfold GoInt.inRange, GoInt.minInt, GoInt.maxInt; lia)
    end.

(** Case analysis on the comparisons of the code. *)
Ltac go_cases :=
  rewrite ?Z.gtb_ltb, ?Z.geb_leb in *;
  repeat match goal with
    | |- context [?a <? ?b] => destruct (Z.ltb_spec a b)
    | |- context [?a <=? ?b] => destruct (Z.leb_spec a b)
    | |- context [?a =? ?b] => destruct (Z.eqb_spec a b)
    end.

Section ZoxideFacts.

Import Zoxide.

Context (TrimSpace ToLower : string -> string)
        (fzf : string -> list string -> list string)
        (tiUpdate : TextInput.Model -> string -> TextInput.Model * bool).

(** fzf-lib reports every candidate at most once. *)
Hypothesis fzf_len : forall query haystack,
  (length (fzf query haystack) <= length haystack)%nat.

Local Abbreviation applySearch' := (applySearch ToLower fzf).
Local Abbreviation handleKeypress' := (handleKeypress ToLower fzf tiUpdate).
Local Abbreviation run' := (run ToLower fzf tiUpdate).

Lemma modalOf_Some (z : ZoxidePlugin) (m : ZoxideModal) :
  Modal z = Some m -> modalOf z = Ok m.
Proof. unfold modalOf. by intros ->. Qed.

(** [applySearch] in one equation. *)
Lemma applySearch_eq (z : ZoxidePlugin) (m : ZoxideModal) :
  Modal z = Some m ->
  applySearch' z =
    let searchTerm := ToLower (TextInput.Value (SearchBar m)) in
    Ok (setModal
          (setCursor 0 0
             (if (searchTerm =? "")%string then setEntries (AllEntries m) m
              else if GoInt.len (fzf searchTerm (AllEntries m)) =? 0 then m
              else setEntries (fzf searchTerm (AllEntries m)) m)) z).
Proof.
  intros Hm. unfold applySearch.
  rewrite (modalOf_Some z m Hm), bind_Ok. cbv zeta.
  destruct (_ =? "")%string; [done |].
  by destruct (GoInt.len _ =? 0).
Qed.

Lemma Inv_applySearch (z : ZoxidePlugin) (m : ZoxideModal) :
  Modal z = Some m -> Inv m ->
  exists m', applySearch' z = Ok (setModal m' z) /\ Inv m'
             /\ Cursor m' = 0 /\ RenderIndex m' = 0
             /\ AllEntries m' = AllEntries m /\ Height m' = Height m
             /\ SearchMode m' = SearchMode m.
Proof.
  intros Hm HI. rewrite (applySearch_eq z m Hm). cbv zeta.
  eexists. split; [reflexivity |].
  pose proof (fzf_len (ToLower (TextInput.Value (SearchBar m))) (AllEntries m)).
  unfold Inv, viewportHeight, GoInt.len in *.
  destruct (_ =? "")%string; [simpl; repeat split; lia |].
  destruct (Z.eqb_spec
              (Z.of_nat (length (fzf (ToLower (TextInput.Value (SearchBar m)))
                                     (AllEntries m)))) 0) as [E | E];
    simpl; repeat split; lia.
Qed.

Ltac inv_solve :=
  unfold Inv, viewportHeight, maxInt in *; simpl in *;
  go_arith; go_cases; repeat split; try done; try lia.

(** Every key press keeps the modal in [Inv], and never panics. *)
Lemma Inv_handleKeypress (key : string) (z : ZoxidePlugin) (m : ZoxideModal) :
  Modal z = Some m -> Inv m ->
  exists z' cmd selected m',
    handleKeypress' key z = Ok (z', cmd, selected)
    /\ Modal z' = Some m' /\ Inv m'
    /\ AllEntries m' = AllEntries m /\ Height m' = Height m.
Proof.
  intros Hm HI. unfold handleKeypress.
  rewrite (modalOf_Some z m Hm), bind_Ok.
  pose proof (len_nonneg (Entries m)) as Hlen.
  destruct (SearchMode m) eqn:Hsm.
  - destruct (key =? "enter")%string.
    { destruct (Inv_applySearch z m Hm HI)
        as (m1 & -> & HI1 & _ & _ & Hall & Hh & _).
      rewrite bind_Ok. unfold modalOf. simpl. rewrite ?bind_Ok.
      eexists _, _, _, _. split; [reflexivity |]. split; [reflexivity |].
      inv_solve. }
    destruct (key =? "esc")%string.
    { eexists _, _, _, _. split; [reflexivity |]. split; [reflexivity |].
      inv_solve. }
    destruct (tiUpdate (SearchBar m) key) as [bar cmd].
    eexists _, _, _, _. split; [reflexivity |]. split; [reflexivity |].
    inv_solve.
  - destruct ((key =? "q")%string || (key =? "esc")%string).
    { eexists _, _, _, _. split; [reflexivity |].
      split; [exact Hm |]. done. }
    destruct (key =? "enter")%string.
    { assert (0 <= Cursor m < GoInt.len (Entries m)) as Hc
        by (unfold Inv in HI; lia).
      destruct (index_in_range (Entries m) (Cursor m) Hc) as (x & -> & _).
      assert ((GoInt.len (Entries m) >? 0)
              && (Cursor m <? GoInt.len (Entries m)) = true) as ->.
      { rewrite Z.gtb_ltb, andb_true_iff, !Z.ltb_lt. lia. }
      rewrite bind_Ok.
      eexists _, _, _, _. split; [reflexivity |].
      split; [exact Hm |]. done. }
    destruct ((key =? "up")%string || (key =? "k")%string).
    { rewrite Z.gtb_ltb.
      destruct (Z.ltb_spec 0 (Cursor m)) as [Hpos | Hzero];
        (eexists _, _, _, _; split; [reflexivity |];
         split; [reflexivity |]); inv_solve. }
    destruct ((key =? "down")%string || (key =? "j")%string).
    { destruct (Z.ltb_spec (Cursor m) (GoInt.sub (GoInt.len (Entries m)) 1))
        as [Hlt | Hge];
        (eexists _, _, _, _; split; [reflexivity |];
         split; [reflexivity |]).
      - revert Hlt. inv_solve.
      - inv_solve. }
    destruct (key =? "/")%string.
    { eexists _, _, _, _. split; [reflexivity |]. split; [reflexivity |].
      inv_solve. }
    eexists _, _, _, _. split; [reflexivity |]. split; [exact Hm |]. done.
Qed.

Lemma run_key (key : string) (es : list Event) (z z1 : ZoxidePlugin)
  (cmd : option Cmd) (selected : string) :
  handleKeypress' key z = Ok (z1, cmd, selected) ->
  run' (Key key :: es) z = run' es z1.
Proof. intros H. simpl. by rewrite H. Qed.

Lemma Inv_run (keys : list string) : forall (z : ZoxidePlugin) (m : ZoxideModal),
  Modal z = Some m -> Inv m ->
  exists z' m',
    run' (Key <$> keys) z = Ok z' /\ Modal z' = Some m' /\ Inv m'
    /\ AllEntries m' = AllEntries m /\ Height m' = Height m.
Proof.
  induction keys as [| key keys IH]; intros z m Hm HI.
  - by exists z, m.
  - destruct (Inv_handleKeypress key z m Hm HI)
      as (z1 & cmd & sel & m1 & Hkey & Hm1 & HI1 & Hall1 & Hh1).
    rewrite fmap_cons, (run_key _ _ _ _ _ _ Hkey).
    destruct (IH z1 m1 Hm1 HI1) as (z2 & m2 & -> & Hm2 & HI2 & Hall2 & Hh2).
    exists z2, m2. split; [done |]. split; [done |]. split; [done |].
    split; congruence.
Qed.

(** Under [Inv] the entry loop of [View] reaches the cursor. *)
Lemma Inv_rendered (m : ZoxideModal) :
  Inv m -> Cursor m ∈ renderedIndices m.
Proof.
  intros HI. unfold renderedIndices. apply elem_of_seqZ.
  unfold endIdx. cbv zeta. inv_solve.
Qed.

(** *** Cursor movement *)

Lemma handleKeypress_up (z : ZoxidePlugin) (m : ZoxideModal) :
  Modal z = Some m -> SearchMode m = false ->
  handleKeypress' "up" z =
    Ok (setModal
          (if Cursor m >? 0 then
             setCursor (GoInt.sub (Cursor m) 1)
                       (if GoInt.sub (Cursor m) 1 <? RenderIndex m
                        then GoInt.sub (Cursor m) 1 else RenderIndex m) m
           else
             setCursor (GoInt.sub (GoInt.len (Entries m)) 1)
                       (maxInt 0 (GoInt.add (GoInt.sub (GoInt.len (Entries m))
                                                       (Height m)) 4)) m) z,
        None, "").
Proof.
  intros Hm Hsm. unfold handleKeypress.
  rewrite (modalOf_Some z m Hm), bind_Ok, Hsm.
  by destruct (Cursor m >? 0).
Qed.

Lemma handleKeypress_down (z : ZoxidePlugin) (m : ZoxideModal) :
  Modal z = Some m -> SearchMode m = false ->
  handleKeypress' "down" z =
    Ok (setModal
          (if Cursor m <? GoInt.sub (GoInt.len (Entries m)) 1 then
             setCursor (GoInt.add (Cursor m) 1)
                       (if GoInt.add (Cursor m) 1
                           >=? GoInt.sub (GoInt.add (RenderIndex m) (Height m)) 4
                        then GoInt.add (RenderIndex m) 1 else RenderIndex m) m
           else setCursor 0 0 m) z,
        None, "").
Proof.
  intros Hm Hsm. unfold handleKeypress.
  rewrite (modalOf_Some z m Hm), bind_Ok, Hsm.
  by destruct (Cursor m <? GoInt.sub (GoInt.len (Entries m)) 1).
Qed.

(** Wrap-around in package zoxide: from the first entry up to the last,
    with the viewport on the last [viewportHeight] entries; from the last
    entry down to the first. *)
Lemma wraparound (z : ZoxidePlugin) (m : ZoxideModal) :
  Modal z = Some m -> SearchMode m = false ->
  1 <= GoInt.len (Entries m) <= 2 ^ 62 -> 0 <= Height m <= 2 ^ 62 ->
  (Cursor m = 0 ->
   exists m', handleKeypress' "up" z = Ok (setModal m' z, None, "")
              /\ Cursor m' = GoInt.len (Entries m) - 1
              /\ RenderIndex m'
                 = Z.max 0 (GoInt.len (Entries m) - viewportHeight m))
  /\ (Cursor m = GoInt.len (Entries m) - 1 ->
      exists m', handleKeypress' "down" z = Ok (setModal m' z, None, "")
                 /\ Cursor m' = 0 /\ RenderIndex m' = 0).
Proof.
  intros Hm Hsm Hlen Hh. split; intros Hc.
  - rewrite (handleKeypress_up z m Hm Hsm), Hc. simpl.
    eexists. split; [reflexivity |]. inv_solve.
  - rewrite (handleKeypress_down z m Hm Hsm).
    destruct (Z.ltb_spec (Cursor m) (GoInt.sub (GoInt.len (Entries m)) 1))
      as [Hlt | Hge].
    + exfalso. revert Hlt. go_arith. lia.
    + eexists. by split.
Qed.

(** A list of one entry wraps onto itself. *)
Lemma wraparound_single (z : ZoxidePlugin) (m : ZoxideModal) :
  Modal z = Some m -> SearchMode m = false ->
  GoInt.len (Entries m) = 1 -> 0 <= Height m <= 2 ^ 62 -> Cursor m = 0 ->
  (exists m', handleKeypress' "up" z = Ok (setModal m' z, None, "")
              /\ Cursor m' = 0)
  /\ (exists m', handleKeypress' "down" z = Ok (setModal m' z, None, "")
                 /\ Cursor m' = 0).
Proof.
  intros Hm Hsm Hlen Hh Hc.
  destruct (wraparound z m Hm Hsm) as [Hup Hdown]; [lia | done |].
  split.
  - destruct (Hup Hc) as (m' & ? & ? & _). exists m'. split; [done | lia].
  - destruct Hdown as (m' & ? & ? & _); [lia |]. by exists m'.
Qed.

(** On an empty list the upward wrap leaves the cursor at [-1]. *)
Lemma up_on_empty (z : ZoxidePlugin) (m : ZoxideModal) :
  Modal z = Some m -> SearchMode m = false ->
  Entries m = [] -> Cursor m = 0 ->
  exists m', handleKeypress' "up" z = Ok (setModal m' z, None, "")
             /\ Entries m' = [] /\ Cursor m' = -1.
Proof.
  intros Hm Hsm He Hc. rewrite (handleKeypress_up z m Hm Hsm), Hc, He.
  eexists. split; [reflexivity |]. by split.
Qed.

(** *** Search mode *)

Lemma handleKeypress_typed (key : string) (z : ZoxidePlugin)
  (m : ZoxideModal) :
  Modal z = Some m -> SearchMode m = true -> typed key = true ->
  exists cmd bar,
    handleKeypress' key z = Ok (setModal (setSearchBar bar m) z, cmd, "").
Proof.
  unfold typed. rewrite andb_true_iff, !negb_true_iff.
  intros Hm Hsm [He Hc]. unfold handleKeypress.
  rewrite (modalOf_Some z m Hm), bind_Ok, Hsm, He, Hc.
  destruct (tiUpdate (SearchBar m) key) as [bar cmd]. eauto.
Qed.

Lemma handleKeypress_esc (z : ZoxidePlugin) (m : ZoxideModal) :
  Modal z = Some m -> SearchMode m = true ->
  handleKeypress' "esc" z =
    Ok (setModal
          (setSearchMode false
             (setEntries (AllEntries m)
                (setSearchBar (TextInput.SetValue "" (SearchBar m)) m))) z,
        None, "").
Proof.
  intros Hm Hsm. unfold handleKeypress.
  by rewrite (modalOf_Some z m Hm), bind_Ok, Hsm.
Qed.

Lemma handleKeypress_slash (z : ZoxidePlugin) (m : ZoxideModal) :
  Modal z = Some m ->
  exists bar, handleKeypress' "/" z
              = Ok (setModal (setSearchMode true (setSearchBar bar m)) z,
                    if SearchMode m
                    then (if (tiUpdate (SearchBar m) "/").2
                          then Some TextInputCmd else None)
                    else None, "").
Proof.
  intros Hm. unfold handleKeypress.
  rewrite (modalOf_Some z m Hm), bind_Ok.
  destruct (SearchMode m) eqn:Hsm.
  - simpl. destruct (tiUpdate (SearchBar m) "/") as [bar cmd]. exists bar.
    simpl. repeat f_equal. destruct m; simpl in *. by rewrite Hsm.
  - simpl. eexists. reflexivity.
Qed.

Lemma handleKeypress_enter (z : ZoxidePlugin) (m : ZoxideModal) :
  Modal z = Some m -> SearchMode m = true ->
  handleKeypress' "enter" z =
    let searchTerm := ToLower (TextInput.Value (SearchBar m)) in
    Ok (setModal
          (setSearchMode false
             (setCursor 0 0
                (if (searchTerm =? "")%string then setEntries (AllEntries m) m
                 else if GoInt.len (fzf searchTerm (AllEntries m)) =? 0 then m
                 else setEntries (fzf searchTerm (AllEntries m)) m))) z,
        None, "").
Proof.
  intros Hm Hsm. unfold handleKeypress.
  rewrite (modalOf_Some z m Hm), bind_Ok, Hsm. simpl.
  rewrite (applySearch_eq z m Hm). reflexivity.
Qed.

(** Typing keeps the search open and the lists as they are. *)
Lemma run_typed (keys : list string) :
  forall (z : ZoxidePlugin) (m : ZoxideModal),
  Modal z = Some m -> SearchMode m = true -> forallb typed keys = true ->
  forall es, exists bar,
    run' ((Key <$> keys) ++ es) z
    = run' es (setModal (setSearchBar bar m) z).
Proof.
  induction keys as [| key keys IH]; intros z m Hm Hsm Hkeys es.
  - exists (SearchBar m). simpl. destruct z, m; simpl in *. by subst.
  - simpl in Hkeys. apply andb_true_iff in Hkeys as [Hkey Hkeys'].
    destruct (handleKeypress_typed key z m Hm Hsm Hkey) as (cmd & bar & H).
    rewrite fmap_cons. rewrite <- app_comm_cons, (run_key _ _ _ _ _ _ H).
    destruct (IH (setModal (setSearchBar bar m) z) (setSearchBar bar m)
                 eq_refl Hsm Hkeys' es) as (bar' & ->).
    by exists bar'.
Qed.

(** *** Opening the modal *)

Lemma splitAcc_nonempty (sep : ascii) (s : string) : forall acc : string,
  Strings.splitAcc sep acc s <> [].
Proof.
  induction s as [| c s IH]; intros acc; simpl; [done |].
  by destruct (Ascii.eqb c sep).
Qed.

Lemma string_length_zero (s : string) :
  (Z.of_nat (String.length s) =? 0) = (s =? "")%string.
Proof. by destruct s. Qed.

Lemma getZoxideHistory_failed (run : CmdOutcome) :
  failedOrEmpty run = true ->
  exists err, getZoxideHistory TrimSpace run = ([], err).
Proof.
  unfold getZoxideHistory, failedOrEmpty. destruct run as [err | out].
  - eauto.
  - rewrite string_length_zero. intros ->. eauto.
Qed.

Lemma getZoxideHistory_entries (out : string) :
  (out =? "")%string = false ->
  getZoxideHistory TrimSpace (inr out)
  = (Strings.SplitLines (TrimSpace out), None)
  /\ Strings.SplitLines (TrimSpace out) <> [].
Proof.
  intros H. unfold getZoxideHistory. rewrite string_length_zero, H.
  split; [done | apply splitAcc_nonempty].
Qed.

Lemma Open_closed (excludePath : string) (z : ZoxidePlugin) :
  isOpen z = false -> wellFormed z ->
  exists m1,
    Open excludePath z
    = Ok (mkPlugin (Some m1) true true, Some (LoadHistory excludePath))
    /\ Cursor m1 = 0 /\ RenderIndex m1 = 0 /\ SearchMode m1 = false
    /\ TextInput.Value (SearchBar m1) = ""
    /\ (initialized z = false -> Height m1 = 20)
    /\ (forall m, Modal z = Some m -> initialized z = true ->
        Height m1 = Height m /\ Entries m1 = Entries m
        /\ AllEntries m1 = AllEntries m).
Proof.
  intros Hopen Hwf. unfold Open. rewrite Hopen.
  destruct (initialized z) eqn:Hinit; simpl.
  - destruct (Hwf Hinit) as [m Hm]. unfold modalOf. simpl. rewrite Hm.
    rewrite bind_Ok. unfold setModal, setIsOpen. simpl. rewrite Hinit.
    eexists. split; [reflexivity |].
    do 5 (split; [done |]). intros m' [= <-] _. done.
  - unfold Init. rewrite Hinit. unfold modalOf. simpl.
    eexists. split; [reflexivity |]. do 5 (split; [done |]). done.
Qed.

(** Loading after a failed or silent run of the tool closes the modal
    and hands no entries on. *)
Lemma runLoadHistory_failed (run : CmdOutcome) (z : ZoxidePlugin) :
  failedOrEmpty run = true ->
  runLoadHistory TrimSpace run z = Ok (setIsOpen false z, None).
Proof.
  intros [err H]%getZoxideHistory_failed. unfold runLoadHistory.
  rewrite H. destruct err; simpl; by rewrite ?orb_true_r.
Qed.

Lemma runLoadHistory_entries (out : string) (z : ZoxidePlugin)
  (m : ZoxideModal) :
  Modal z = Some m -> (out =? "")%string = false ->
  let entries := Strings.SplitLines (TrimSpace out) in
  runLoadHistory TrimSpace (inr out) z
  = Ok (setModal (setAllEntries entries (setEntries entries m)) z,
        Some (mkZoxideMsg entries))
  /\ entries <> [].
Proof.
  intros Hm Hout entries.
  destruct (getZoxideHistory_entries out Hout) as [H Hne]. fold entries in H, Hne.
  split; [| done]. unfold runLoadHistory. rewrite H.
  apply len_pos_iff in Hne.
  destruct (Z.eqb_spec (GoInt.len entries) 0) as [E | E]; [lia |]. simpl.
  by rewrite (modalOf_Some z m Hm), bind_Ok.
Qed.

(** The first successful [Open] of a plugin puts the modal in [Inv]. *)
Lemma Inv_first_Open (excludePath out : string) :
  (out =? "")%string = false ->
  GoInt.len (Strings.SplitLines (TrimSpace out)) <= 2 ^ 62 ->
  exists z1 z2 m2 msg,
    Open excludePath (mkPlugin None false false)
    = Ok (z1, Some (LoadHistory excludePath))
    /\ runLoadHistory TrimSpace (inr out) z1 = Ok (z2, Some msg)
    /\ isOpen z2 = true /\ Modal z2 = Some m2 /\ Inv m2.
Proof.
  intros Hout Hlen.
  destruct (Open_closed excludePath (mkPlugin None false false) eq_refl)
    as (m1 & HO & Hc & Hr & _ & _ & Hh & _); [by intros [=] |].
  destruct (runLoadHistory_entries out (mkPlugin (Some m1) true true) m1
              eq_refl Hout) as [HL Hne].
  eexists _, _, _, _. split; [exact HO |]. split; [exact HL |].
  split; [done |]. split; [reflexivity |].
  apply len_pos_iff in Hne. specialize (Hh eq_refl).
  unfold Inv, viewportHeight. simpl. rewrite Hc, Hr, Hh. lia.
Qed.

(** *** What [View] draws *)

Lemma viewEntries_lines (m : ZoxideModal) (indices : list Z) :
  Forall (fun i => 0 <= i < GoInt.len (Entries m)) indices ->
  forall acc : list string,
  exists lines,
    foldl (fun acc i =>
             lines ← acc; line ← viewLine m i; Ok (lines ++ [line]))
          (Ok acc) indices
    = Ok (acc ++ lines)
    /\ Forall2 (fun i line => viewLine m i = Ok line) indices lines.
Proof.
  induction 1 as [| i indices Hi _ IH]; intros acc.
  - exists []. simpl. by rewrite app_nil_r.
  - destruct (index_in_range (Entries m) i Hi) as (entry & Hentry & _).
    assert (viewLine m i
            = Ok (if i =? Cursor m then "> " +:+ entry else "  " +:+ entry))
      as Hline by (unfold viewLine; by rewrite Hentry, bind_Ok).
    simpl. rewrite Hline, bind_Ok.
    destruct (IH (acc ++ [if i =? Cursor m then "> " +:+ entry
                          else "  " +:+ entry])) as (lines & -> & Hlines).
    eexists (_ :: lines). rewrite <- app_assoc. split; [reflexivity |].
    by constructor.
Qed.

(** Under [Inv] the loop of [View] does not panic, writes one line for
    each entry of the viewport, and marks the entry under the cursor. *)
Lemma Inv_viewEntries (m : ZoxideModal) :
  Inv m ->
  exists lines entry,
    viewEntries m = Ok lines
    /\ length lines = length (renderedIndices m)
    /\ Entries m !! Z.to_nat (Cursor m) = Some entry
    /\ lines !! Z.to_nat (Cursor m - RenderIndex m) = Some ("> " +:+ entry).
Proof.
  intros HI. unfold viewEntries.
  assert (Forall (fun i => 0 <= i < GoInt.len (Entries m)) (renderedIndices m))
    as Hrange.
  { apply Forall_forall. intros i Hi. unfold renderedIndices in Hi.
    apply elem_of_seqZ in Hi. revert Hi. unfold endIdx. cbv zeta. inv_solve. }
  destruct (viewEntries_lines m _ Hrange []) as (lines & -> & Hlines).
  assert (0 <= Cursor m < GoInt.len (Entries m)) as Hc
    by (unfold Inv in HI; lia).
  destruct (index_in_range (Entries m) (Cursor m) Hc) as (entry & Hidx & Hentry).
  exists lines, entry. split; [done |].
  split; [symmetry; by eapply Forall2_length |]. split; [done |].
  assert (renderedIndices m !! Z.to_nat (Cursor m - RenderIndex m)
          = Some (Cursor m)) as Hlook.
  { unfold renderedIndices. apply lookup_seqZ.
    pose proof (Inv_rendered m HI) as Hin. unfold renderedIndices in Hin.
    apply elem_of_seqZ in Hin. unfold Inv in HI. lia. }
  destruct (Forall2_lookup_l _ _ _ _ _ Hlines Hlook) as (line & Hline & Hview).
  rewrite Hline. f_equal. unfold viewLine in Hview.
  rewrite Hidx, bind_Ok, Z.eqb_refl in Hview. by injection Hview.
Qed.

(** Outside search mode no key changes the displayed list. *)
Lemma browse_keeps_entries (key : string) (z z' : ZoxidePlugin)
  (m : ZoxideModal) (cmd : option Cmd) (selected : string) :
  Modal z = Some m -> SearchMode m = false ->
  handleKeypress' key z = Ok (z', cmd, selected) ->
  exists m', Modal z' = Some m' /\ Entries m' = Entries m
             /\ AllEntries m' = AllEntries m.
Proof.
  intros Hm Hsm. unfold handleKeypress.
  rewrite (modalOf_Some z m Hm), bind_Ok, Hsm.
  repeat match goal with
    | |- context [if ?b then _ else _] => destruct b
    end;
    try destruct (index (Entries m) (Cursor m)); simpl;
    intros [= <- _ _]; try discriminate; eauto.
Qed.

(** No event writes the list of all entries. *)
Lemma handleKeypress_keeps_AllEntries (key : string) (z z' : ZoxidePlugin)
  (m : ZoxideModal) (cmd : option Cmd) (selected : string) :
  Modal z = Some m ->
  handleKeypress' key z = Ok (z', cmd, selected) ->
  exists m', Modal z' = Some m' /\ AllEntries m' = AllEntries m.
Proof.
  intros Hm. destruct (SearchMode m) eqn:Hsm.
  - unfold handleKeypress. rewrite (modalOf_Some z m Hm), bind_Ok, Hsm.
    rewrite (applySearch_eq z m Hm). cbv zeta. rewrite bind_Ok.
    destruct (tiUpdate (SearchBar m) key) as [bar c].
    repeat match goal with
      | |- context [if ?b then _ else _] => destruct b
      end; simpl; intros [= <- _ _]; eauto.
  - intros H.
    destruct (browse_keeps_entries key z z' m cmd selected Hm Hsm H)
      as (m' & ? & _ & ?).
    eauto.
Qed.

Lemma UpdateModalSize_keeps_AllEntries (width height : Z)
  (z z' : ZoxidePlugin) (m : ZoxideModal) :
  Modal z = Some m -> UpdateModalSize width height z = Ok z' ->
  exists m', Modal z' = Some m' /\ AllEntries m' = AllEntries m
             /\ Entries m' = Entries m /\ Cursor m' = Cursor m
             /\ RenderIndex m' = RenderIndex m.
Proof.
  intros Hm. unfold UpdateModalSize. rewrite (modalOf_Some z m Hm), bind_Ok.
  intros [= <-]. eexists. split; [reflexivity |]. done.
Qed.

Lemma run_keeps_AllEntries (es : list Event) :
  forall (z z' : ZoxidePlugin) (m : ZoxideModal),
  Modal z = Some m -> run' es z = Ok z' ->
  exists m', Modal z' = Some m' /\ AllEntries m' = AllEntries m.
Proof.
  induction es as [| e es IH]; intros z z' m Hm; simpl.
  - intros [= <-]. eauto.
  - destruct e as [key | width height]; simpl.
    + destruct (handleKeypress' key z) as [[[z1 cmd] sel] | msg] eqn:E;
        [| by rewrite bind_Panic].
      rewrite !bind_Ok.
      destruct (handleKeypress_keeps_AllEntries key z z1 m cmd sel Hm E)
        as (m1 & Hm1 & Hall1).
      intros H. destruct (IH z1 z' m1 Hm1 H) as (m' & ? & ?).
      exists m'. split; [done | congruence].
    + destruct (UpdateModalSize width height z) as [z1 | msg] eqn:E;
        [| by rewrite bind_Panic].
      rewrite bind_Ok.
      destruct (UpdateModalSize_keeps_AllEntries width height z z1 m Hm E)
        as (m1 & Hm1 & Hall1 & _).
      intros H. destruct (IH z1 z' m1 Hm1 H) as (m' & ? & ?).
      exists m'. split; [done | congruence].
Qed.

(** [Update] hands key presses to [handleKeypress] while the modal is
    open, and does nothing otherwise. *)
Lemma Update_key (key : string) (z : ZoxidePlugin) :
  Update ToLower fzf tiUpdate (KeyMsg key) z
  = if isOpen z then handleKeypress' key z else Ok (z, None, "").
Proof. unfold Update. by destruct (isOpen z). Qed.

(** C2, as amended: in package zoxide, from a modal in [Inv] (a list
    that is not empty, the cursor on it and inside the viewport), every
    sequence of key presses (cursor movement, entering, typing,
    committing or cancelling a search, selecting, closing) runs without
    a panic and leaves the list not empty and the cursor between
    [RenderIndex] and [RenderIndex + viewportHeight - 1], among the
    entries [View] draws: its loop writes the marked line of the entry
    under the cursor.  Changes of the terminal size are not part of the
    sequence. *)
Theorem cursor_visible_after_keys (keys : list string) (z : ZoxidePlugin)
  (m : ZoxideModal) :
  Modal z = Some m -> Inv m ->
  exists z' m',
    run' (Key <$> keys) z = Ok z' /\ Modal z' = Some m'
    /\ Entries m' <> []
    /\ RenderIndex m' <= Cursor m' <= RenderIndex m' + viewportHeight m' - 1
    /\ Cursor m' ∈ renderedIndices m'
    /\ exists lines entry,
         viewEntries m' = Ok lines
         /\ Entries m' !! Z.to_nat (Cursor m') = Some entry
         /\ lines !! Z.to_nat (Cursor m' - RenderIndex m')
            = Some ("> " +:+ entry).
Proof.
  intros Hm HI.
  destruct (Inv_run keys z m Hm HI) as (z' & m' & Hrun & Hm' & HI' & _ & _).
  exists z', m'. split; [done |]. split; [done |].
  split; [| split; [| split; [by apply Inv_rendered |]]].
  - apply len_pos_iff. unfold Inv in HI'. lia.
  - unfold Inv in HI'. lia.
  - destruct (Inv_viewEntries m' HI') as (lines & entry & ? & _ & ? & ?).
    by exists lines, entry.
Qed.

End ZoxideFacts.

(** ** The stand-alone plugin (package main) *)

Section ZoxideMainFacts.

Import ZoxideMain.

Context (TrimSpace ToLower : string -> string)
        (tiUpdate : TextInput.Model -> string -> TextInput.Model * bool).

Local Abbreviation applySearch' := (applySearch ToLower).
Local Abbreviation HandleKeypress' := (HandleKeypress ToLower tiUpdate).
Local Abbreviation run' := (run ToLower tiUpdate).

Lemma main_modalOf_Some (z : ZoxidePlugin) (m : zoxideModal) :
  modal z = Some m -> modalOf z = Ok m.
Proof. unfold modalOf. by intros ->. Qed.

(** [applySearch] in one equation: the empty term returns early, before
    the cursor is reset. *)
Lemma main_applySearch_eq (z : ZoxidePlugin) (m : zoxideModal) :
  modal z = Some m ->
  applySearch' z =
    let searchTerm := ToLower (TextInput.Value (search m)) in
    Ok (setModal
          (if (searchTerm =? "")%string then setEntries (allItems m) m
           else
             setCursor 0 0
               (setEntries
                  (filter (fun entry =>
                             Strings.Contains (ToLower entry) searchTerm = true)
                          (allItems m)) m)) z).
Proof.
  intros Hm. unfold applySearch.
  rewrite (main_modalOf_Some z m Hm), bind_Ok. cbv zeta.
  by destruct (_ =? "")%string.
Qed.

Lemma main_HandleKeypress_enter (z : ZoxidePlugin) (m : zoxideModal) :
  modal z = Some m -> open m = true -> searching m = true ->
  HandleKeypress' "enter" z =
    let searchTerm := ToLower (TextInput.Value (search m)) in
    Ok (setModal
          (setSearching false
             (if (searchTerm =? "")%string then setEntries (allItems m) m
              else
                setCursor 0 0
                  (setEntries
                     (filter (fun entry =>
                                Strings.Contains (ToLower entry) searchTerm
                                = true)
                             (allItems m)) m))) z,
        true, "").
Proof.
  intros Hm Hopen Hs. unfold HandleKeypress.
  rewrite (main_modalOf_Some z m Hm), bind_Ok, Hopen, Hs. simpl.
  rewrite (main_applySearch_eq z m Hm). reflexivity.
Qed.

Lemma main_HandleKeypress_esc (z : ZoxidePlugin) (m : zoxideModal) :
  modal z = Some m -> open m = true -> searching m = true ->
  HandleKeypress' "esc" z =
    Ok (setModal
          (setSearching false
             (setEntries (allItems m)
                (setSearch (TextInput.SetValue "" (search m)) m))) z,
        true, "").
Proof.
  intros Hm Hopen Hs. unfold HandleKeypress.
  by rewrite (main_modalOf_Some z m Hm), bind_Ok, Hopen, Hs.
Qed.

Lemma main_HandleKeypress_typed (key : string) (z : ZoxidePlugin)
  (m : zoxideModal) :
  modal z = Some m -> open m = true -> searching m = true ->
  typed key = true ->
  exists bar,
    HandleKeypress' key z = Ok (setModal (setSearch bar m) z, true, "").
Proof.
  unfold typed. rewrite andb_true_iff, !negb_true_iff.
  intros Hm Hopen Hs [He Hc]. unfold HandleKeypress.
  rewrite (main_modalOf_Some z m Hm), bind_Ok, Hopen, Hs, He, Hc. simpl.
  destruct (tiUpdate (search m) key) as [bar cmd]. eauto.
Qed.

Lemma main_HandleKeypress_slash (z : ZoxidePlugin) (m : zoxideModal) :
  modal z = Some m -> open m = true ->
  exists bar,
    HandleKeypress' "/" z
    = Ok (setModal (setSearching true (setSearch bar m)) z, true, "").
Proof.
  intros Hm Hopen. unfold HandleKeypress.
  rewrite (main_modalOf_Some z m Hm), bind_Ok, Hopen.
  destruct (searching m) eqn:Hs; simpl.
  - destruct (tiUpdate (search m) "/") as [bar cmd]. exists bar.
    repeat f_equal. destruct m; simpl in *. by rewrite Hs.
  - eexists. reflexivity.
Qed.

Lemma main_run_key (key : string) (keys : list string)
  (z z1 : ZoxidePlugin) (handled : bool) (selected : string) :
  HandleKeypress' key z = Ok (z1, handled, selected) ->
  run' (key :: keys) z = run' keys z1.
Proof. intros H. simpl. unfold step. by rewrite H. Qed.

Lemma main_run_typed (keys : list string) :
  forall (z : ZoxidePlugin) (m : zoxideModal),
  modal z = Some m -> open m = true -> searching m = true ->
  forallb typed keys = true ->
  forall rest, exists bar,
    run' (keys ++ rest) z = run' rest (setModal (setSearch bar m) z).
Proof.
  induction keys as [| key keys IH]; intros z m Hm Hopen Hs Hkeys rest.
  - exists (search m). simpl. destruct z, m; simpl in *. by subst.
  - simpl in Hkeys. apply andb_true_iff in Hkeys as [Hkey Hkeys'].
    destruct (main_HandleKeypress_typed key z m Hm Hopen Hs Hkey)
      as (bar & H).
    rewrite <- app_comm_cons, (main_run_key _ _ _ _ _ _ H).
    destruct (IH (setModal (setSearch bar m) z) (setSearch bar m)
                 eq_refl Hopen Hs Hkeys' rest) as (bar' & ->).
    by exists bar'.
Qed.

(** *** Cursor movement *)

Lemma main_HandleKeypress_up (z : ZoxidePlugin) (m : zoxideModal) :
  modal z = Some m -> open m = true -> searching m = false ->
  HandleKeypress' "up" z =
    Ok (setModal
          (if cursor m >? 0 then
             setCursor (GoInt.sub (cursor m) 1)
                       (if GoInt.sub (cursor m) 1 <? render m
                        then GoInt.sub (cursor m) 1 else render m) m
           else
             setCursor (GoInt.sub (GoInt.len (entries m)) 1)
                       (if GoInt.sub (GoInt.len (entries m)) (height m) <? 0
                        then 0
                        else GoInt.sub (GoInt.len (entries m)) (height m)) m)
          z,
        true, "").
Proof.
  intros Hm Hopen Hs. unfold HandleKeypress.
  rewrite (main_modalOf_Some z m Hm), bind_Ok, Hopen, Hs.
  by destruct (cursor m >? 0).
Qed.

(** On an empty list the upward wrap leaves the cursor at [-1]. *)
Lemma main_up_on_empty (z : ZoxidePlugin) (m : zoxideModal) :
  modal z = Some m -> open m = true -> searching m = false ->
  entries m = [] -> cursor m = 0 ->
  exists m', HandleKeypress' "up" z = Ok (setModal m' z, true, "")
             /\ entries m' = [] /\ cursor m' = -1.
Proof.
  intros Hm Hopen Hs He Hc.
  rewrite (main_HandleKeypress_up z m Hm Hopen Hs), Hc, He.
  eexists. split; [reflexivity |]. by split.
Qed.

(** The upward wrap sets the offset from [height], four more than the
    rows [RenderModal] draws. *)
Lemma main_wrap_up (z : ZoxidePlugin) (m : zoxideModal) :
  modal z = Some m -> open m = true -> searching m = false ->
  1 <= GoInt.len (entries m) <= 2 ^ 62 -> 0 <= height m <= 2 ^ 62 ->
  cursor m = 0 ->
  exists m', HandleKeypress' "up" z = Ok (setModal m' z, true, "")
             /\ cursor m' = GoInt.len (entries m) - 1
             /\ render m' = Z.max 0 (GoInt.len (entries m) - height m).
Proof.
  intros Hm Hopen Hs Hlen Hh Hc.
  rewrite (main_HandleKeypress_up z m Hm Hopen Hs), Hc. simpl.
  eexists. split; [reflexivity |].
  simpl. go_arith. go_cases; split; lia.
Qed.

Lemma main_HandleKeypress_down (z : ZoxidePlugin) (m : zoxideModal) :
  modal z = Some m -> open m = true -> searching m = false ->
  HandleKeypress' "down" z =
    Ok (setModal
          (if cursor m <? GoInt.sub (GoInt.len (entries m)) 1 then
             setCursor (GoInt.add (cursor m) 1)
                       (if GoInt.add (cursor m) 1
                           >=? GoInt.add (render m) (height m)
                        then GoInt.add (render m) 1 else render m) m
           else setCursor 0 0 m) z,
        true, "").
Proof.
  intros Hm Hopen Hs. unfold HandleKeypress.
  rewrite (main_modalOf_Some z m Hm), bind_Ok, Hopen, Hs.
  by destruct (cursor m <? GoInt.sub (GoInt.len (entries m)) 1).
Qed.

(** The downward wrap returns to the first entry and offset 0. *)
Lemma main_wrap_down (z : ZoxidePlugin) (m : zoxideModal) :
  modal z = Some m -> open m = true -> searching m = false ->
  1 <= GoInt.len (entries m) <= 2 ^ 62 ->
  cursor m = GoInt.len (entries m) - 1 ->
  exists m', HandleKeypress' "down" z = Ok (setModal m' z, true, "")
             /\ cursor m' = 0 /\ render m' = 0.
Proof.
  intros Hm Hopen Hs Hlen Hc.
  rewrite (main_HandleKeypress_down z m Hm Hopen Hs).
  destruct (Z.ltb_spec (cursor m) (GoInt.sub (GoInt.len (entries m)) 1))
    as [Hlt | Hge].
  - exfalso. revert Hlt. go_arith. lia.
  - eexists. by split.
Qed.

(** Outside search mode no key changes the displayed list. *)
Lemma main_browse_keeps_entries (key : string) (z z' : ZoxidePlugin)
  (m : zoxideModal) (handled : bool) (selected : string) :
  modal z = Some m -> searching m = false ->
  HandleKeypress' key z = Ok (z', handled, selected) ->
  exists m', modal z' = Some m' /\ entries m' = entries m
             /\ allItems m' = allItems m.
Proof.
  intros Hm Hs. unfold HandleKeypress.
  rewrite (main_modalOf_Some z m Hm), bind_Ok, Hs.
  repeat match goal with
    | |- context [if ?b then _ else _] => destruct b
    end;
    try destruct (index (entries m) (cursor m)); simpl;
    intros [= <- _ _]; try discriminate; eauto.
Qed.

(** No key writes the list of all items. *)
Lemma main_HandleKeypress_keeps_allItems (key : string)
  (z z' : ZoxidePlugin) (m : zoxideModal) (handled : bool)
  (selected : string) :
  modal z = Some m ->
  HandleKeypress' key z = Ok (z', handled, selected) ->
  exists m', modal z' = Some m' /\ allItems m' = allItems m.
Proof.
  intros Hm. destruct (searching m) eqn:Hs.
  - unfold HandleKeypress. rewrite (main_modalOf_Some z m Hm), bind_Ok, Hs.
    rewrite (main_applySearch_eq z m Hm). cbv zeta. rewrite bind_Ok.
    destruct (tiUpdate (search m) key) as [bar c].
    repeat match goal with
      | |- context [if ?b then _ else _] => destruct b
      end; simpl; intros [= <- _ _]; eauto.
  - intros H.
    destruct (main_browse_keeps_entries key z z' m handled selected Hm Hs H)
      as (m' & ? & _ & ?).
    eauto.
Qed.

Lemma main_run_keeps_allItems (keys : list string) :
  forall (z z' : ZoxidePlugin) (m : zoxideModal),
  modal z = Some m -> run' keys z = Ok z' ->
  exists m', modal z' = Some m' /\ allItems m' = allItems m.
Proof.
  induction keys as [| key keys IH]; intros z z' m Hm; simpl.
  - intros [= <-]. eauto.
  - unfold step.
    destruct (HandleKeypress' key z) as [[[z1 handled] sel] | msg] eqn:E;
      [| by rewrite bind_Panic].
    rewrite !bind_Ok.
    destruct (main_HandleKeypress_keeps_allItems key z z1 m handled sel Hm E)
      as (m1 & Hm1 & Hall1).
    intros H. destruct (IH z1 z' m1 Hm1 H) as (m' & ? & ?).
    exists m'. split; [done | congruence].
Qed.

(** *** Opening the modal *)

Lemma main_IsEmptyHistory_cached (cwd : string) (run : CmdOutcome)
  (z : ZoxidePlugin) (flags : gmap string bool) (val : bool) :
  emptyFlag z = Some flags -> flags !! cwd = Some val ->
  IsEmptyHistory cwd run z = Ok (z, val).
Proof.
  intros Hf Hc. unfold IsEmptyHistory. rewrite Hf. simpl. by rewrite Hc.
Qed.

Lemma main_IsEmptyHistory_fresh (cwd : string) (run : CmdOutcome)
  (z : ZoxidePlugin) (flags : gmap string bool) :
  emptyFlag z = Some flags -> flags !! cwd = None ->
  IsEmptyHistory cwd run z
  = Ok (mkPlugin (Some (<[cwd := failedOrEmpty run]> flags)) (modal z),
        failedOrEmpty run).
Proof.
  intros Hf Hc. unfold IsEmptyHistory. rewrite Hf. simpl. rewrite Hc.
  unfold failedOrEmpty. destruct run as [err | out]; [done |].
  by rewrite string_length_zero.
Qed.

(** [Show] leaves the modal as it was when the check finds no history,
    unless the cache already says that there is some. *)
Lemma main_Show_closed (baseDir : string) (check query : CmdOutcome)
  (z : ZoxidePlugin) (flags : gmap string bool) :
  emptyFlag z = Some flags -> flags !! baseDir <> Some false ->
  failedOrEmpty check = true ->
  exists z', Show TrimSpace baseDir check query z = Ok z'
             /\ modal z' = modal z.
Proof.
  intros Hf Hc Hcheck. unfold Show.
  destruct (flags !! baseDir) as [[] |] eqn:E; [| done |].
  - rewrite (main_IsEmptyHistory_cached _ _ _ _ _ Hf E), bind_Ok. eauto.
  - rewrite (main_IsEmptyHistory_fresh _ _ _ _ Hf E), bind_Ok, Hcheck.
    eauto.
Qed.

(** [Show] leaves the modal as it was when its own run of the tool
    fails. *)
Lemma main_Show_failed (baseDir err : string) (check : CmdOutcome)
  (z : ZoxidePlugin) (flags : gmap string bool) :
  emptyFlag z = Some flags ->
  exists z', Show TrimSpace baseDir check (inl err) z = Ok z'
             /\ modal z' = modal z.
Proof.
  intros Hf. unfold Show.
  destruct (flags !! baseDir) as [val |] eqn:E.
  - rewrite (main_IsEmptyHistory_cached _ _ _ _ _ Hf E), bind_Ok.
    destruct val; eauto.
  - rewrite (main_IsEmptyHistory_fresh _ _ _ _ Hf E), bind_Ok.
    destruct (failedOrEmpty check); eauto.
Qed.

End ZoxideMainFacts.

(** ** The sample scorer *)

Lemma substringScorer_len (query : string) (haystack : list string) :
  (length (Sample.substringScorer query haystack) <= length haystack)%nat.
Proof. unfold Sample.substringScorer. apply length_filter. Qed.

(** ** Cursor and viewport *)

(** C2, as stated, fails on a change of size: twenty entries under the
    initial height of twenty, fifteen steps down, then a terminal of
    fifteen rows.  [UpdateModalSize] sets the height to ten and leaves
    cursor and offset alone, so the cursor, at 15, is below the six rows
    that start at 0. *)
Lemma cursor_visible_counterexample :
  exists m,
    Sample.modalOfRun
      (z ← Sample.opened 20;
       Sample.runKeys (replicate 15 (Zoxide.Key "down")
                         ++ [Zoxide.Resize 80 15]) z)
    = Some m
    /\ Zoxide.Entries m <> []
    /\ Zoxide.Cursor m = 15 /\ Zoxide.RenderIndex m = 0
    /\ Zoxide.viewportHeight m = 6
    /\ ~ (Zoxide.RenderIndex m <= Zoxide.Cursor m
          <= Zoxide.RenderIndex m + Zoxide.viewportHeight m - 1)
    /\ Zoxide.Cursor m ∉ Zoxide.renderedIndices m.
Proof.
  eexists. split; [vm_compute; reflexivity |].
  split; [done |]. split; [reflexivity |]. split; [reflexivity |].
  split; [reflexivity |]. split.
  - vm_compute. intros [_ H]. by apply H.
  - unfold Zoxide.renderedIndices. rewrite elem_of_seqZ.
    vm_compute. intros [_ H]. discriminate H.
Qed.

Lemma cursor_visible_after_keys_witness :
  Sample.opened 20 = Ok (Sample.openedPlugin 20)
  /\ Zoxide.Inv (Sample.openedModal 20)
  /\ exists z' m',
       Sample.runKeys
         (Zoxide.Key <$> replicate 17 "down" ++ ["/"; "d"; "enter"; "up"])
         (Sample.openedPlugin 20)
       = Ok z'
       /\ Zoxide.Modal z' = Some m'
       /\ Zoxide.Entries m' <> []
       /\ Zoxide.RenderIndex m' <= Zoxide.Cursor m'
          <= Zoxide.RenderIndex m' + Zoxide.viewportHeight m' - 1
       /\ Zoxide.Cursor m' ∈ Zoxide.renderedIndices m'
       /\ exists lines entry,
            Zoxide.viewEntries m' = Ok lines
            /\ Zoxide.Entries m' !! Z.to_nat (Zoxide.Cursor m') = Some entry
            /\ lines !! Z.to_nat (Zoxide.Cursor m' - Zoxide.RenderIndex m')
               = Some ("> " +:+ entry).
Proof.
  split; [vm_compute; reflexivity |].
  assert (Zoxide.Inv (Sample.openedModal 20)) as HI
    by (vm_compute; repeat split; intros H; discriminate H).
  split; [exact HI |].
  exact (cursor_visible_after_keys Sample.asciiLower Sample.substringScorer
           Sample.typeKey substringScorer_len _
           (Sample.openedPlugin 20) (Sample.openedModal 20) eq_refl HI).
Defined.

(** C3 fails in package main: the plugin after [main], shown on twenty
    entries under the initial height of twenty, cursor on the first
    entry, key [up].  The cursor wraps to 19, but the offset is set from
    [height] and stays 0, where the sixteen rows that [RenderModal] draws
    call for [max 0 (20 - 16) = 4]: the cursor is not drawn. *)
Theorem main_wrap_up_hides_cursor :
  Sample.shown 20 = Ok (Sample.shownPlugin 20)
  /\ ZoxideMain.cursor (Sample.shownModal 20) = 0
  /\ GoInt.len (ZoxideMain.entries (Sample.shownModal 20)) = 20
  /\ exists m',
       Sample.mainModalOfRun (Sample.mainKeys ["up"] (Sample.shownPlugin 20))
       = Some m'
       /\ ZoxideMain.cursor m' = 19
       /\ ZoxideMain.viewportHeight m' = 16
       /\ ZoxideMain.render m' = 0
       /\ Z.max 0 (GoInt.len (ZoxideMain.entries m')
                   - ZoxideMain.viewportHeight m') = 4
       /\ ZoxideMain.cursor m' ∉ ZoxideMain.renderedIndices m'.
Proof.
  split; [vm_compute; reflexivity |]. split; [reflexivity |].
  split; [reflexivity |].
  eexists. split; [vm_compute; reflexivity |].
  do 4 (split; [reflexivity |]).
  unfold ZoxideMain.renderedIndices. rewrite elem_of_seqZ.
  vm_compute. intros [_ H]. discriminate H.
Qed.

(** In package zoxide the same key sets the offset the claim gives. *)
Example wrap_up_shows_cursor :
  exists m',
    Sample.modalOfRun (Sample.runKeys [Zoxide.Key "up"] (Sample.openedPlugin 20))
    = Some m'
    /\ Zoxide.Cursor m' = 19 /\ Zoxide.RenderIndex m' = 4
    /\ Zoxide.Cursor m' ∈ Zoxide.renderedIndices m'.
Proof.
  eexists. split; [vm_compute; reflexivity |].
  do 2 (split; [reflexivity |]).
  unfold Zoxide.renderedIndices. rewrite elem_of_seqZ. vm_compute.
  split; [intros H | reflexivity]; discriminate H.
Qed.

(** ** Search mode *)

(** C4: in both plugins, beginning a search, typing any keys that do not
    end it, and cancelling leaves the displayed list equal to the list
    of all entries, which is the one from before the search, the search
    text empty and the search mode off; and no sequence of events,
    commits of a search included, changes the list of all entries. *)
Theorem cancel_search_restores :
  (forall ToLower fzf tiUpdate (keys : list string)
          (z : Zoxide.ZoxidePlugin) (m : Zoxide.ZoxideModal),
     Zoxide.Modal z = Some m -> forallb typed keys = true ->
     exists z' m',
       Zoxide.run ToLower fzf tiUpdate
                  (Zoxide.Key <$> "/" :: keys ++ ["esc"]) z = Ok z'
       /\ Zoxide.Modal z' = Some m'
       /\ Zoxide.Entries m' = Zoxide.AllEntries m
       /\ Zoxide.AllEntries m' = Zoxide.AllEntries m
       /\ TextInput.Value (Zoxide.SearchBar m') = ""
       /\ Zoxide.SearchMode m' = false)
  /\ (forall ToLower tiUpdate (keys : list string)
             (z : ZoxideMain.ZoxidePlugin) (m : ZoxideMain.zoxideModal),
        ZoxideMain.modal z = Some m -> ZoxideMain.open m = true ->
        forallb typed keys = true ->
        exists z' m',
          ZoxideMain.run ToLower tiUpdate ("/" :: keys ++ ["esc"]) z = Ok z'
          /\ ZoxideMain.modal z' = Some m'
          /\ ZoxideMain.entries m' = ZoxideMain.allItems m
          /\ ZoxideMain.allItems m' = ZoxideMain.allItems m
          /\ TextInput.Value (ZoxideMain.search m') = ""
          /\ ZoxideMain.searching m' = false)
  /\ (forall ToLower fzf tiUpdate (es : list Zoxide.Event)
             (z z' : Zoxide.ZoxidePlugin) (m : Zoxide.ZoxideModal),
        Zoxide.Modal z = Some m ->
        Zoxide.run ToLower fzf tiUpdate es z = Ok z' ->
        exists m', Zoxide.Modal z' = Some m'
                   /\ Zoxide.AllEntries m' = Zoxide.AllEntries m)
  /\ (forall ToLower tiUpdate (keys : list string)
             (z z' : ZoxideMain.ZoxidePlugin) (m : ZoxideMain.zoxideModal),
        ZoxideMain.modal z = Some m ->
        ZoxideMain.run ToLower tiUpdate keys z = Ok z' ->
        exists m', ZoxideMain.modal z' = Some m'
                   /\ ZoxideMain.allItems m' = ZoxideMain.allItems m).
Proof.
  split; [| split; [| split]].
  - intros ToLower fzf tiUpdate keys z m Hm Hkeys.
    destruct (handleKeypress_slash ToLower fzf tiUpdate z m Hm) as (bar & H).
    rewrite fmap_cons, (run_key _ _ _ _ _ _ _ _ _ H), fmap_app.
    set (m1 := Zoxide.setSearchMode true (Zoxide.setSearchBar bar m)).
    destruct (run_typed ToLower fzf tiUpdate keys (Zoxide.setModal m1 z) m1
                        eq_refl eq_refl Hkeys (Zoxide.Key <$> ["esc"]))
      as (bar' & ->).
    set (m2 := Zoxide.setSearchBar bar' m1).
    rewrite fmap_cons,
      (run_key _ _ _ _ _ _ _ _ _
         (handleKeypress_esc ToLower fzf tiUpdate
            (Zoxide.setModal m2 (Zoxide.setModal m1 z)) m2 eq_refl eq_refl)).
    eexists _, _. split; [reflexivity |]. split; [reflexivity |]. done.
  - intros ToLower tiUpdate keys z m Hm Hopen Hkeys.
    destruct (main_HandleKeypress_slash ToLower tiUpdate z m Hm Hopen)
      as (bar & H).
    rewrite (main_run_key _ _ _ _ _ _ _ _ H).
    set (m1 := ZoxideMain.setSearching true (ZoxideMain.setSearch bar m)).
    destruct (main_run_typed ToLower tiUpdate keys (ZoxideMain.setModal m1 z)
                             m1 eq_refl Hopen eq_refl Hkeys ["esc"])
      as (bar' & ->).
    set (m2 := ZoxideMain.setSearch bar' m1).
    rewrite (main_run_key _ _ _ _ _ _ _ _
               (main_HandleKeypress_esc ToLower tiUpdate
                  (ZoxideMain.setModal m2 (ZoxideMain.setModal m1 z)) m2
                  eq_refl Hopen eq_refl)).
    eexists _, _. split; [reflexivity |]. split; [reflexivity |]. done.
  - intros ToLower fzf tiUpdate es z z' m.
    apply run_keeps_AllEntries.
  - intros ToLower tiUpdate keys z z' m.
    apply main_run_keeps_allItems.
Qed.

Lemma cancel_search_restores_witness :
  (exists z' m',
     Sample.runKeys (Zoxide.Key <$> "/" :: ["d"; "i"; "r"; "q"] ++ ["esc"])
                    (Sample.openedPlugin 3) = Ok z'
     /\ Zoxide.Modal z' = Some m'
     /\ Zoxide.Entries m' = Zoxide.AllEntries (Sample.openedModal 3)
     /\ Zoxide.AllEntries m' = Zoxide.AllEntries (Sample.openedModal 3)
     /\ TextInput.Value (Zoxide.SearchBar m') = ""
     /\ Zoxide.SearchMode m' = false)
  /\ (exists z' m',
        Sample.mainKeys ("/" :: ["d"; "i"; "r"; "q"] ++ ["esc"])
                        (Sample.shownPlugin 3) = Ok z'
        /\ ZoxideMain.modal z' = Some m'
        /\ ZoxideMain.entries m' = ZoxideMain.allItems (Sample.shownModal 3)
        /\ ZoxideMain.allItems m' = ZoxideMain.allItems (Sample.shownModal 3)
        /\ TextInput.Value (ZoxideMain.search m') = ""
        /\ ZoxideMain.searching m' = false).
Proof.
  split.
  - exact (proj1 cancel_search_restores Sample.asciiLower
             Sample.substringScorer Sample.typeKey ["d"; "i"; "r"; "q"]
             (Sample.openedPlugin 3) (Sample.openedModal 3)
             eq_refl eq_refl).
  - exact (proj1 (proj2 cancel_search_restores) Sample.asciiLower
             Sample.typeKey ["d"; "i"; "r"; "q"]
             (Sample.shownPlugin 3) (Sample.shownModal 3)
             eq_refl eq_refl eq_refl).
Defined.

(** C5, as stated, fails twice.  In package zoxide a query without a
    match keeps the list that was displayed instead of the empty result;
    in package main committing the empty query returns before the cursor
    is reset, here leaving it at 1. *)
Lemma commit_search_counterexample :
  (exists m',
     Sample.modalOfRun
       (z ← Sample.opened 3;
        Sample.runKeys [Zoxide.Key "/"; Zoxide.Key "z"; Zoxide.Key "enter"] z)
     = Some m'
     /\ TextInput.Value (Zoxide.SearchBar m') = "z"
     /\ Sample.substringScorer "z" (Zoxide.AllEntries m') = []
     /\ Zoxide.Entries m' = ["/dir/a"; "/dir/b"; "/dir/c"]
     /\ Zoxide.Entries m'
        <> Sample.substringScorer "z" (Zoxide.AllEntries m'))
  /\ (exists m',
        Sample.mainModalOfRun
          (z ← Sample.shown 3; Sample.mainKeys ["down"; "/"; "enter"] z)
        = Some m'
        /\ TextInput.Value (ZoxideMain.search m') = ""
        /\ ZoxideMain.entries m' = ZoxideMain.allItems m'
        /\ ZoxideMain.cursor m' = 1
        /\ ZoxideMain.cursor m' <> 0).
Proof.
  split; eexists; (split; [vm_compute; reflexivity |]); repeat split; done.
Qed.

(** C5, as amended: committing a search leaves search mode and never
    touches the list of all entries.  With an empty lower-cased query the
    displayed list becomes the list of all entries; with a query that
    has a match it becomes the filtered result, and keys pressed after
    the commit, outside search mode, leave it displayed.  Package zoxide
    resets cursor and offset on every commit and keeps the displayed list
    when nothing matches; package main resets them when the query is not
    empty. *)
Theorem commit_search :
  (forall ToLower fzf tiUpdate
          (z : Zoxide.ZoxidePlugin) (m : Zoxide.ZoxideModal),
     Zoxide.Modal z = Some m -> Zoxide.SearchMode m = true ->
     let searchTerm := ToLower (TextInput.Value (Zoxide.SearchBar m)) in
     exists m',
       Zoxide.handleKeypress ToLower fzf tiUpdate "enter" z
       = Ok (Zoxide.setModal m' z, None, "")
       /\ Zoxide.SearchMode m' = false
       /\ Zoxide.AllEntries m' = Zoxide.AllEntries m
       /\ Zoxide.Cursor m' = 0 /\ Zoxide.RenderIndex m' = 0
       /\ (searchTerm = "" -> Zoxide.Entries m' = Zoxide.AllEntries m)
       /\ (searchTerm <> "" -> fzf searchTerm (Zoxide.AllEntries m) <> [] ->
           Zoxide.Entries m' = fzf searchTerm (Zoxide.AllEntries m))
       /\ (searchTerm <> "" -> fzf searchTerm (Zoxide.AllEntries m) = [] ->
           Zoxide.Entries m' = Zoxide.Entries m)
       /\ (forall key z' cmd selected,
             Zoxide.handleKeypress ToLower fzf tiUpdate key
                                   (Zoxide.setModal m' z)
             = Ok (z', cmd, selected) ->
             exists m'', Zoxide.Modal z' = Some m''
                         /\ Zoxide.Entries m'' = Zoxide.Entries m'))
  /\ (forall ToLower tiUpdate
             (z : ZoxideMain.ZoxidePlugin) (m : ZoxideMain.zoxideModal),
        ZoxideMain.modal z = Some m -> ZoxideMain.open m = true ->
        ZoxideMain.searching m = true ->
        let searchTerm := ToLower (TextInput.Value (ZoxideMain.search m)) in
        exists m',
          ZoxideMain.HandleKeypress ToLower tiUpdate "enter" z
          = Ok (ZoxideMain.setModal m' z, true, "")
          /\ ZoxideMain.searching m' = false
          /\ ZoxideMain.allItems m' = ZoxideMain.allItems m
          /\ (searchTerm = "" ->
              ZoxideMain.entries m' = ZoxideMain.allItems m)
          /\ (searchTerm <> "" ->
              ZoxideMain.entries m'
              = filter (fun entry =>
                          Strings.Contains (ToLower entry) searchTerm = true)
                       (ZoxideMain.allItems m)
              /\ ZoxideMain.cursor m' = 0 /\ ZoxideMain.render m' = 0)
          /\ (forall key z' handled selected,
                ZoxideMain.HandleKeypress ToLower tiUpdate key
                                          (ZoxideMain.setModal m' z)
                = Ok (z', handled, selected) ->
                exists m'', ZoxideMain.modal z' = Some m''
                            /\ ZoxideMain.entries m'' = ZoxideMain.entries m')).
Proof.
  split.
  - intros ToLower fzf tiUpdate z m Hm Hsm searchTerm.
    rewrite (handleKeypress_enter ToLower fzf tiUpdate z m Hm Hsm).
    cbv zeta. fold searchTerm.
    eexists. split; [reflexivity |].
    destruct (String.eqb_spec searchTerm "") as [E | E].
    + do 4 (split; [done |]). split; [done |]. split; [done |].
      split; [done |].
      intros key z' cmd sel H.
      eapply browse_keeps_entries in H as (m'' & ? & ? & _);
        [eauto | reflexivity | reflexivity].
    + destruct (Z.eqb_spec (GoInt.len (fzf searchTerm (Zoxide.AllEntries m))) 0)
        as [E0 | E0].
      * apply len_nil_iff in E0.
        do 4 (split; [done |]). split; [done |]. split; [done |].
        split; [done |].
        intros key z' cmd sel H.
        eapply browse_keeps_entries in H as (m'' & ? & ? & _);
          [eauto | reflexivity | reflexivity].
      * rewrite len_nil_iff in E0.
        do 4 (split; [done |]). split; [done |]. split; [done |].
        split; [done |].
        intros key z' cmd sel H.
        eapply browse_keeps_entries in H as (m'' & ? & ? & _);
          [eauto | reflexivity | reflexivity].
  - intros ToLower tiUpdate z m Hm Hopen Hs searchTerm.
    rewrite (main_HandleKeypress_enter ToLower tiUpdate z m Hm Hopen Hs).
    cbv zeta. fold searchTerm.
    eexists. split; [reflexivity |].
    destruct (String.eqb_spec searchTerm "") as [E | E].
    + do 2 (split; [done |]). split; [done |]. split; [done |].
      intros key z' handled sel H.
      eapply main_browse_keeps_entries in H as (m'' & ? & ? & _);
        [eauto | reflexivity | reflexivity].
    + do 2 (split; [done |]). split; [done |]. split; [done |].
      intros key z' handled sel H.
      eapply main_browse_keeps_entries in H as (m'' & ? & ? & _);
        [eauto | reflexivity | reflexivity].
Qed.

Lemma commit_search_witness :
  (Sample.runKeys [Zoxide.Key "/"; Zoxide.Key "B"] (Sample.openedPlugin 3)
   = Ok (Sample.searchingPlugin 3 "B"))
  /\ (exists m',
        Zoxide.handleKeypress Sample.asciiLower Sample.substringScorer
          Sample.typeKey "enter" (Sample.searchingPlugin 3 "B")
        = Ok (Zoxide.setModal m' (Sample.searchingPlugin 3 "B"), None, "")
        /\ Zoxide.Entries m' = ["/dir/b"]
        /\ Zoxide.Cursor m' = 0 /\ Zoxide.RenderIndex m' = 0)
  /\ (exists m',
        ZoxideMain.HandleKeypress Sample.asciiLower Sample.typeKey "enter"
          (Sample.mainSearchingPlugin 3 "B")
        = Ok (ZoxideMain.setModal m' (Sample.mainSearchingPlugin 3 "B"),
              true, "")
        /\ ZoxideMain.entries m' = ["/dir/b"]
        /\ ZoxideMain.cursor m' = 0 /\ ZoxideMain.render m' = 0).
Proof.
  split; [vm_compute; reflexivity |]. split.
  - destruct (proj1 commit_search Sample.asciiLower Sample.substringScorer
                Sample.typeKey (Sample.searchingPlugin 3 "B")
                (Sample.searchingModal 3 "B") eq_refl eq_refl)
      as (m' & H & _ & _ & Hc & Hr & _ & Hmatch & _).
    exists m'. split; [exact H |]. split; [| done].
    rewrite Hmatch; [vm_compute; reflexivity | |];
      vm_compute; discriminate.
  - destruct (proj2 commit_search Sample.asciiLower Sample.typeKey
                (Sample.mainSearchingPlugin 3 "B")
                (Sample.mainSearchingModal 3 "B") eq_refl eq_refl eq_refl)
      as (m' & H & _ & _ & _ & Hmatch & _).
    exists m'. split; [exact H |].
    destruct Hmatch as (He & Hc & Hr); [vm_compute; discriminate |].
    split; [| done]. rewrite He. vm_compute. reflexivity.
Defined.

(** C6, as stated, fails in package zoxide: a query that matches nothing
    leaves the three entries that were displayed. *)
Lemma no_match_commit_counterexample :
  exists m',
    Sample.modalOfRun
      (z ← Sample.opened 3;
       Sample.runKeys [Zoxide.Key "/"; Zoxide.Key "z"; Zoxide.Key "enter"] z)
    = Some m'
    /\ TextInput.Value (Zoxide.SearchBar m') = "z"
    /\ Sample.substringScorer (Sample.asciiLower "z") (Zoxide.AllEntries m')
       = []
    /\ Zoxide.Entries m' = ["/dir/a"; "/dir/b"; "/dir/c"]
    /\ Zoxide.Entries m' <> [].
Proof.
  eexists. split; [vm_compute; reflexivity |]. repeat split; done.
Qed.

(** C6, as amended: committing a query that is not empty and matches
    nothing is no error in either plugin.  Package zoxide, which asks the
    fuzzy scorer, keeps the displayed list as it was and puts cursor and
    offset at 0; package main, which filters by substring, displays the
    empty list, cursor and offset at 0. *)
Theorem no_match_commit :
  (forall ToLower fzf tiUpdate
          (z : Zoxide.ZoxidePlugin) (m : Zoxide.ZoxideModal),
     Zoxide.Modal z = Some m -> Zoxide.SearchMode m = true ->
     let searchTerm := ToLower (TextInput.Value (Zoxide.SearchBar m)) in
     searchTerm <> "" -> fzf searchTerm (Zoxide.AllEntries m) = [] ->
     exists m',
       Zoxide.handleKeypress ToLower fzf tiUpdate "enter" z
       = Ok (Zoxide.setModal m' z, None, "")
       /\ Zoxide.Entries m' = Zoxide.Entries m
       /\ Zoxide.AllEntries m' = Zoxide.AllEntries m
       /\ Zoxide.Cursor m' = 0 /\ Zoxide.RenderIndex m' = 0
       /\ Zoxide.SearchMode m' = false)
  /\ (forall ToLower tiUpdate
             (z : ZoxideMain.ZoxidePlugin) (m : ZoxideMain.zoxideModal),
        ZoxideMain.modal z = Some m -> ZoxideMain.open m = true ->
        ZoxideMain.searching m = true ->
        let searchTerm := ToLower (TextInput.Value (ZoxideMain.search m)) in
        searchTerm <> "" ->
        Forall (fun entry =>
                  Strings.Contains (ToLower entry) searchTerm = false)
               (ZoxideMain.allItems m) ->
        exists m',
          ZoxideMain.HandleKeypress ToLower tiUpdate "enter" z
          = Ok (ZoxideMain.setModal m' z, true, "")
          /\ ZoxideMain.entries m' = []
          /\ ZoxideMain.allItems m' = ZoxideMain.allItems m
          /\ ZoxideMain.cursor m' = 0 /\ ZoxideMain.render m' = 0
          /\ ZoxideMain.searching m' = false).
Proof.
  split.
  - intros ToLower fzf tiUpdate z m Hm Hsm searchTerm Hterm Hnone.
    rewrite (handleKeypress_enter ToLower fzf tiUpdate z m Hm Hsm).
    cbv zeta. fold searchTerm.
    apply String.eqb_neq in Hterm. rewrite Hterm, Hnone. simpl.
    eexists. split; [reflexivity |]. done.
  - intros ToLower tiUpdate z m Hm Hopen Hs searchTerm Hterm Hnone.
    rewrite (main_HandleKeypress_enter ToLower tiUpdate z m Hm Hopen Hs).
    cbv zeta. fold searchTerm.
    apply String.eqb_neq in Hterm. rewrite Hterm.
    eexists. split; [reflexivity |]. split; [| done]. simpl.
    clear -Hnone.
    induction Hnone as [| entry l Hentry _ IH]; [done |].
    rewrite filter_cons_False; [done | by rewrite Hentry].
Qed.

Lemma no_match_commit_witness :
  (exists m',
     Zoxide.handleKeypress Sample.asciiLower Sample.substringScorer
       Sample.typeKey "enter" (Sample.searchingPlugin 3 "Z")
     = Ok (Zoxide.setModal m' (Sample.searchingPlugin 3 "Z"), None, "")
     /\ Zoxide.Entries m' = ["/dir/a"; "/dir/b"; "/dir/c"]
     /\ Zoxide.Cursor m' = 0 /\ Zoxide.RenderIndex m' = 0)
  /\ (exists m',
        ZoxideMain.HandleKeypress Sample.asciiLower Sample.typeKey "enter"
          (Sample.mainSearchingPlugin 3 "Z")
        = Ok (ZoxideMain.setModal m' (Sample.mainSearchingPlugin 3 "Z"),
              true, "")
        /\ ZoxideMain.entries m' = []
        /\ ZoxideMain.cursor m' = 0 /\ ZoxideMain.render m' = 0).
Proof.
  split.
  - destruct (proj1 no_match_commit Sample.asciiLower Sample.substringScorer
                Sample.typeKey (Sample.searchingPlugin 3 "Z")
                (Sample.searchingModal 3 "Z") eq_refl eq_refl)
      as (m' & H & He & _ & Hc & Hr & _);
      [vm_compute; discriminate | vm_compute; reflexivity |].
    exists m'. split; [exact H |]. split; [| done].
    rewrite He. vm_compute. reflexivity.
  - destruct (proj2 no_match_commit Sample.asciiLower Sample.typeKey
                (Sample.mainSearchingPlugin 3 "Z")
                (Sample.mainSearchingModal 3 "Z") eq_refl eq_refl eq_refl)
      as (m' & H & He & _ & Hc & Hr & _);
      [vm_compute; discriminate | vm_compute; repeat constructor |].
    exists m'. split; [exact H |]. done.
Defined.

(** ** Opening without history *)

(** Where the claim holds.  When the history tool fails or prints
    nothing, [Open] followed by the command it returns leaves the modal
    closed, hands on no message and changes no entry; [Show] leaves the
    modal as it was whenever its own run of the tool fails, and when the
    tool prints nothing on the path that does not answer from a cached
    [false]. *)
Lemma closed_without_history :
  (forall TrimSpace excludePath (run : CmdOutcome) (z : Zoxide.ZoxidePlugin),
     Zoxide.isOpen z = false -> Zoxide.wellFormed z ->
     failedOrEmpty run = true ->
     exists z1 z2,
       Zoxide.Open excludePath z
       = Ok (z1, Some (Zoxide.LoadHistory excludePath))
       /\ Zoxide.runLoadHistory TrimSpace run z1 = Ok (z2, None)
       /\ Zoxide.isOpen z2 = false
       /\ Zoxide.Modal z2 = Zoxide.Modal z1
       /\ forall m, Zoxide.Modal z = Some m -> Zoxide.initialized z = true ->
            exists m2, Zoxide.Modal z2 = Some m2
                       /\ Zoxide.Entries m2 = Zoxide.Entries m
                       /\ Zoxide.AllEntries m2 = Zoxide.AllEntries m)
  /\ (forall TrimSpace baseDir (check query : CmdOutcome)
             (z : ZoxideMain.ZoxidePlugin) (flags : gmap string bool)
             (m : ZoxideMain.zoxideModal),
        ZoxideMain.emptyFlag z = Some flags -> ZoxideMain.modal z = Some m ->
        ZoxideMain.open m = false ->
        failedOrEmpty check = true -> failedOrEmpty query = true ->
        flags !! baseDir <> Some false \/ (exists err, query = inl err) ->
        exists z',
          ZoxideMain.Show TrimSpace baseDir check query z = Ok z'
          /\ ZoxideMain.modal z' = Some m).
Proof.
  split.
  - intros TrimSpace excludePath run z Hopen Hwf Hrun.
    destruct (Open_closed excludePath z Hopen Hwf)
      as (m1 & HO & _ & _ & _ & _ & _ & Hsame).
    eexists _, _. split; [exact HO |].
    split; [by apply runLoadHistory_failed |].
    split; [done |]. split; [done |].
    intros m Hm Hinit. exists m1. split; [done |].
    by destruct (Hsame m Hm Hinit) as (_ & ? & ?).
  - intros TrimSpace baseDir check query z flags m Hf Hm Hopen Hcheck Hquery
      [Hcache | [err ->]].
    + destruct (main_Show_closed TrimSpace baseDir check query z flags
                  Hf Hcache Hcheck) as (z' & H & Hmodal).
      exists z'. split; [done | congruence].
    + destruct (main_Show_failed TrimSpace baseDir err check z flags Hf)
        as (z' & H & Hmodal).
      exists z'. split; [done | congruence].
Qed.

(** C8 fails in package main.  [Show] asks [IsEmptyHistory], which
    answers from its cache, and does not look at the output of its own
    run of the tool.  The plugin after [main] is shown on two entries and
    closed with [q]: the modal is closed and the cache holds [false]
    for the directory.  The tool then prints nothing, which is an empty
    history; [Show] opens the modal on the single empty entry that
    splitting the empty output gives, and [enter] selects it.  On the
    same output [Show] stays closed when nothing is cached, and so does
    the load command of package zoxide. *)
Theorem main_Show_opens_without_history :
  exists z1 z2 m,
    Sample.shown 2 = Ok z1
    /\ Sample.mainKeys ["q"] z1 = Ok z2
    /\ Sample.mainModalOfRun (Ok z2) = Some m
    /\ ZoxideMain.open m = false
    /\ (ZoxideMain.emptyFlag z2 ≫= fun flags => flags !! "/cwd") = Some false
    /\ failedOrEmpty (inr "") = true
    /\ (exists z3 m3,
          ZoxideMain.Show Sample.asciiTrim "/cwd" (inr "") (inr "") z2 = Ok z3
          /\ Sample.mainModalOfRun (Ok z3) = Some m3
          /\ ZoxideMain.open m3 = true
          /\ ZoxideMain.entries m3 = [""]
          /\ ZoxideMain.allItems m3 = [""]
          /\ exists z4,
               ZoxideMain.HandleKeypress Sample.asciiLower Sample.typeKey
                 "enter" z3
               = Ok (z4, true, ""))
    /\ (exists z',
          ZoxideMain.Show Sample.asciiTrim "/cwd" (inr "") (inr "")
            ZoxideMain.main
          = Ok z'
          /\ ZoxideMain.modal z' = ZoxideMain.modal ZoxideMain.main
          /\ ZoxideMain.IsOpen z' = Ok false)
    /\ (exists y1 y2,
          Zoxide.Open "/cwd" (Zoxide.mkPlugin None false false)
          = Ok (y1, Some (Zoxide.LoadHistory "/cwd"))
          /\ Zoxide.runLoadHistory Sample.asciiTrim (inr "") y1
             = Ok (y2, None)
          /\ Zoxide.isOpen y2 = false).
Proof.
  eexists _, _, _. split; [vm_compute; reflexivity |].
  split; [vm_compute; reflexivity |]. split; [reflexivity |].
  split; [reflexivity |]. split; [vm_compute; reflexivity |].
  split; [reflexivity |]. split; [| split].
  - eexists _, _. split; [vm_compute; reflexivity |].
    split; [reflexivity |]. split; [reflexivity |].
    split; [reflexivity |]. split; [reflexivity |].
    eexists. vm_compute. reflexivity.
  - eexists. split; [vm_compute; reflexivity |]. by split.
  - eexists _, _. split; [vm_compute; reflexivity |].
    split; [vm_compute; reflexivity |]. reflexivity.
Qed.

(** ** The cursor on an empty list *)

(** C9 fails in package main.  Shown on one entry, a committed search
    for [z] empties the displayed list; the key [up] then wraps the
    cursor to [len - 1], which is [-1], where [down] leaves it at 0.
    Cancelling a new search brings the entry back under that cursor, and
    selecting it reads [entries[-1]], a panic. *)
Theorem main_up_on_empty_list :
  exists m0 m1,
    Sample.mainModalOfRun
      (z ← Sample.shown 1; Sample.mainKeys ["/"; "z"; "enter"] z) = Some m0
    /\ ZoxideMain.entries m0 = [] /\ ZoxideMain.cursor m0 = 0
    /\ Sample.mainModalOfRun
         (z ← Sample.shown 1; Sample.mainKeys ["/"; "z"; "enter"; "up"] z)
       = Some m1
    /\ ZoxideMain.entries m1 = [] /\ ZoxideMain.cursor m1 = -1
    /\ (z ← Sample.shown 1;
        Sample.mainKeys ["/"; "z"; "enter"; "down"] z)
       = (z ← Sample.shown 1; Sample.mainKeys ["/"; "z"; "enter"] z)
    /\ (z ← Sample.shown 1;
        Sample.mainKeys ["/"; "z"; "enter"; "up"; "/"; "esc"; "enter"] z)
       = Panic "index out of range".
Proof.
  eexists _, _. split; [vm_compute; reflexivity |].
  split; [reflexivity |]. split; [reflexivity |].
  split; [vm_compute; reflexivity |].
  split; [reflexivity |]. split; [reflexivity |].
  split; vm_compute; reflexivity.
Qed.

(** The same wrap in package zoxide, where the list is empty until the
    history has been loaded. *)
Example up_before_load :
  exists z m,
    Zoxide.Open "/cwd" (Zoxide.mkPlugin None false false)
    = Ok (z, Some (Zoxide.LoadHistory "/cwd"))
    /\ Sample.modalOfRun (Sample.runKeys [Zoxide.Key "up"] z) = Some m
    /\ Zoxide.Entries m = [] /\ Zoxide.Cursor m = -1.
Proof.
  eexists _, _. split; [vm_compute; reflexivity |].
  split; [vm_compute; reflexivity |]. by split.
Qed.

(** * Further properties *)

(** ** The sidebar *)

Section SidebarMore.

Import Sidebar.

Context (wellKnownDirectories : list directory)
        (Base : string -> string)
        (unmarshalPaths : string -> string + list string)
        (unmarshalPinned : string -> string + list pinnedDir)
        (isExternalDiskPath : string -> bool)
        (fzf : string -> list string -> list string).

Local Abbreviation getDirs :=
  (getDirectories wellKnownDirectories Base unmarshalPaths unmarshalPinned
                  isExternalDiskPath).
Local Abbreviation getFiltered :=
  (getFilteredDirectories wellKnownDirectories Base unmarshalPaths
                          unmarshalPinned isExternalDiskPath fzf).

Lemma omap_buildDirMap_names (dirs : list directory) (keys : list string) :
  name <$> omap (fun key => buildDirMap dirs !! key) keys
  = filter (fun key => key ∈ name <$> dirs) keys.
Proof.
  induction keys as [| key keys IH]; [done |].
  assert (omap (fun key => buildDirMap dirs !! key) (key :: keys)
          = match buildDirMap dirs !! key with
            | Some d => d :: omap (fun key => buildDirMap dirs !! key) keys
            | None => omap (fun key => buildDirMap dirs !! key) keys
            end) as -> by reflexivity.
  destruct (buildDirMap dirs !! key) as [d |] eqn:E.
  - assert (name d = key) as Hd
      by (apply buildDirMap_lookup in E as (? & ? & ? & ?); done).
    rewrite filter_cons_True
      by (apply buildDirMap_is_Some; by rewrite E).
    rewrite fmap_cons, IH, Hd. reflexivity.
  - rewrite filter_cons_False; [done |].
    rewrite <- buildDirMap_is_Some, E. by intros [? ?].
Qed.

(** X1: the names of the directories [fuzzySearch] returns are the
    scorer's matches, in the scorer's order, without the keys that name
    no directory of the input; for a scorer that only returns
    candidates they are the matches themselves. *)
Theorem fuzzySearch_names (query : string) (dirs : list directory) :
  name <$> fuzzySearch fzf query dirs
  = filter (fun key => key ∈ name <$> dirs) (fzf query (name <$> dirs))
  /\ (Forall (fun key => key ∈ name <$> dirs) (fzf query (name <$> dirs)) ->
      name <$> fuzzySearch fzf query dirs = fzf query (name <$> dirs)).
Proof.
  assert (name <$> fuzzySearch fzf query dirs
          = filter (fun key => key ∈ name <$> dirs)
                   (fzf query (name <$> dirs))) as Hnames.
  { rewrite fuzzySearch_omap. apply omap_buildDirMap_names. }
  split; [done |]. intros Hall. rewrite Hnames.
  clear Hnames. induction Hall as [| key keys Hkey _ IH]; [done |].
  by rewrite filter_cons_True, IH.
Qed.

Lemma buildDirMap_lookup_NoDup (dirs : list directory) :
  NoDup (name <$> dirs) ->
  forall d, d ∈ dirs -> buildDirMap dirs !! name d = Some d.
Proof.
  induction dirs as [| x l IH] using rev_ind; intros Hnd d Hd.
  - by apply elem_of_nil in Hd.
  - rewrite fmap_app in Hnd. apply NoDup_app in Hnd as (Hl & Hx & _).
    rewrite buildDirMap_snoc. apply elem_of_app in Hd as [Hd | Hd].
    + rewrite lookup_insert_ne; [by apply IH |].
      intros Heq. apply (Hx (name d)); [by apply list_elem_of_fmap_2 |].
      rewrite <- Heq. simpl. apply list_elem_of_here.
    + apply list_elem_of_singleton in Hd as ->. apply lookup_insert_eq.
Qed.

Lemma omap_lookup_names (dirMap : gmap string directory)
  (dirs : list directory) :
  (forall d, d ∈ dirs -> dirMap !! name d = Some d) ->
  omap (fun key => dirMap !! key) (name <$> dirs) = dirs.
Proof.
  induction dirs as [| d l IH]; intros H; [done |].
  assert (omap (fun key => dirMap !! key) (name <$> d :: l)
          = match dirMap !! name d with
            | Some d' => d' :: omap (fun key => dirMap !! key) (name <$> l)
            | None => omap (fun key => dirMap !! key) (name <$> l)
            end) as -> by reflexivity.
  rewrite (H d) by apply list_elem_of_here.
  rewrite IH; [done |]. intros d' Hd'. apply H. by apply list_elem_of_further.
Qed.

Lemma omap_lookup_names_inv (dirMap : gmap string directory)
  (dirs : list directory) :
  (forall d, d ∈ dirs -> is_Some (dirMap !! name d)) ->
  omap (fun key => dirMap !! key) (name <$> dirs) = dirs ->
  forall d, d ∈ dirs -> dirMap !! name d = Some d.
Proof.
  induction dirs as [| x l IH]; intros Hsome Heq d Hd.
  - by apply elem_of_nil in Hd.
  - assert (omap (fun key => dirMap !! key) (name <$> x :: l)
            = match dirMap !! name x with
              | Some d' => d' :: omap (fun key => dirMap !! key) (name <$> l)
              | None => omap (fun key => dirMap !! key) (name <$> l)
              end) as Hcons by reflexivity.
    rewrite Hcons in Heq.
    destruct (Hsome x (list_elem_of_here _ _)) as [x' Hx]. rewrite Hx in Heq.
    injection Heq as -> Heq.
    apply elem_of_cons in Hd as [-> | Hd]; [done |].
    apply IH; [| done | done].
    intros d' Hd'. apply Hsome. by apply list_elem_of_further.
Qed.

Lemma fuzzySearch_whole (query : string) (dirs : list directory) :
  fzf query (name <$> dirs) = name <$> dirs ->
  NoDup (name <$> dirs) ->
  fuzzySearch fzf query dirs = dirs.
Proof.
  intros Hall Hnd. rewrite fuzzySearch_omap, Hall.
  apply omap_lookup_names. by apply buildDirMap_lookup_NoDup.
Qed.

(** X2: when the scorer returns the whole haystack, [fuzzySearch]
    returns the list as it is exactly when directories of the list that
    share a name are the same directory; so it does when no two of them
    share a name. *)
Theorem fuzzySearch_all (query : string) (dirs : list directory) :
  fzf query (name <$> dirs) = name <$> dirs ->
  (fuzzySearch fzf query dirs = dirs
   <-> forall d1 d2, d1 ∈ dirs -> d2 ∈ dirs -> name d1 = name d2 -> d1 = d2)
  /\ (NoDup (name <$> dirs) -> fuzzySearch fzf query dirs = dirs).
Proof.
  intros Hall. rewrite fuzzySearch_omap, Hall.
  assert (forall d, d ∈ dirs -> is_Some (buildDirMap dirs !! name d))
    as Hsome.
  { intros d Hd. apply buildDirMap_is_Some. by apply list_elem_of_fmap_2. }
  split; [split |].
  - intros Heq d1 d2 Hd1 Hd2 Hname.
    pose proof (omap_lookup_names_inv _ _ Hsome Heq) as Hlook.
    pose proof (Hlook d1 Hd1) as H1. pose proof (Hlook d2 Hd2) as H2.
    rewrite Hname in H1. congruence.
  - intros Hsame. apply omap_lookup_names. intros d Hd.
    destruct (Hsome d Hd) as [d' Hd'].
    pose proof (buildDirMap_lookup _ _ _ Hd') as (i & Hi & Hname & _).
    rewrite Hd'. f_equal. apply Hsame; [| done | done].
    by apply list_elem_of_lookup_2 in Hi.
  - intros Hnd. apply omap_lookup_names. by apply buildDirMap_lookup_NoDup.
Qed.

(** X3: under a query for which the scorer returns every haystack as it
    is, with sources that hold no directory at a boundary location and
    no two directories of one name in a group, the filtered sidebar is
    the unfiltered sidebar, log included. *)
Theorem getFilteredDirectories_all (w : World) (query : string) :
  (forall haystack, fzf query haystack = haystack) ->
  let wk := getWellKnownDirectories wellKnownDirectories w in
  let pinned := (getPinnedDirectories Base unmarshalPaths unmarshalPinned w).1 in
  let disks := (getExternalMediaFolders Base isExternalDiskPath w).1 in
  Forall (fun d => isBoundary d = false) (wk ++ pinned ++ disks) ->
  NoDup (name <$> wk) -> NoDup (name <$> pinned) -> NoDup (name <$> disks) ->
  getFiltered w query = getDirs w.
Proof.
  intros Hall wk pinned disks Hplain Hwk Hp Hd.
  assert ((getFiltered w query).1 = (getDirs w).1) as H1.
  { rewrite getFilteredDirectories_eq. cbv zeta.
    rewrite (getDirectories_eq _ _ _ _ _ w) at 4.
    rewrite getDirectories_eq. fold wk pinned disks.
    rewrite partitionDirs_sources by done.
    cbn [noneDirs pinnedDirs diskDirs].
    by rewrite !fuzzySearch_whole. }
  assert ((getFiltered w query).2 = (getDirs w).2) as H2
    by (unfold getFilteredDirectories; by destruct (getDirs w)).
  destruct (getFiltered w query), (getDirs w). simpl in *. congruence.
Qed.

Lemma partition_elem (l : list directory) : forall (g : groups) (d : directory),
  d ∈ noneDirs (foldl partitionStep g l)
  \/ d ∈ pinnedDirs (foldl partitionStep g l)
  \/ d ∈ diskDirs (foldl partitionStep g l) ->
  (d ∈ noneDirs g \/ d ∈ pinnedDirs g \/ d ∈ diskDirs g) \/ d ∈ l.
Proof.
  induction l as [| x l IH]; intros g d H; simpl in H; [by left |].
  apply IH in H as [H | H]; [| right; by apply list_elem_of_further].
  unfold partitionStep in H.
  destruct (location x =? pinnedLocation)%string; [by left |].
  destruct (location x =? disksLocation)%string; [by left |].
  destruct (currentGroup g) as [[] |]; simpl in H;
    rewrite ?elem_of_app, ?list_elem_of_singleton in H;
    destruct H as [H | [H | H]]; try (left; tauto);
    destruct H as [H | ->]; try (left; tauto);
    right; apply list_elem_of_here.
Qed.

(** X4: filtering adds nothing: every directory of the filtered sidebar
    is a directory of the unfiltered sidebar, whatever the scorer
    returns, and filtering writes the same log lines. *)
Theorem getFilteredDirectories_subset (w : World) (query : string) :
  (forall d, d ∈ (getFiltered w query).1 -> d ∈ (getDirs w).1)
  /\ (getFiltered w query).2 = (getDirs w).2.
Proof.
  split.
  - intros d. rewrite getFilteredDirectories_eq. cbv zeta.
    assert (forall d', d' ∈ noneDirs (partitionDirs (getDirs w).1)
                       \/ d' ∈ pinnedDirs (partitionDirs (getDirs w).1)
                       \/ d' ∈ diskDirs (partitionDirs (getDirs w).1) ->
                       d' ∈ (getDirs w).1) as Hgroup.
    { intros d' H. apply partition_elem in H as [H | H]; [| done].
      simpl in H. destruct H as [H | [H | H]]; by apply elem_of_nil in H. }
    rewrite !elem_of_app, !list_elem_of_singleton.
    intros [H | [-> | [H | [-> | H]]]].
    + apply Hgroup. left. by eapply fuzzySearch_subset.
    + rewrite getDirectories_eq, !elem_of_app, !list_elem_of_singleton. tauto.
    + apply Hgroup. right. left. by eapply fuzzySearch_subset.
    + rewrite getDirectories_eq, !elem_of_app, !list_elem_of_singleton. tauto.
    + apply Hgroup. right. right. by eapply fuzzySearch_subset.
  - unfold getFilteredDirectories. by destruct (getDirs w).
Qed.

End SidebarMore.

(** ** The zoxide modal: sizes *)

Lemma clamp_bounds (x lo hi : Z) :
  lo <= hi ->
  lo <= Zoxide.minInt (Zoxide.maxInt x lo) hi <= hi
  /\ Zoxide.minInt (Zoxide.maxInt x lo) hi = Z.min hi (Z.max lo x)
  /\ (if x >? hi then hi else if x <? lo then lo else x)
     = Zoxide.minInt (Zoxide.maxInt x lo) hi.
Proof.
  intros H. unfold Zoxide.minInt, Zoxide.maxInt.
  rewrite !Z.gtb_ltb.
  destruct (Z.ltb_spec lo x); simpl;
    destruct (Z.ltb_spec x hi), (Z.ltb_spec hi x), (Z.ltb_spec x lo),
      (Z.ltb_spec lo hi); simpl; lia.
Qed.

Lemma two_thirds (x : Z) :
  0 <= x <= 2 ^ 61 -> GoInt.div (GoInt.mul x 2) 3 = x * 2 / 3.
Proof.
  intros H. unfold GoInt.div, GoInt.mul.
  rewrite (wrap_id (x * 2))
    by (unfold GoInt.inRange, GoInt.minInt, GoInt.maxInt; lia).
  rewrite Z.quot_div_nonneg by lia.
  apply wrap_id. unfold GoInt.inRange, GoInt.minInt, GoInt.maxInt.
  pose proof (Z.div_pos (x * 2) 3 ltac:(lia) ltac:(lia)).
  pose proof (Z.div_le_upper_bound (x * 2) 3 (2 ^ 62) ltac:(lia) ltac:(lia)).
  lia.
Qed.

(** X5: whatever size the terminal reports, [UpdateModalSize] of package
    zoxide leaves a width between 40 and 100 and a height between 10 and
    30, so at least six rows of entries, and a search bar four columns
    narrower than the modal; for sizes up to [2 ^ 61] these are two
    thirds of the terminal, clamped.  The lists, the cursor, the offset
    and the search are untouched. *)
Theorem UpdateModalSize_bounds (width height : Z) (z : Zoxide.ZoxidePlugin)
  (m : Zoxide.ZoxideModal) :
  Zoxide.Modal z = Some m ->
  exists m',
    Zoxide.UpdateModalSize width height z = Ok (Zoxide.setModal m' z)
    /\ 40 <= Zoxide.Width m' <= 100 /\ 10 <= Zoxide.Height m' <= 30
    /\ 6 <= Zoxide.viewportHeight m'
    /\ TextInput.Width (Zoxide.SearchBar m') = Zoxide.Width m' - 4
    /\ TextInput.Value (Zoxide.SearchBar m')
       = TextInput.Value (Zoxide.SearchBar m)
    /\ Zoxide.Entries m' = Zoxide.Entries m
    /\ Zoxide.AllEntries m' = Zoxide.AllEntries m
    /\ Zoxide.Cursor m' = Zoxide.Cursor m
    /\ Zoxide.RenderIndex m' = Zoxide.RenderIndex m
    /\ Zoxide.SearchMode m' = Zoxide.SearchMode m
    /\ (0 <= width <= 2 ^ 61 ->
        Zoxide.Width m' = Z.min 100 (Z.max 40 (width * 2 / 3)))
    /\ (0 <= height <= 2 ^ 61 ->
        Zoxide.Height m' = Z.min 30 (Z.max 10 (height * 2 / 3))).
Proof.
  intros Hm. unfold Zoxide.UpdateModalSize.
  rewrite (modalOf_Some z m Hm), bind_Ok. cbv zeta.
  eexists. split; [reflexivity |].
  destruct (clamp_bounds (GoInt.div (GoInt.mul width 2) 3) 40 100 ltac:(lia))
    as (Hw & Hw' & _).
  destruct (clamp_bounds (GoInt.div (GoInt.mul height 2) 3) 10 30 ltac:(lia))
    as (Hh & Hh' & _).
  unfold Zoxide.viewportHeight. simpl.
  split; [done |]. split; [done |]. split; [lia |].
  split; [unfold GoInt.sub; apply wrap_id;
          unfold GoInt.inRange, GoInt.minInt, GoInt.maxInt; lia |].
  do 6 (split; [done |]).
  split; intros H; rewrite <- (two_thirds _ H); done.
Qed.

(** X6: the two packages compute the same modal size from the same
    terminal size; package main leaves its search bar as it is. *)
Theorem UpdateModalSize_agree (width height : Z)
  (z : Zoxide.ZoxidePlugin) (m : Zoxide.ZoxideModal)
  (z0 : ZoxideMain.ZoxidePlugin) (m0 : ZoxideMain.zoxideModal) :
  Zoxide.Modal z = Some m -> ZoxideMain.modal z0 = Some m0 ->
  exists m' m0',
    Zoxide.UpdateModalSize width height z = Ok (Zoxide.setModal m' z)
    /\ ZoxideMain.UpdateModalSize width height z0
       = Ok (ZoxideMain.setModal m0' z0)
    /\ ZoxideMain.width m0' = Zoxide.Width m'
    /\ ZoxideMain.height m0' = Zoxide.Height m'
    /\ ZoxideMain.search m0' = ZoxideMain.search m0
    /\ ZoxideMain.entries m0' = ZoxideMain.entries m0
    /\ ZoxideMain.cursor m0' = ZoxideMain.cursor m0
    /\ ZoxideMain.render m0' = ZoxideMain.render m0.
Proof.
  intros Hm Hm0. unfold Zoxide.UpdateModalSize, ZoxideMain.UpdateModalSize.
  rewrite (modalOf_Some z m Hm), (main_modalOf_Some z0 m0 Hm0), !bind_Ok.
  cbv zeta. eexists _, _. split; [reflexivity |]. split; [reflexivity |].
  simpl.
  split; [apply (clamp_bounds _ 40 100); lia |].
  split; [apply (clamp_bounds _ 10 30); lia |]. done.
Qed.

(** ** The zoxide modal under every event *)

Ltac entry_solve :=
  unfold OnEntry, Zoxide.maxInt in *; simpl in *;
  go_arith; go_cases; repeat split; try done; try lia.

Section ZoxideMore.

Import Zoxide.

Context (TrimSpace ToLower : string -> string)
        (fzf : string -> list string -> list string)
        (tiUpdate : TextInput.Model -> string -> TextInput.Model * bool)
        (tiView : TextInput.Model -> string)
        (styleRender styleRenderMain : Z -> Z -> string -> string).

(** fzf-lib reports every candidate at most once. *)
Hypothesis fzf_len : forall query haystack,
  (length (fzf query haystack) <= length haystack)%nat.

Local Abbreviation handleKeypress' := (handleKeypress ToLower fzf tiUpdate).
Local Abbreviation run' := (run ToLower fzf tiUpdate).
Local Abbreviation Update' := (Update ToLower fzf tiUpdate).
Local Abbreviation View' := (Render.View tiView styleRender).

Lemma Inv_OnEntry (m : ZoxideModal) : Inv m -> OnEntry m.
Proof. unfold Inv, OnEntry, viewportHeight. lia. Qed.

Lemma OnEntry_handleKeypress (key : string) (z : ZoxidePlugin)
  (m : ZoxideModal) :
  Modal z = Some m -> OnEntry m ->
  exists z' cmd selected m',
    handleKeypress' key z = Ok (z', cmd, selected)
    /\ Modal z' = Some m' /\ OnEntry m'.
Proof.
  intros Hm HI. unfold handleKeypress.
  rewrite (modalOf_Some z m Hm), bind_Ok.
  pose proof (fzf_len (ToLower (TextInput.Value (SearchBar m))) (AllEntries m))
    as Hfzf.
  destruct (SearchMode m) eqn:Hsm.
  - destruct (key =? "enter")%string.
    { rewrite (applySearch_eq ToLower fzf z m Hm). cbv zeta.
      rewrite bind_Ok. unfold modalOf. simpl. rewrite ?bind_Ok.
      eexists _, _, _, _. split; [reflexivity |]. split; [reflexivity |].
      unfold OnEntry, GoInt.len in *.
      destruct (_ =? "")%string; [simpl; lia |].
      destruct (Z.eqb_spec
                  (Z.of_nat (length (fzf (ToLower (TextInput.Value (SearchBar m)))
                                         (AllEntries m)))) 0);
        simpl; lia. }
    destruct (key =? "esc")%string.
    { eexists _, _, _, _. split; [reflexivity |]. split; [reflexivity |].
      entry_solve. }
    destruct (tiUpdate (SearchBar m) key) as [bar cmd].
    eexists _, _, _, _. split; [reflexivity |]. split; [reflexivity |].
    entry_solve.
  - destruct ((key =? "q")%string || (key =? "esc")%string).
    { eexists _, _, _, _. split; [reflexivity |]. split; [exact Hm |]. done. }
    destruct (key =? "enter")%string.
    { assert (0 <= Cursor m < GoInt.len (Entries m)) as Hc
        by (unfold OnEntry in HI; lia).
      destruct (index_in_range (Entries m) (Cursor m) Hc) as (x & -> & _).
      assert ((GoInt.len (Entries m) >? 0)
              && (Cursor m <? GoInt.len (Entries m)) = true) as ->.
      { rewrite Z.gtb_ltb, andb_true_iff, !Z.ltb_lt. lia. }
      rewrite bind_Ok.
      eexists _, _, _, _. split; [reflexivity |]. split; [exact Hm |]. done. }
    destruct ((key =? "up")%string || (key =? "k")%string).
    { rewrite Z.gtb_ltb.
      destruct (Z.ltb_spec 0 (Cursor m));
        (eexists _, _, _, _; split; [reflexivity |];
         split; [reflexivity |]); entry_solve. }
    destruct ((key =? "down")%string || (key =? "j")%string).
    { destruct (Z.ltb_spec (Cursor m) (GoInt.sub (GoInt.len (Entries m)) 1))
        as [Hlt | Hge];
        (eexists _, _, _, _; split; [reflexivity |];
         split; [reflexivity |]).
      - revert Hlt. entry_solve.
      - entry_solve. }
    destruct (key =? "/")%string.
    { eexists _, _, _, _. split; [reflexivity |]. split; [reflexivity |].
      entry_solve. }
    eexists _, _, _, _. split; [reflexivity |]. split; [exact Hm |]. done.
Qed.

Lemma OnEntry_UpdateModalSize (width height : Z) (z : ZoxidePlugin)
  (m : ZoxideModal) :
  Modal z = Some m -> OnEntry m ->
  exists z' m', UpdateModalSize width height z = Ok z'
                /\ Modal z' = Some m' /\ OnEntry m'.
Proof.
  intros Hm HI. unfold UpdateModalSize.
  rewrite (modalOf_Some z m Hm), bind_Ok. cbv zeta.
  eexists _, _. split; [reflexivity |]. split; [reflexivity |].
  destruct (clamp_bounds (GoInt.div (GoInt.mul height 2) 3) 10 30 ltac:(lia))
    as (Hh & _).
  unfold OnEntry in *. simpl. lia.
Qed.

Lemma OnEntry_run (es : list Event) : forall (z : ZoxidePlugin) (m : ZoxideModal),
  Modal z = Some m -> OnEntry m ->
  exists z' m', run' es z = Ok z' /\ Modal z' = Some m' /\ OnEntry m'.
Proof.
  induction es as [| e es IH]; intros z m Hm HI.
  - by exists z, m.
  - destruct e as [key | width height].
    + destruct (OnEntry_handleKeypress key z m Hm HI)
        as (z1 & cmd & sel & m1 & Hkey & Hm1 & HI1).
      rewrite (run_key _ _ _ _ _ _ _ _ _ Hkey). by apply (IH z1 m1).
    + destruct (OnEntry_UpdateModalSize width height z m Hm HI)
        as (z1 & m1 & Hsize & Hm1 & HI1).
      simpl. rewrite Hsize, bind_Ok. by apply (IH z1 m1).
Qed.

Lemma index_Ok {A} (l : list A) (i : Z) (x : A) :
  index l i = Ok x -> 0 <= i /\ l !! Z.to_nat i = Some x.
Proof.
  unfold index. destruct (Z.ltb_spec i 0); [done |].
  destruct (GoInt.len l <=? i); [done |]. simpl.
  destruct (l !! Z.to_nat i); [| done]. by intros [= ->].
Qed.

Lemma renderedIndices_length (m : ZoxideModal) :
  0 <= RenderIndex m <= 2 ^ 62 -> - 2 ^ 31 <= Height m <= 2 ^ 31 ->
  GoInt.len (Entries m) <= 2 ^ 62 ->
  endIdx m - RenderIndex m
  = Z.min (viewportHeight m) (GoInt.len (Entries m) - RenderIndex m).
Proof.
  intros Hr Hh Hlen. unfold endIdx, viewportHeight. cbv zeta.
  go_arith. go_cases; lia.
Qed.

(** X7: [View] draws the window of the displayed list that starts at
    [RenderIndex] and is [Height - 4] entries long, cut at the end of the
    list: its loop does not panic for any offset that is not negative,
    it writes that many lines, and line [k] is entry [RenderIndex + k]
    behind two blanks, or behind the mark when the cursor is on it. *)
Theorem viewEntries_window (m : ZoxideModal) :
  0 <= RenderIndex m <= 2 ^ 62 -> - 2 ^ 31 <= Height m <= 2 ^ 31 ->
  GoInt.len (Entries m) <= 2 ^ 62 ->
  exists lines,
    viewEntries m = Ok lines
    /\ length lines
       = Z.to_nat (Z.min (viewportHeight m)
                         (GoInt.len (Entries m) - RenderIndex m))
    /\ forall (k : nat) (line : string),
         lines !! k = Some line ->
         exists entry,
           Entries m !! (Z.to_nat (RenderIndex m) + k)%nat = Some entry
           /\ line = (if RenderIndex m + Z.of_nat k =? Cursor m
                      then "> " else "  ") +:+ entry.
Proof.
  intros Hr Hh Hlen.
  pose proof (renderedIndices_length m Hr Hh Hlen) as Hn.
  assert (Forall (fun i => 0 <= i < GoInt.len (Entries m)) (renderedIndices m))
    as Hrange.
  { apply Forall_forall. intros i Hi. unfold renderedIndices in Hi.
    apply elem_of_seqZ in Hi. lia. }
  unfold viewEntries.
  destruct (viewEntries_lines m _ Hrange []) as (lines & -> & Hlines).
  exists lines. split; [done |]. split.
  - rewrite <- (Forall2_length _ _ _ Hlines). unfold renderedIndices.
    by rewrite length_seqZ, Hn.
  - intros k line Hk.
    destruct (Forall2_lookup_r _ _ _ _ _ Hlines Hk) as (i & Hi & Hview).
    unfold renderedIndices in Hi. apply lookup_seqZ in Hi as [-> _].
    unfold viewLine in Hview.
    destruct (index (Entries m) (RenderIndex m + Z.of_nat k))
      as [entry | msg] eqn:E; [| done].
    rewrite bind_Ok in Hview. injection Hview as <-.
    apply index_Ok in E as [_ E]. exists entry.
    split; [| by destruct (_ =? _)].
    rewrite <- E. f_equal. lia.
Qed.

Lemma OnEntry_View (z : ZoxidePlugin) (m : ZoxideModal) :
  Modal z = Some m -> OnEntry m -> exists s, View' z = Ok s.
Proof.
  intros Hm HI. unfold Render.View. rewrite Hm.
  destruct (negb (isOpen z)); [eauto |].
  assert (Forall (fun i => 0 <= i < GoInt.len (Entries m)) (renderedIndices m))
    as Hrange.
  { pose proof (renderedIndices_length m) as Hn.
    apply Forall_forall. intros i Hi. unfold renderedIndices in Hi.
    apply elem_of_seqZ in Hi. unfold OnEntry in HI. lia. }
  unfold viewEntries.
  destruct (viewEntries_lines m _ Hrange []) as (lines & -> & _).
  rewrite bind_Ok. eauto.
Qed.

(** X8: from a modal whose cursor is on an entry at or below the first
    one drawn, every sequence of key presses and changes of size, in any
    order, runs without a panic and leaves the cursor on an entry of a
    list that is not empty, with an offset that is not negative and not
    beyond the cursor; [View] can then be drawn. *)
Theorem events_keep_cursor_on_entry (es : list Event) (z : ZoxidePlugin)
  (m : ZoxideModal) :
  Modal z = Some m -> OnEntry m ->
  exists z' m' s,
    run' es z = Ok z' /\ Modal z' = Some m'
    /\ Entries m' <> []
    /\ 0 <= RenderIndex m' <= Cursor m' /\ Cursor m' < GoInt.len (Entries m')
    /\ View' z' = Ok s.
Proof.
  intros Hm HI.
  destruct (OnEntry_run es z m Hm HI) as (z' & m' & Hrun & Hm' & HI').
  destruct (OnEntry_View z' m' Hm' HI') as (s & Hs).
  exists z', m', s. split; [done |]. split; [done |].
  split; [apply len_pos_iff; unfold OnEntry in HI'; lia |].
  unfold OnEntry in HI'. split; [lia |]. split; [lia | done].
Qed.

(** ** Selecting an entry *)

(** X9: [enter] outside search mode, through [Update] on an open modal.
    With the cursor on an entry it hands that entry back and closes the
    modal, after which [Update] ignores every message; on an empty list,
    or with the cursor past the end, it does nothing; with a negative
    cursor on a list that is not empty the index expression panics. *)
Theorem Update_enter (z : ZoxidePlugin) (m : ZoxideModal) :
  Modal z = Some m -> isOpen z = true -> SearchMode m = false ->
  (0 <= Cursor m < GoInt.len (Entries m) ->
   exists entry,
     Entries m !! Z.to_nat (Cursor m) = Some entry
     /\ Update' (KeyMsg "enter") z = Ok (Close z, None, entry)
     /\ forall msg, Update' msg (Close z) = Ok (Close z, None, ""))
  /\ (Entries m = [] \/ GoInt.len (Entries m) <= Cursor m ->
      Update' (KeyMsg "enter") z = Ok (z, None, ""))
  /\ (Entries m <> [] -> Cursor m < 0 ->
      Update' (KeyMsg "enter") z = Panic "index out of range").
Proof.
  intros Hm Hopen Hsm.
  assert (Update' (KeyMsg "enter") z
          = if (GoInt.len (Entries m) >? 0)
               && (Cursor m <? GoInt.len (Entries m))
            then selectedDir ← index (Entries m) (Cursor m);
                 Ok (Close z, None, selectedDir)
            else Ok (z, None, "")) as ->.
  { unfold Update. rewrite Hopen. simpl. unfold handleKeypress.
    by rewrite (modalOf_Some z m Hm), bind_Ok, Hsm. }
  rewrite Z.gtb_ltb. split; [| split].
  - intros Hc. destruct (index_in_range _ _ Hc) as (entry & -> & Hentry).
    exists entry. split; [done |]. split.
    + destruct (Z.ltb_spec 0 (GoInt.len (Entries m))); [| lia].
      destruct (Z.ltb_spec (Cursor m) (GoInt.len (Entries m))); [| lia].
      done.
    + by intros msg.
  - intros [He | Hc].
    + by rewrite He.
    + destruct (Z.ltb_spec (Cursor m) (GoInt.len (Entries m))); [lia |].
      by rewrite andb_false_r.
  - intros He%len_pos_iff Hc.
    destruct (Z.ltb_spec 0 (GoInt.len (Entries m))); [| lia].
    destruct (Z.ltb_spec (Cursor m) (GoInt.len (Entries m))); [| lia].
    simpl. by rewrite index_negative.
Qed.

(** ** Moving the cursor *)

(** X10: on a list of [N] entries with the cursor on one of them, [down]
    moves the cursor to [(Cursor + 1) mod N] and [up] to
    [(Cursor - 1) mod N], never changing the lists; [up] after [down]
    brings the cursor back. *)
Theorem cursor_moves_cyclically (z : ZoxidePlugin) (m : ZoxideModal) :
  Modal z = Some m -> SearchMode m = false ->
  0 <= Cursor m < GoInt.len (Entries m) ->
  GoInt.len (Entries m) <= 2 ^ 62 ->
  exists down up back,
    handleKeypress' "down" z = Ok (setModal down z, None, "")
    /\ Cursor down = (Cursor m + 1) mod GoInt.len (Entries m)
    /\ Entries down = Entries m /\ AllEntries down = AllEntries m
    /\ handleKeypress' "up" z = Ok (setModal up z, None, "")
    /\ Cursor up = (Cursor m - 1) mod GoInt.len (Entries m)
    /\ Entries up = Entries m /\ AllEntries up = AllEntries m
    /\ handleKeypress' "up" (setModal down z)
       = Ok (setModal back (setModal down z), None, "")
    /\ Cursor back = Cursor m.
Proof.
  intros Hm Hsm Hc Hlen.
  set (N := GoInt.len (Entries m)) in *.
  assert (-1 mod N = N - 1) as Hneg
    by (symmetry; apply (Z.mod_unique _ _ (-1)); lia).
  pose proof (handleKeypress_down ToLower fzf tiUpdate z m Hm Hsm) as Hdown.
  pose proof (handleKeypress_up ToLower fzf tiUpdate z m Hm Hsm) as Hup.
  fold N in Hdown, Hup.
  match type of Hdown with _ = Ok (setModal ?d _, _, _) => set (down := d) in * end.
  match type of Hup with _ = Ok (setModal ?u _, _, _) => set (up := u) in * end.
  assert (SearchMode down = false /\ Entries down = Entries m
          /\ AllEntries down = AllEntries m
          /\ Cursor down = (if Cursor m <? N - 1 then Cursor m + 1 else 0))
    as (Hsm' & He' & Ha' & Hc').
  { subst down. go_arith.
    destruct (Z.ltb_spec (Cursor m) (N - 1)); simpl; go_arith; done. }
  assert (Entries up = Entries m /\ AllEntries up = AllEntries m
          /\ Cursor up = (if 0 <? Cursor m then Cursor m - 1 else N - 1))
    as (He'' & Ha'' & Hc'').
  { subst up. rewrite Z.gtb_ltb.
    destruct (Z.ltb_spec 0 (Cursor m)); simpl; go_arith; done. }
  pose proof (handleKeypress_up ToLower fzf tiUpdate (setModal down z) down
                eq_refl Hsm') as Hback.
  match type of Hback with _ = Ok (setModal ?b _, _, _) => set (back := b) in * end.
  exists down, up, back.
  split; [done |]. split.
  { rewrite Hc'. destruct (Z.ltb_spec (Cursor m) (N - 1)).
    - by rewrite Z.mod_small by lia.
    - replace (Cursor m + 1) with N by lia. by rewrite Z_mod_same_full. }
  do 3 (split; [done |]). split.
  { rewrite Hc''. destruct (Z.ltb_spec 0 (Cursor m)).
    - by rewrite Z.mod_small by lia.
    - replace (Cursor m - 1) with (-1) by lia. by rewrite Hneg. }
  do 3 (split; [done |]).
  subst back. rewrite He', Hc'. fold N. rewrite Z.gtb_ltb.
  destruct (Z.ltb_spec (Cursor m) (N - 1)).
  - destruct (Z.ltb_spec 0 (Cursor m + 1)); [| lia]. simpl. go_arith. lia.
  - simpl. go_arith. lia.
Qed.

(** ** Opening the modal *)

Lemma string_app_nil_r (s : string) : s +:+ "" = s.
Proof.
  induction s as [| c s IH]; [done |].
  change (String c (s +:+ "") = String c s). by rewrite IH.
Qed.

Lemma string_app_assoc (a b c : string) : (a +:+ b) +:+ c = a +:+ b +:+ c.
Proof.
  induction a as [| x a IH]; [done |].
  change (String x ((a +:+ b) +:+ c) = String x (a +:+ b +:+ c)).
  by rewrite IH.
Qed.

Lemma splitAcc_concat (sep : ascii) (s : string) : forall acc : string,
  String.concat (String sep EmptyString) (Strings.splitAcc sep acc s)
  = acc +:+ s.
Proof.
  induction s as [| c s IH]; intros acc; simpl.
  - by rewrite string_app_nil_r.
  - destruct (Ascii.eqb_spec c sep) as [-> | Hne].
    + pose proof (splitAcc_nonempty sep s EmptyString) as Hne.
      specialize (IH EmptyString).
      destruct (Strings.splitAcc sep EmptyString s) as [| piece pieces];
        [done |].
      change (String.concat (String sep "") (acc :: piece :: pieces))
        with (acc +:+ String sep "" +:+
                String.concat (String sep "") (piece :: pieces)).
      by rewrite IH.
    + by rewrite IH, string_app_assoc.
Qed.

Lemma Contains_char_app (a b : string) (c : ascii) :
  Strings.Contains (a +:+ b) (String c EmptyString)
  = Strings.Contains a (String c EmptyString)
    || Strings.Contains b (String c EmptyString).
Proof.
  induction a as [| x a IH]; simpl.
  - by destruct b.
  - rewrite IH. destruct (ascii_dec c x); simpl.
    + by destruct (a +:+ b), a.
    + done.
Qed.

Lemma splitAcc_pieces (sep : ascii) (s : string) : forall acc : string,
  Strings.Contains acc (String sep EmptyString) = false ->
  Forall (fun piece => Strings.Contains piece (String sep EmptyString) = false)
         (Strings.splitAcc sep acc s).
Proof.
  induction s as [| c s IH]; intros acc Hacc; simpl.
  - by constructor.
  - destruct (Ascii.eqb_spec c sep) as [-> | Hne].
    + constructor; [done |]. by apply IH.
    + apply IH. rewrite Contains_char_app, Hacc. simpl.
      destruct (ascii_dec sep c); [congruence | done].
Qed.

(** X11: when the tool succeeds with some output, the entries
    [getZoxideHistory] returns are the lines of the trimmed output: there
    is at least one, none holds a line break, and joined by line breaks
    they give the trimmed output back.  In particular output of blanks
    and line breaks only yields the single empty entry. *)
Theorem getZoxideHistory_lines (out : string) :
  (out =? "")%string = false ->
  exists entries,
    getZoxideHistory TrimSpace (inr out) = (entries, None)
    /\ entries <> []
    /\ Forall (fun entry => Strings.Contains entry Render.newline = false)
              entries
    /\ String.concat Render.newline entries = TrimSpace out
    /\ (TrimSpace out = "" -> entries = [""]).
Proof.
  intros Hout.
  destruct (getZoxideHistory_entries TrimSpace out Hout) as [H Hne].
  eexists. split; [exact H |]. split; [done |].
  split; [by apply splitAcc_pieces |].
  split; [apply splitAcc_concat |]. by intros ->.
Qed.

(** X12: every [Open] of a closed plugin starts a new session.  Whatever
    the last session left behind (a filtered list, a cursor, a search
    text, search mode), once the tool has answered with some output the
    modal is open on the lines of the trimmed output, unfiltered, with
    the cursor on the first line, offset 0, an empty search bar and
    search mode off, which is a state of [Inv]. *)
Theorem Open_starts_session (excludePath out : string) (z : ZoxidePlugin) :
  isOpen z = false -> wellFormed z ->
  (forall m, Modal z = Some m -> initialized z = true ->
             5 <= Height m <= 2 ^ 31) ->
  (out =? "")%string = false ->
  GoInt.len (Strings.SplitLines (TrimSpace out)) <= 2 ^ 62 ->
  let entries := Strings.SplitLines (TrimSpace out) in
  exists z1 z2 m2,
    Open excludePath z = Ok (z1, Some (LoadHistory excludePath))
    /\ runLoadHistory TrimSpace (inr out) z1
       = Ok (z2, Some (mkZoxideMsg entries))
    /\ isOpen z2 = true /\ Modal z2 = Some m2
    /\ Entries m2 = entries /\ AllEntries m2 = entries
    /\ Cursor m2 = 0 /\ RenderIndex m2 = 0
    /\ SearchMode m2 = false /\ TextInput.Value (SearchBar m2) = ""
    /\ Inv m2.
Proof.
  intros Hopen Hwf Hheight Hout Hlen entries.
  destruct (Open_closed excludePath z Hopen Hwf)
    as (m1 & HO & Hc & Hr & Hsm & Hv & Hfresh & Hold).
  destruct (runLoadHistory_entries TrimSpace out (mkPlugin (Some m1) true true)
              m1 eq_refl Hout) as [HL Hne].
  fold entries in HL, Hne, Hlen.
  eexists _, _, _. split; [exact HO |]. split; [exact HL |].
  split; [done |]. split; [reflexivity |]. simpl.
  do 6 (split; [done |]).
  assert (5 <= Height m1 <= 2 ^ 31) as Hh.
  { destruct (initialized z) eqn:Hinit.
    - destruct (Hwf Hinit) as [m Hm].
      destruct (Hold m Hm eq_refl) as (-> & _). by apply Hheight.
    - rewrite Hfresh by done. lia. }
  apply len_pos_iff in Hne.
  unfold Inv, viewportHeight. simpl. rewrite Hc, Hr. lia.
Qed.

(** X13: output that only holds blanks or line breaks is not empty
    output.  Package zoxide then keeps the modal open on one empty
    entry, and so does package main when no answer is cached for the
    directory. *)
Theorem blank_output_opens (out : string) :
  (out =? "")%string = false -> TrimSpace out = "" ->
  (forall (z : ZoxidePlugin) (m : ZoxideModal),
     Modal z = Some m ->
     runLoadHistory TrimSpace (inr out) z
     = Ok (setModal (setAllEntries [""] (setEntries [""] m)) z,
           Some (mkZoxideMsg [""])))
  /\ (forall baseDir (z : ZoxideMain.ZoxidePlugin)
             (flags : gmap string bool) (m : ZoxideMain.zoxideModal),
        ZoxideMain.emptyFlag z = Some flags -> flags !! baseDir = None ->
        ZoxideMain.modal z = Some m ->
        exists z' m',
          ZoxideMain.Show TrimSpace baseDir (inr out) (inr out) z = Ok z'
          /\ ZoxideMain.modal z' = Some m'
          /\ ZoxideMain.open m' = true
          /\ ZoxideMain.entries m' = [""]
          /\ ZoxideMain.allItems m' = [""]).
Proof.
  intros Hout Hblank. split.
  - intros z m Hm.
    destruct (runLoadHistory_entries TrimSpace out z m Hm Hout) as [H _].
    by rewrite Hblank in H.
  - intros baseDir z flags m Hf Hc Hm. unfold ZoxideMain.Show.
    rewrite (main_IsEmptyHistory_fresh _ _ _ _ Hf Hc), bind_Ok.
    simpl. rewrite Hout, Hblank. unfold ZoxideMain.modalOf. simpl.
    rewrite Hm, bind_Ok.
    eexists _, _. split; [reflexivity |]. by split.
Qed.

(** ** Searching again *)

Lemma handleKeypress_slash_browse (z : ZoxidePlugin) (m : ZoxideModal) :
  Modal z = Some m -> SearchMode m = false ->
  handleKeypress' "/" z
  = Ok (setModal
          (setSearchMode true
             (setSearchBar (TextInput.Focus (SearchBar m)) m)) z,
        None, "").
Proof.
  intros Hm Hsm. unfold handleKeypress.
  by rewrite (modalOf_Some z m Hm), bind_Ok, Hsm.
Qed.

Lemma main_HandleKeypress_slash_browse (z : ZoxideMain.ZoxidePlugin)
  (m : ZoxideMain.zoxideModal) :
  ZoxideMain.modal z = Some m -> ZoxideMain.open m = true ->
  ZoxideMain.searching m = false ->
  ZoxideMain.HandleKeypress ToLower tiUpdate "/" z
  = Ok (ZoxideMain.setModal
          (ZoxideMain.setSearching true
             (ZoxideMain.setSearch (TextInput.Focus (ZoxideMain.search m)) m))
          z,
        true, "").
Proof.
  intros Hm Hopen Hs. unfold ZoxideMain.HandleKeypress.
  by rewrite (main_modalOf_Some z m Hm), bind_Ok, Hopen, Hs.
Qed.

(** X14: the search text outlives the commit, so beginning a search
    again and committing at once applies the same filter: in both
    packages the displayed list after [/], [enter] is the one the first
    commit left, and the list of all entries is unchanged. *)
Theorem commit_again (z : ZoxidePlugin) (m : ZoxideModal)
  (z0 : ZoxideMain.ZoxidePlugin) (m0 : ZoxideMain.zoxideModal) :
  Modal z = Some m -> SearchMode m = true ->
  ZoxideMain.modal z0 = Some m0 -> ZoxideMain.open m0 = true ->
  ZoxideMain.searching m0 = true ->
  (exists z1 m1 z2 m2,
     run' [Key "enter"] z = Ok z1 /\ Modal z1 = Some m1
     /\ run' [Key "/"; Key "enter"] z1 = Ok z2 /\ Modal z2 = Some m2
     /\ Entries m2 = Entries m1 /\ AllEntries m2 = AllEntries m
     /\ TextInput.Value (SearchBar m2) = TextInput.Value (SearchBar m)
     /\ SearchMode m2 = false)
  /\ (exists z1 m1 z2 m2,
        ZoxideMain.run ToLower tiUpdate ["enter"] z0 = Ok z1
        /\ ZoxideMain.modal z1 = Some m1
        /\ ZoxideMain.run ToLower tiUpdate ["/"; "enter"] z1 = Ok z2
        /\ ZoxideMain.modal z2 = Some m2
        /\ ZoxideMain.entries m2 = ZoxideMain.entries m1
        /\ ZoxideMain.allItems m2 = ZoxideMain.allItems m0
        /\ TextInput.Value (ZoxideMain.search m2)
           = TextInput.Value (ZoxideMain.search m0)
        /\ ZoxideMain.searching m2 = false).
Proof.
  intros Hm Hsm Hm0 Hopen Hs0. split.
  - pose proof (handleKeypress_enter ToLower fzf tiUpdate z m Hm Hsm) as H1.
    cbv zeta in H1.
    set (term := ToLower (TextInput.Value (SearchBar m))) in *.
    assert (exists m1,
              handleKeypress' "enter" z = Ok (setModal m1 z, None, "")
              /\ SearchMode m1 = false /\ SearchBar m1 = SearchBar m
              /\ AllEntries m1 = AllEntries m
              /\ Entries m1
                 = (if (term =? "")%string then AllEntries m
                    else if GoInt.len (fzf term (AllEntries m)) =? 0
                         then Entries m else fzf term (AllEntries m)))
      as (m1 & H1' & Hsm1 & Hbar1 & Hall1 & He1).
    { eexists. split; [exact H1 |].
      destruct (term =? "")%string; [done |].
      by destruct (GoInt.len _ =? 0). }
    clear H1.
    pose proof (handleKeypress_slash_browse (setModal m1 z) m1 eq_refl Hsm1)
      as H2.
    set (m1' := setSearchMode true
                  (setSearchBar (TextInput.Focus (SearchBar m1)) m1)) in *.
    pose proof (handleKeypress_enter ToLower fzf tiUpdate
                  (setModal m1' (setModal m1 z)) m1' eq_refl eq_refl) as H3.
    cbv zeta in H3.
    assert (ToLower (TextInput.Value (SearchBar m1')) = term) as Hterm
      by (subst m1'; simpl; by rewrite Hbar1).
    assert (AllEntries m1' = AllEntries m) as Hall1' by done.
    assert (Entries m1' = Entries m1) as He1' by done.
    rewrite Hterm, Hall1' in H3.
    eexists (setModal m1 z), m1, _, _.
    split; [by rewrite (run_key _ _ _ _ _ _ _ _ _ H1') |].
    split; [done |].
    split; [by rewrite (run_key _ _ _ _ _ _ _ _ _ H2),
              (run_key _ _ _ _ _ _ _ _ _ H3) |].
    split; [reflexivity |].
    rewrite He1. clear H2 H3 H1'.
    destruct (term =? "")%string;
      [simpl; by rewrite ?Hall1', ?Hall1, ?Hbar1 |].
    destruct (GoInt.len (fzf term (AllEntries m)) =? 0);
      simpl; by rewrite ?He1', ?Hall1', ?Hall1, ?Hbar1.
  - pose proof (main_HandleKeypress_enter ToLower tiUpdate z0 m0 Hm0 Hopen Hs0)
      as H1.
    cbv zeta in H1.
    set (term := ToLower (TextInput.Value (ZoxideMain.search m0))) in *.
    set (filtered :=
           filter (fun entry => Strings.Contains (ToLower entry) term = true)
                  (ZoxideMain.allItems m0)) in *.
    assert (exists m1,
              ZoxideMain.HandleKeypress ToLower tiUpdate "enter" z0
              = Ok (ZoxideMain.setModal m1 z0, true, "")
              /\ ZoxideMain.searching m1 = false
              /\ ZoxideMain.open m1 = true
              /\ ZoxideMain.search m1 = ZoxideMain.search m0
              /\ ZoxideMain.allItems m1 = ZoxideMain.allItems m0
              /\ ZoxideMain.entries m1
                 = (if (term =? "")%string then ZoxideMain.allItems m0
                    else filtered))
      as (m1 & H1' & Hs1 & Hopen1 & Hbar1 & Hall1 & He1).
    { eexists. split; [exact H1 |].
      by destruct (term =? "")%string. }
    clear H1.
    pose proof (main_HandleKeypress_slash_browse (ZoxideMain.setModal m1 z0) m1
                  eq_refl Hopen1 Hs1) as H2.
    set (m1' := ZoxideMain.setSearching true
                  (ZoxideMain.setSearch
                     (TextInput.Focus (ZoxideMain.search m1)) m1)) in *.
    pose proof (main_HandleKeypress_enter ToLower tiUpdate
                  (ZoxideMain.setModal m1' (ZoxideMain.setModal m1 z0)) m1'
                  eq_refl Hopen1 eq_refl) as H3.
    cbv zeta in H3.
    assert (ToLower (TextInput.Value (ZoxideMain.search m1')) = term) as Hterm
      by (subst m1'; simpl; by rewrite Hbar1).
    assert (ZoxideMain.allItems m1' = ZoxideMain.allItems m0) as Hall1' by done.
    rewrite Hterm, Hall1' in H3. fold filtered in H3.
    eexists (ZoxideMain.setModal m1 z0), m1, _, _.
    split; [by rewrite (main_run_key _ _ _ _ _ _ _ _ H1') |].
    split; [done |].
    split; [by rewrite (main_run_key _ _ _ _ _ _ _ _ H2),
              (main_run_key _ _ _ _ _ _ _ _ H3) |].
    split; [reflexivity |].
    rewrite He1. clear H2 H3 H1'.
    destruct (term =? "")%string;
      simpl; by rewrite ?Hall1', ?Hall1, ?Hbar1.
Qed.

End ZoxideMore.

(** ** The stand-alone plugin: the cache of empty histories *)

Section ZoxideMainMore.

Import ZoxideMain.

Context (TrimSpace ToLower : string -> string)
        (tiUpdate : TextInput.Model -> string -> TextInput.Model * bool)
        (tiView : TextInput.Model -> string)
        (styleRender styleRenderMain : Z -> Z -> string -> string).

Local Abbreviation HandleKeypress' := (HandleKeypress ToLower tiUpdate).
Local Abbreviation run' := (run ToLower tiUpdate).
Local Abbreviation Show' := (Show TrimSpace).
Local Abbreviation RenderModal' :=
  (Render.RenderModal tiView styleRenderMain).

(** X15: [IsEmptyHistory] answers once per directory.  Its first answer
    for a directory, which is whether the tool failed or printed
    nothing, is stored under that directory only; every later call for
    it returns the stored answer and changes nothing, whatever the tool
    would say by then. *)
Theorem IsEmptyHistory_answers_once (cwd : string) (run1 run2 : CmdOutcome)
  (z : ZoxidePlugin) (flags : gmap string bool) :
  emptyFlag z = Some flags ->
  exists z1 flags1 verdict,
    IsEmptyHistory cwd run1 z = Ok (z1, verdict)
    /\ emptyFlag z1 = Some flags1 /\ modal z1 = modal z
    /\ flags1 !! cwd = Some verdict
    /\ (flags !! cwd = None -> verdict = failedOrEmpty run1)
    /\ (forall other, other <> cwd -> flags1 !! other = flags !! other)
    /\ IsEmptyHistory cwd run2 z1 = Ok (z1, verdict).
Proof.
  intros Hf. destruct (flags !! cwd) as [val |] eqn:E.
  - exists z, flags, val.
    rewrite !(main_IsEmptyHistory_cached _ _ _ _ _ Hf E).
    repeat split; done.
  - rewrite (main_IsEmptyHistory_fresh _ _ _ _ Hf E).
    eexists _, _, _. split; [reflexivity |]. simpl.
    split; [reflexivity |]. split; [done |].
    split; [apply lookup_insert_eq |]. split; [done |].
    split; [intros other Hne; by apply lookup_insert_ne |].
    apply (main_IsEmptyHistory_cached _ _ _ (<[cwd:=failedOrEmpty run1]> flags));
      [done | apply lookup_insert_eq].
Qed.

(** X16: once [Show] has found no history for a directory, it never
    opens the modal for that directory again: later calls change
    nothing, even when the tool then lists entries. *)
Theorem Show_stays_closed (baseDir : string) (check query : CmdOutcome)
  (z : ZoxidePlugin) (flags : gmap string bool) :
  emptyFlag z = Some flags -> flags !! baseDir = None ->
  failedOrEmpty check = true ->
  exists z1,
    Show' baseDir check query z = Ok z1
    /\ modal z1 = modal z
    /\ forall check' query', Show' baseDir check' query' z1 = Ok z1.
Proof.
  intros Hf Hc Hcheck. unfold Show.
  rewrite (main_IsEmptyHistory_fresh _ _ _ _ Hf Hc), bind_Ok, Hcheck.
  eexists. split; [reflexivity |]. split; [done |].
  intros check' query'.
  rewrite (main_IsEmptyHistory_cached _ _ _ (<[baseDir:=true]> flags) true);
    [done | done | apply lookup_insert_eq].
Qed.

(** ** The stand-alone plugin under every key *)

Ltac kept_solve :=
  simpl in *; go_arith; go_cases; repeat split; intros;
  try done; try reflexivity; try apply sublist_filter; try lia;
  try (by destruct_and?); try tauto.

Lemma MainKept_len (m : zoxideModal) :
  MainKept m ->
  GoInt.len (entries m) <= GoInt.len (allItems m) <= 2 ^ 62.
Proof.
  intros (_ & Hsub%sublist_length & Hall & _). unfold GoInt.len in *. lia.
Qed.

Lemma filter_len {A} (P : A -> Prop) `{!forall x, Decision (P x)}
  (l : list A) :
  GoInt.len (filter P l) <= GoInt.len l.
Proof. pose proof (length_filter P l). unfold GoInt.len. lia. Qed.

Lemma main_HandleKeypress_panics (key : string) (z : ZoxidePlugin)
  (m : zoxideModal) :
  modal z = Some m -> readsBeforeFirst key m ->
  HandleKeypress' key z = Panic "index out of range".
Proof.
  intros Hm (-> & Hopen & Hs & Hc & He%len_pos_iff). unfold HandleKeypress.
  rewrite (main_modalOf_Some z m Hm), bind_Ok, Hopen, Hs, Hc. simpl.
  rewrite Z.gtb_ltb.
  destruct (Z.ltb_spec 0 (GoInt.len (entries m))); [| lia].
  destruct (Z.ltb_spec (-1) (GoInt.len (entries m))); [| lia].
  done.
Qed.

Lemma main_HandleKeypress_kept (key : string) (z : ZoxidePlugin)
  (m : zoxideModal) :
  modal z = Some m -> MainKept m -> ~ readsBeforeFirst key m ->
  exists z' handled selected m',
    HandleKeypress' key z = Ok (z', handled, selected)
    /\ modal z' = Some m' /\ MainKept m'
    /\ emptyFlag z' = emptyFlag z
    /\ allItems m' = allItems m /\ height m' = height m
    /\ (0 <= cursor m -> key <> "up" -> key <> "k" -> 0 <= cursor m').
Proof.
  clear TrimSpace tiView styleRender styleRenderMain.
  intros Hm HI Hgood. unfold HandleKeypress.
  rewrite (main_modalOf_Some z m Hm), bind_Ok.
  pose proof (MainKept_len m HI) as Hlen.
  pose proof (len_nonneg (entries m)) as Hnn.
  pose proof (filter_len
                (fun entry =>
                   Strings.Contains (ToLower entry)
                     (ToLower (TextInput.Value (search m))) = true)
                (allItems m)) as Hfilter.
  pose proof (len_nonneg
                (filter (fun entry =>
                           Strings.Contains (ToLower entry)
                             (ToLower (TextInput.Value (search m))) = true)
                        (allItems m))) as Hfilter'.
  destruct (open m) eqn:Hopen; simpl;
    [| eexists _, _, _, _; split; [reflexivity |]; split; [exact Hm |]; split; [exact HI | done]].
  destruct (searching m) eqn:Hs.
  - destruct (key =? "enter")%string.
    { rewrite (main_applySearch_eq ToLower z m Hm). cbv zeta.
      rewrite bind_Ok. unfold modalOf. simpl. rewrite ?bind_Ok.
      eexists _, _, _, _. split; [reflexivity |]. split; [reflexivity |].
      unfold MainKept in *.
      destruct (_ =? "")%string; kept_solve. }
    destruct (key =? "esc")%string.
    { eexists _, _, _, _. split; [reflexivity |]. split; [reflexivity |].
      unfold MainKept in *. kept_solve. }
    destruct (tiUpdate (search m) key) as [bar cmd].
    eexists _, _, _, _. split; [reflexivity |]. split; [reflexivity |].
    unfold MainKept in *. kept_solve.
  - destruct ((key =? "q")%string || (key =? "esc")%string).
    { eexists _, _, _, _. split; [reflexivity |]. split; [reflexivity |].
      unfold MainKept in *. kept_solve. }
    destruct (String.eqb_spec key "enter") as [Hkey | Hkey].
    { rewrite Z.gtb_ltb.
      destruct (Z.ltb_spec 0 (GoInt.len (entries m))) as [Hpos | Hempty];
        [| eexists _, _, _, _; split; [reflexivity |];
           split; [exact Hm |]; split; [exact HI | done]].
      destruct (Z.ltb_spec (cursor m) (GoInt.len (entries m))) as [Hin | Hout];
        [| eexists _, _, _, _; split; [reflexivity |];
           split; [exact Hm |]; split; [exact HI | done]].
      simpl.
      assert (0 <= cursor m) as Hc.
      { destruct (Z.eq_dec (cursor m) (-1)) as [Hminus | Hne];
          [| unfold MainKept in HI; lia].
        exfalso. apply Hgood. repeat split; try done.
        by apply len_pos_iff. }
      destruct (index_in_range (entries m) (cursor m)) as (x & -> & _);
        [lia |].
      rewrite bind_Ok.
      eexists _, _, _, _. split; [reflexivity |]. split; [reflexivity |].
      unfold MainKept in *. kept_solve. }
    destruct ((key =? "up")%string || (key =? "k")%string) eqn:Hup.
    { assert (key = "up" \/ key = "k") as Hupk.
      { apply orb_true_iff in Hup as [Hup%String.eqb_eq | Hup%String.eqb_eq];
          auto. }
      clear Hup. rewrite Z.gtb_ltb.
      destruct (Z.ltb_spec 0 (cursor m));
        (eexists _, _, _, _; split; [reflexivity |];
         split; [reflexivity |]); unfold MainKept in *; kept_solve. }
    destruct ((key =? "down")%string || (key =? "j")%string).
    { destruct (Z.ltb_spec (cursor m) (GoInt.sub (GoInt.len (entries m)) 1))
        as [Hlt | Hge];
        (eexists _, _, _, _; split; [reflexivity |];
         split; [reflexivity |]); unfold MainKept in *.
      - revert Hlt. kept_solve.
      - kept_solve. }
    destruct (key =? "/")%string.
    { eexists _, _, _, _. split; [reflexivity |]. split; [reflexivity |].
      unfold MainKept in *. kept_solve. }
    eexists _, _, _, _. split; [reflexivity |]. split; [exact Hm |]. split; [exact HI | done].
Qed.

Lemma main_renderEntries_lines (m : zoxideModal) (indices : list Z) :
  Forall (fun i => 0 <= i < GoInt.len (entries m)) indices ->
  forall acc : list string,
  exists lines,
    foldl (fun acc i =>
             lines ← acc;
             entry ← index (entries m) i;
             Ok (lines ++ [if i =? cursor m then "> " +:+ entry
                           else "  " +:+ entry]))
          (Ok acc) indices
    = Ok (acc ++ lines)
    /\ length lines = length indices.
Proof.
  induction 1 as [| i indices Hi _ IH]; intros acc.
  - exists []. simpl. by rewrite app_nil_r.
  - destruct (index_in_range (entries m) i Hi) as (entry & Hentry & _).
    simpl. rewrite Hentry, !bind_Ok.
    destruct (IH (acc ++ [if i =? cursor m then "> " +:+ entry
                          else "  " +:+ entry])) as (lines & -> & Hlines).
    eexists (_ :: lines). rewrite <- app_assoc. split; [reflexivity |].
    simpl. by rewrite Hlines.
Qed.

Lemma MainKept_renderEntries (m : zoxideModal) :
  MainKept m ->
  exists lines,
    renderEntries m = Ok lines
    /\ (length lines <= Z.to_nat (viewportHeight m))%nat.
Proof.
  intros HI. pose proof (MainKept_len m HI) as Hlen.
  pose proof (len_nonneg (entries m)) as Hnn.
  assert (endIdx m - render m <= viewportHeight m
          /\ endIdx m <= GoInt.len (entries m)) as [Hend Hend'].
  { unfold endIdx, viewportHeight, MainKept in *. cbv zeta.
    go_arith. go_cases; lia. }
  assert (Forall (fun i => 0 <= i < GoInt.len (entries m)) (renderedIndices m))
    as Hrange.
  { apply Forall_forall. intros i Hi. unfold renderedIndices in Hi.
    apply elem_of_seqZ in Hi. unfold MainKept in HI. lia. }
  unfold renderEntries.
  destruct (main_renderEntries_lines m _ Hrange []) as (lines & -> & Hn).
  exists lines. split; [done |].
  rewrite Hn. unfold renderedIndices. rewrite length_seqZ. lia.
Qed.

Lemma MainKept_RenderModal (z : ZoxidePlugin) (m : zoxideModal) :
  modal z = Some m -> MainKept m -> exists s, RenderModal' z = Ok s.
Proof.
  intros Hm HI. unfold Render.RenderModal.
  rewrite (main_modalOf_Some z m Hm), bind_Ok.
  destruct (open m); simpl; [| by eexists].
  destruct (MainKept_renderEntries m HI) as (lines & -> & _).
  rewrite bind_Ok. by eexists.
Qed.

(** X17: one key on the modal of package main.  From a state in which
    the displayed list is drawn from the full list, the window starts at
    or above the cursor and the cursor is at [-1] at the lowest, a key
    panics in exactly one case, [enter] outside search mode with the
    cursor at [-1] on a list that is not empty, where [entries[cursor]]
    is out of range.  Every other key returns, keeps these bounds, and
    leaves a state that [RenderModal] draws without a panic. *)
Theorem main_key_outcome (key : string) (z : ZoxidePlugin)
  (m : zoxideModal) :
  modal z = Some m -> MainKept m ->
  (readsBeforeFirst key m
   /\ HandleKeypress' key z = Panic "index out of range")
  \/ (~ readsBeforeFirst key m
      /\ exists z' handled selected m' s,
           HandleKeypress' key z = Ok (z', handled, selected)
           /\ emptyFlag z' = emptyFlag z
           /\ modal z' = Some m' /\ MainKept m'
           /\ allItems m' = allItems m /\ height m' = height m
           /\ RenderModal' z' = Ok s).
Proof.
  intros Hm HI.
  assert (Decision (readsBeforeFirst key m)) as [Hbad | Hgood]
    by (unfold readsBeforeFirst; apply _).
  - left. split; [done |]. by apply (main_HandleKeypress_panics key z m).
  - right. split; [done |].
    destruct (main_HandleKeypress_kept key z m Hm HI Hgood)
      as (z' & handled & selected & m' & Hkey & Hm' & HI' & Hf & Hall & Hh & _).
    destruct (MainKept_RenderModal z' m' Hm' HI') as (s & Hs).
    by exists z', handled, selected, m', s.
Qed.

Lemma main_run_kept (keys : list string) :
  forall (z : ZoxidePlugin) (m : zoxideModal),
  modal z = Some m -> MainKept m ->
  run' keys z = Panic "index out of range"
  \/ exists z' m',
       run' keys z = Ok z' /\ modal z' = Some m' /\ MainKept m'
       /\ emptyFlag z' = emptyFlag z
       /\ allItems m' = allItems m /\ height m' = height m.
Proof.
  induction keys as [| key keys IH]; intros z m Hm HI.
  - right. by exists z, m.
  - assert (Decision (readsBeforeFirst key m)) as [Hbad | Hgood]
      by (unfold readsBeforeFirst; apply _).
    + left. simpl. unfold step.
      by rewrite (main_HandleKeypress_panics key z m Hm Hbad).
    + destruct (main_HandleKeypress_kept key z m Hm HI Hgood)
        as (z1 & handled & selected & m1 & Hkey & Hm1 & HI1 & Hf & Hall
            & Hh & _).
      rewrite (main_run_key ToLower tiUpdate key keys z z1 handled selected
                 Hkey).
      destruct (IH z1 m1 Hm1 HI1)
        as [Hpanic | (z' & m' & Hrun & Hm' & HI' & Hf' & Hall' & Hh')];
        [by left |].
      right. exists z', m'.
      split; [done |]. split; [done |]. split; [done |].
      split; [congruence |]. split; congruence.
Qed.

Lemma main_run_without_up (keys : list string) :
  forall (z : ZoxidePlugin) (m : zoxideModal),
  modal z = Some m -> MainKept m -> 0 <= cursor m ->
  "up" ∉ keys -> "k" ∉ keys ->
  exists z' m',
    run' keys z = Ok z' /\ modal z' = Some m' /\ MainKept m'
    /\ 0 <= cursor m'.
Proof.
  induction keys as [| key keys IH]; intros z m Hm HI Hc Hup Hk.
  - by exists z, m.
  - apply not_elem_of_cons in Hup as [Hup Hups].
    apply not_elem_of_cons in Hk as [Hk Hks].
    assert (~ readsBeforeFirst key m) as Hgood
      by (intros (_ & _ & _ & Hminus & _); lia).
    destruct (main_HandleKeypress_kept key z m Hm HI Hgood)
      as (z1 & handled & selected & m1 & Hkey & Hm1 & HI1 & _ & _ & _ & Hc1).
    rewrite (main_run_key ToLower tiUpdate key keys z z1 handled selected
               Hkey).
    apply (IH z1 m1); auto.
Qed.

(** X18: key sequences on the modal of package main.  From a state
    within the bounds above, a sequence of keys either stops in the one
    panic, an index out of range, or ends in a state that is within
    them again, holds the same full list, the same height and the same
    cache, and is drawn by [RenderModal] without a panic, in at most
    [height - 4] lines.  When the cursor starts at 0 or above and the
    sequence holds neither [up] nor [k], it does not panic. *)
Theorem main_keys_outcome (keys : list string) (z : ZoxidePlugin)
  (m : zoxideModal) :
  modal z = Some m -> MainKept m ->
  (run' keys z = Panic "index out of range"
   \/ exists z' m' lines s,
        run' keys z = Ok z' /\ modal z' = Some m' /\ MainKept m'
        /\ emptyFlag z' = emptyFlag z
        /\ allItems m' = allItems m /\ height m' = height m
        /\ renderEntries m' = Ok lines
        /\ (length lines <= Z.to_nat (height m - 4))%nat
        /\ RenderModal' z' = Ok s)
  /\ (0 <= cursor m -> "up" ∉ keys -> "k" ∉ keys ->
      exists z' m',
        run' keys z = Ok z' /\ modal z' = Some m' /\ 0 <= cursor m').
Proof.
  intros Hm HI. split.
  - destruct (main_run_kept keys z m Hm HI)
      as [Hpanic | (z' & m' & Hrun & Hm' & HI' & Hf & Hall & Hh)];
      [by left |].
    right.
    destruct (MainKept_renderEntries m' HI') as (lines & Hlines & Hn).
    destruct (MainKept_RenderModal z' m' Hm' HI') as (s & Hs).
    exists z', m', lines, s. unfold viewportHeight in Hn. rewrite Hh in Hn.
    by do 8 (split; [done |]).
  - intros Hc Hup Hk.
    destruct (main_run_without_up keys z m Hm HI Hc Hup Hk)
      as (z' & m' & Hrun & Hm' & _ & Hc').
    by exists z', m'.
Qed.

(** X19: [Show] for a directory whose history is not known to be empty,
    when the tool answers.  The modal opens on the lines of the trimmed
    output as displayed and as full list, with cursor and window at the
    top, outside search mode, the search text erased and the directory
    recorded; the cache holds [false] for the directory; the state is
    within the bounds of the key handler, and [RenderModal] draws it. *)
Theorem Show_opens_history (baseDir out : string) (check : CmdOutcome)
  (z : ZoxidePlugin) (flags : gmap string bool) (m : zoxideModal) :
  emptyFlag z = Some flags -> modal z = Some m ->
  flags !! baseDir <> Some true ->
  (flags !! baseDir = None -> failedOrEmpty check = false) ->
  1 <= height m <= 2 ^ 31 ->
  GoInt.len (Strings.SplitLines (TrimSpace out)) <= 2 ^ 62 ->
  exists z1 flags1 m1 s,
    Show' baseDir check (inr out) z = Ok z1
    /\ emptyFlag z1 = Some flags1 /\ flags1 !! baseDir = Some false
    /\ modal z1 = Some m1
    /\ open m1 = true /\ searching m1 = false
    /\ entries m1 = Strings.SplitLines (TrimSpace out)
    /\ allItems m1 = Strings.SplitLines (TrimSpace out)
    /\ entries m1 <> []
    /\ cursor m1 = 0 /\ render m1 = 0
    /\ TextInput.Value (search m1) = ""
    /\ basePath m1 = baseDir
    /\ width m1 = width m /\ height m1 = height m
    /\ MainKept m1
    /\ RenderModal' z1 = Ok s.
Proof.
  intros Hf Hm Hc Hcheck Hh Hlen.
  pose proof (len_nonneg (Strings.SplitLines (TrimSpace out))) as Hnn.
  assert (Strings.SplitLines (TrimSpace out) <> []) as Hne
    by apply splitAcc_nonempty.
  set (m1 := setSearching false
               (setSearch (TextInput.SetValue "" (search m))
                  (setOpen true
                     (setCursor 0 0
                        (setAllItems (Strings.SplitLines (TrimSpace out))
                           (setEntries (Strings.SplitLines (TrimSpace out))
                              (setBasePath baseDir m))))))).
  assert (MainKept m1) as HI1.
  { unfold MainKept, m1. simpl. repeat split; try done; lia. }
  destruct (flags !! baseDir) as [[] |] eqn:E; [done | |].
  - assert (Show' baseDir check (inr out) z = Ok (setModal m1 z)) as HShow.
    { unfold Show.
      rewrite (main_IsEmptyHistory_cached _ _ _ _ _ Hf E), bind_Ok.
      by rewrite (main_modalOf_Some z m Hm), bind_Ok. }
    destruct (MainKept_RenderModal (setModal m1 z) m1 eq_refl HI1)
      as (s & Hs).
    exists (setModal m1 z), flags, m1, s.
    do 15 (split; [done |]). by split.
  - assert (Show' baseDir check (inr out) z
            = Ok (setModal m1
                    (mkPlugin (Some (<[baseDir := false]> flags)) (modal z))))
      as HShow.
    { unfold Show.
      rewrite (main_IsEmptyHistory_fresh _ _ _ _ Hf E), bind_Ok.
      rewrite (Hcheck eq_refl). unfold modalOf. simpl.
      by rewrite Hm, bind_Ok. }
    destruct (MainKept_RenderModal
                (setModal m1
                   (mkPlugin (Some (<[baseDir := false]> flags)) (modal z)))
                m1 eq_refl HI1) as (s & Hs).
    eexists _, _, m1, s. split; [exact HShow |].
    split; [reflexivity |]. split; [apply lookup_insert_eq |].
    split; [reflexivity |]. do 11 (split; [done |]). by split.
Qed.

(** X20: [enter] outside search mode in package main, with the cursor on
    an entry.  The entry under the cursor is handed back, it is one of
    the full list, and the modal closes with everything else as it was;
    a closed modal then reports every key as not handled, changes
    nothing, and is drawn as the empty string. *)
Theorem main_enter_selects (z : ZoxidePlugin) (m : zoxideModal) :
  modal z = Some m -> open m = true -> searching m = false ->
  entries m `sublist_of` allItems m ->
  0 <= cursor m < GoInt.len (entries m) ->
  exists selected z',
    HandleKeypress' "enter" z = Ok (z', true, selected)
    /\ entries m !! Z.to_nat (cursor m) = Some selected
    /\ selected ∈ allItems m
    /\ z' = setModal (setOpen false m) z
    /\ (forall key, HandleKeypress' key z' = Ok (z', false, ""))
    /\ RenderModal' z' = Ok "".
Proof.
  intros Hm Hopen Hs Hsub Hc.
  destruct (index_in_range (entries m) (cursor m) Hc) as (x & Hx & Hlook).
  exists x, (setModal (setOpen false m) z).
  split.
  { unfold HandleKeypress.
    rewrite (main_modalOf_Some z m Hm), bind_Ok, Hopen, Hs. simpl.
    rewrite Z.gtb_ltb.
    destruct (Z.ltb_spec 0 (GoInt.len (entries m))); [| lia].
    destruct (Z.ltb_spec (cursor m) (GoInt.len (entries m))); [| lia].
    simpl. by rewrite Hx, bind_Ok. }
  split; [done |].
  split.
  { apply (sublist_subseteq _ _ Hsub). by apply list_elem_of_lookup_2 in Hlook. }
  split; [done |]. split; [| done].
  intros key. reflexivity.
Qed.

End ZoxideMainMore.

(** ** Before and after [Init] *)

Section Initialisation.

Context (TrimSpace ToLower : string -> string)
        (fzf : string -> list string -> list string)
        (tiUpdate : TextInput.Model -> string -> TextInput.Model * bool)
        (tiView : TextInput.Model -> string)
        (styleRender styleRenderMain : Z -> Z -> string -> string).

(** X21: a plugin whose modal has not been allocated.  In package
    zoxide [View] and [Update] return at once and the first [Open]
    allocates the modal itself, but [UpdateModalSize] dereferences the
    nil pointer, as a key press does when the plugin is marked open.
    In package main every entry point dereferences it, and [Show]
    writes to the nil map of a plugin whose cache has not been made.  After [Init] all of
    them return, and a second [Init] changes nothing in package
    zoxide. *)
Theorem uninitialised_plugin :
  (forall z : Zoxide.ZoxidePlugin,
     Zoxide.Modal z = None ->
     (forall width height,
        Zoxide.UpdateModalSize width height z
        = Panic "nil pointer dereference")
     /\ (forall key,
           Zoxide.handleKeypress ToLower fzf tiUpdate key z
           = Panic "nil pointer dereference")
     /\ (forall msg,
           Zoxide.isOpen z = false ->
           Zoxide.Update ToLower fzf tiUpdate msg z = Ok (z, None, ""))
     /\ Render.View tiView styleRender z = Ok ""
     /\ (Zoxide.isOpen z = false -> Zoxide.initialized z = false ->
         forall path,
         exists z1 m1,
           Zoxide.Open path z = Ok (z1, Some (Zoxide.LoadHistory path))
           /\ Zoxide.Modal z1 = Some m1 /\ Zoxide.isOpen z1 = true
           /\ Zoxide.Entries m1 = [] /\ Zoxide.Height m1 = 20
           /\ Zoxide.Width m1 = 60
           /\ forall width height,
                exists z2, Zoxide.UpdateModalSize width height z1 = Ok z2)
     /\ (Zoxide.isOpen z = false -> Zoxide.initialized z = true ->
         forall path,
           Zoxide.Open path z = Panic "nil pointer dereference"))
  /\ (forall z : Zoxide.ZoxidePlugin,
        Zoxide.Init (Zoxide.Init z) = Zoxide.Init z
        /\ Zoxide.initialized (Zoxide.Init z) = true
        /\ Zoxide.isOpen (Zoxide.Init z) = Zoxide.isOpen z
        /\ (Zoxide.wellFormed z -> is_Some (Zoxide.Modal (Zoxide.Init z))))
  /\ (forall z : ZoxideMain.ZoxidePlugin,
        ZoxideMain.modal z = None ->
        (forall key,
           ZoxideMain.HandleKeypress ToLower tiUpdate key z
           = Panic "nil pointer dereference")
        /\ (forall width height,
              ZoxideMain.UpdateModalSize width height z
              = Panic "nil pointer dereference")
        /\ ZoxideMain.IsOpen z = Panic "nil pointer dereference"
        /\ ZoxideMain.Close z = Panic "nil pointer dereference"
        /\ Render.RenderModal tiView styleRenderMain z
           = Panic "nil pointer dereference")
  /\ (forall (z : ZoxideMain.ZoxidePlugin) baseDir check query,
        ZoxideMain.emptyFlag z = None ->
        ZoxideMain.Show TrimSpace baseDir check query z
        = Panic "assignment to entry in nil map")
  /\ (forall z : ZoxideMain.ZoxidePlugin,
      exists m,
        ZoxideMain.modal (ZoxideMain.Init z) = Some m
        /\ ZoxideMain.emptyFlag (ZoxideMain.Init z) = Some ∅
        /\ MainKept m /\ ZoxideMain.open m = false
        /\ ZoxideMain.IsOpen (ZoxideMain.Init z) = Ok false
        /\ Render.RenderModal tiView styleRenderMain (ZoxideMain.Init z)
           = Ok ""
        /\ forall key,
             ZoxideMain.HandleKeypress ToLower tiUpdate key
               (ZoxideMain.Init z)
             = Ok (ZoxideMain.Init z, false, "")).
Proof.
  split; [| split; [| split; [| split]]].
  - intros z Hm. split; [| split; [| split; [| split; [| split]]]].
    + intros width height. unfold Zoxide.UpdateModalSize, Zoxide.modalOf.
      by rewrite Hm.
    + intros key. unfold Zoxide.handleKeypress, Zoxide.modalOf.
      by rewrite Hm.
    + intros msg Hopen. unfold Zoxide.Update. by rewrite Hopen.
    + unfold Render.View. rewrite Hm. by destruct (Zoxide.isOpen z).
    + intros Hopen Hinit path. unfold Zoxide.Open, Zoxide.Init.
      rewrite Hopen, Hinit. simpl.
      eexists _, _. split; [reflexivity |]. simpl.
      repeat split; try done.
      intros width height. by eexists.
    + intros Hopen Hinit path. unfold Zoxide.Open, Zoxide.modalOf.
      rewrite Hopen, Hinit. simpl. by rewrite Hm.
  - intros z. unfold Zoxide.Init, Zoxide.wellFormed.
    destruct (Zoxide.initialized z) eqn:Hinit; simpl; rewrite ?Hinit;
      repeat split; try done; eauto.
  - intros z Hm.
    unfold ZoxideMain.HandleKeypress, ZoxideMain.UpdateModalSize,
      ZoxideMain.IsOpen, ZoxideMain.Close, Render.RenderModal,
      ZoxideMain.modalOf.
    rewrite Hm. by repeat split.
  - intros z baseDir check query Hf.
    unfold ZoxideMain.Show, ZoxideMain.IsEmptyHistory. by rewrite Hf.
  - intros z. eexists. split; [reflexivity |]. split; [reflexivity |].
    split; [unfold MainKept; simpl; repeat split; try done; lia |].
    by repeat split.
Qed.

End Initialisation.

(** ** The further properties on the sample instances *)

Ltac sample_bounds :=
  repeat split; try reflexivity;
  try (vm_compute; discriminate);
  try (vm_compute; intros H; discriminate H).

Lemma fuzzySearch_names_witness :
  Sidebar.name
    <$> Sidebar.fuzzySearch Sample.substringScorer "w"
          [Sidebar.mkDirectory "/a/proj" "proj";
           Sidebar.mkDirectory "/srv/www" "www"]
  = Sample.substringScorer "w" ["proj"; "www"].
Proof.
  apply (fuzzySearch_names Sample.substringScorer "w"
           [Sidebar.mkDirectory "/a/proj" "proj";
            Sidebar.mkDirectory "/srv/www" "www"]).
  by apply (bool_decide_unpack _).
Defined.

Lemma fuzzySearch_all_witness :
  Sample.substringScorer "" ["proj"; "www"] = ["proj"; "www"]
  /\ Sidebar.fuzzySearch Sample.substringScorer ""
       [Sidebar.mkDirectory "/a/proj" "proj";
        Sidebar.mkDirectory "/srv/www" "www"]
     = [Sidebar.mkDirectory "/a/proj" "proj";
        Sidebar.mkDirectory "/srv/www" "www"].
Proof.
  assert (Sample.substringScorer "" ["proj"; "www"] = ["proj"; "www"]) as H
    by (vm_compute; reflexivity).
  split; [exact H |].
  apply (fuzzySearch_all Sample.substringScorer ""
           [Sidebar.mkDirectory "/a/proj" "proj";
            Sidebar.mkDirectory "/srv/www" "www"] H).
  by apply (bool_decide_unpack _).
Defined.

Lemma getFilteredDirectories_all_witness :
  Sidebar.getFilteredDirectories Sidebar.sampleWellKnown Sample.slashBase
    Sample.samplePaths Sample.sampleRecords
    (fun path => String.prefix "/mnt" path) (fun _ haystack => haystack)
    (Sidebar.sampleWorld (inr Sample.recordsFile)) "proj"
  = Sidebar.getDirectories Sidebar.sampleWellKnown Sample.slashBase
      Sample.samplePaths Sample.sampleRecords
      (fun path => String.prefix "/mnt" path)
      (Sidebar.sampleWorld (inr Sample.recordsFile)).
Proof.
  apply (getFilteredDirectories_all Sidebar.sampleWellKnown Sample.slashBase
           Sample.samplePaths Sample.sampleRecords
           (fun path => String.prefix "/mnt" path) (fun _ haystack => haystack)
           (Sidebar.sampleWorld (inr Sample.recordsFile)) "proj").
  - intros haystack. reflexivity.
  - vm_compute. repeat constructor.
  - by apply (bool_decide_unpack _).
  - by apply (bool_decide_unpack _).
  - by apply (bool_decide_unpack _).
Defined.

Lemma UpdateModalSize_bounds_witness :
  exists m',
    Zoxide.UpdateModalSize 120 40 (Sample.openedPlugin 3)
    = Ok (Zoxide.setModal m' (Sample.openedPlugin 3))
    /\ Zoxide.Width m' = 80 /\ Zoxide.Height m' = 26
    /\ Zoxide.Entries m' = Zoxide.Entries (Sample.openedModal 3).
Proof.
  destruct (UpdateModalSize_bounds 120 40 (Sample.openedPlugin 3)
              (Sample.openedModal 3) eq_refl)
    as (m' & H & _ & _ & _ & _ & _ & He & _ & _ & _ & _ & Hw & Hh).
  exists m'. split; [exact H |].
  rewrite Hw, Hh by lia. split; [reflexivity |]. split; [reflexivity |].
  exact He.
Defined.

Lemma UpdateModalSize_agree_witness :
  exists m' m0',
    Zoxide.UpdateModalSize 120 40 (Sample.openedPlugin 3)
    = Ok (Zoxide.setModal m' (Sample.openedPlugin 3))
    /\ ZoxideMain.UpdateModalSize 120 40 (Sample.shownPlugin 3)
       = Ok (ZoxideMain.setModal m0' (Sample.shownPlugin 3))
    /\ ZoxideMain.width m0' = Zoxide.Width m'
    /\ ZoxideMain.height m0' = Zoxide.Height m'.
Proof.
  destruct (UpdateModalSize_agree 120 40 (Sample.openedPlugin 3)
              (Sample.openedModal 3) (Sample.shownPlugin 3)
              (Sample.shownModal 3) eq_refl eq_refl)
    as (m' & m0' & H & H0 & Hw & Hh & _).
  by exists m', m0'.
Defined.

Lemma viewEntries_window_witness :
  exists lines,
    Zoxide.viewEntries (Sample.openedModal 20) = Ok lines
    /\ length lines = 16%nat.
Proof.
  destruct (viewEntries_window (Sample.openedModal 20)) as (lines & H & Hn & _);
    [sample_bounds .. |].
  exists lines. split; [exact H |]. rewrite Hn. vm_compute. reflexivity.
Defined.

Lemma events_keep_cursor_on_entry_witness :
  OnEntry (Sample.openedModal 20)
  /\ exists z' m' s,
       Sample.runKeys
         [Zoxide.Key "down"; Zoxide.Resize 10 10; Zoxide.Key "up";
          Zoxide.Key "up"]
         (Sample.openedPlugin 20)
       = Ok z'
       /\ Zoxide.Modal z' = Some m'
       /\ Zoxide.Entries m' <> []
       /\ 0 <= Zoxide.RenderIndex m' <= Zoxide.Cursor m'
       /\ Zoxide.Cursor m' < GoInt.len (Zoxide.Entries m')
       /\ Render.View TextInput.Value (fun _ _ s => s) z' = Ok s.
Proof.
  assert (OnEntry (Sample.openedModal 20)) as HI
    by (unfold OnEntry; sample_bounds).
  split; [exact HI |].
  exact (events_keep_cursor_on_entry Sample.asciiLower Sample.substringScorer
           Sample.typeKey TextInput.Value (fun _ _ s => s)
           substringScorer_len _
           (Sample.openedPlugin 20) (Sample.openedModal 20) eq_refl HI).
Defined.

Lemma Update_enter_witness :
  Zoxide.Update Sample.asciiLower Sample.substringScorer Sample.typeKey
    (KeyMsg "enter") (Sample.openedPlugin 3)
  = Ok (Zoxide.Close (Sample.openedPlugin 3), None, "/dir/a").
Proof.
  destruct (Update_enter Sample.asciiLower Sample.substringScorer
              Sample.typeKey (Sample.openedPlugin 3) (Sample.openedModal 3)
              eq_refl eq_refl eq_refl) as (Hsel & _).
  destruct Hsel as (entry & He & Hu & _); [sample_bounds |].
  vm_compute in He. injection He as <-. exact Hu.
Defined.

Lemma cursor_moves_cyclically_witness :
  exists down up back,
    Zoxide.handleKeypress Sample.asciiLower Sample.substringScorer
      Sample.typeKey "down" (Sample.openedPlugin 3)
    = Ok (Zoxide.setModal down (Sample.openedPlugin 3), None, "")
    /\ Zoxide.Cursor down = 1
    /\ Zoxide.handleKeypress Sample.asciiLower Sample.substringScorer
         Sample.typeKey "up" (Sample.openedPlugin 3)
       = Ok (Zoxide.setModal up (Sample.openedPlugin 3), None, "")
    /\ Zoxide.Cursor up = 2
    /\ Zoxide.handleKeypress Sample.asciiLower Sample.substringScorer
         Sample.typeKey "up" (Zoxide.setModal down (Sample.openedPlugin 3))
       = Ok (Zoxide.setModal back (Zoxide.setModal down (Sample.openedPlugin 3)),
             None, "")
    /\ Zoxide.Cursor back = 0.
Proof.
  destruct (cursor_moves_cyclically Sample.asciiLower Sample.substringScorer
              Sample.typeKey (Sample.openedPlugin 3) (Sample.openedModal 3)
              eq_refl eq_refl)
    as (down & up & back & Hd & Hdc & _ & _ & Hu & Huc & _ & _ & Hb & Hbc);
    [sample_bounds .. |].
  exists down, up, back.
  split; [exact Hd |]. split; [rewrite Hdc; vm_compute; reflexivity |].
  split; [exact Hu |]. split; [rewrite Huc; vm_compute; reflexivity |].
  split; [exact Hb |]. rewrite Hbc. vm_compute. reflexivity.
Defined.

Lemma getZoxideHistory_lines_witness :
  exists entries,
    Zoxide.getZoxideHistory Sample.asciiTrim (inr (Sample.historyOutput 2))
    = (entries, None)
    /\ entries <> []
    /\ String.concat Render.newline entries
       = Sample.asciiTrim (Sample.historyOutput 2).
Proof.
  destruct (getZoxideHistory_lines Sample.asciiTrim (Sample.historyOutput 2)
              eq_refl) as (entries & H & Hne & _ & Hjoin & _).
  by exists entries.
Defined.

Lemma Open_starts_session_witness :
  exists z1 z2 m2,
    Zoxide.Open "/cwd" (Zoxide.mkPlugin None false false)
    = Ok (z1, Some (Zoxide.LoadHistory "/cwd"))
    /\ Zoxide.runLoadHistory Sample.asciiTrim (inr (Sample.historyOutput 3)) z1
       = Ok (z2, Some (Zoxide.mkZoxideMsg ["/dir/a"; "/dir/b"; "/dir/c"]))
    /\ Zoxide.Modal z2 = Some m2
    /\ Zoxide.Entries m2 = ["/dir/a"; "/dir/b"; "/dir/c"]
    /\ Zoxide.Inv m2.
Proof.
  destruct (Open_starts_session Sample.asciiTrim "/cwd"
              (Sample.historyOutput 3) (Zoxide.mkPlugin None false false)
              eq_refl)
    as (z1 & z2 & m2 & Ho & Hl & _ & Hm & He & _ & _ & _ & _ & _ & HI).
  - intros H. discriminate H.
  - intros m H. discriminate H.
  - reflexivity.
  - vm_compute. discriminate.
  - exists z1, z2, m2. split; [exact Ho |]. split; [exact Hl |].
    split; [exact Hm |]. split; [exact He | exact HI].
Defined.

Lemma blank_output_opens_witness :
  Zoxide.runLoadHistory Sample.asciiTrim (inr " ") (Sample.openedPlugin 3)
  = Ok (Zoxide.setModal
          (Zoxide.setAllEntries [""]
             (Zoxide.setEntries [""] (Sample.openedModal 3)))
          (Sample.openedPlugin 3),
        Some (Zoxide.mkZoxideMsg [""])).
Proof.
  destruct (blank_output_opens Sample.asciiTrim " " eq_refl eq_refl)
    as [H _].
  exact (H (Sample.openedPlugin 3) (Sample.openedModal 3) eq_refl).
Defined.

Lemma commit_again_witness :
  exists z1 m1 z2 m2,
    Sample.runKeys [Zoxide.Key "enter"] (Sample.searchingPlugin 3 "B") = Ok z1
    /\ Zoxide.Modal z1 = Some m1
    /\ Sample.runKeys [Zoxide.Key "/"; Zoxide.Key "enter"] z1 = Ok z2
    /\ Zoxide.Modal z2 = Some m2
    /\ Zoxide.Entries m2 = Zoxide.Entries m1.
Proof.
  destruct (commit_again Sample.asciiLower Sample.substringScorer
              Sample.typeKey (Sample.searchingPlugin 3 "B")
              (Sample.searchingModal 3 "B")
              (Sample.mainSearchingPlugin 3 "B")
              (Sample.mainSearchingModal 3 "B")
              eq_refl eq_refl eq_refl eq_refl eq_refl)
    as [(z1 & m1 & z2 & m2 & H1 & Hm1 & H2 & Hm2 & He & _) _].
  by exists z1, m1, z2, m2.
Defined.

Lemma IsEmptyHistory_answers_once_witness :
  exists z1,
    ZoxideMain.IsEmptyHistory "/cwd" (inl "exit status 1") ZoxideMain.main
    = Ok (z1, true)
    /\ ZoxideMain.IsEmptyHistory "/cwd" (inr "/dir/a") z1 = Ok (z1, true).
Proof.
  destruct (IsEmptyHistory_answers_once "/cwd" (inl "exit status 1")
              (inr "/dir/a") ZoxideMain.main ∅ eq_refl)
    as (z1 & flags1 & verdict & H1 & _ & _ & _ & Hv & _ & H2).
  rewrite (Hv eq_refl) in H1, H2. by exists z1.
Defined.

Lemma Show_stays_closed_witness :
  exists z1,
    ZoxideMain.Show Sample.asciiTrim "/cwd" (inr "") (inr "/dir/a")
      ZoxideMain.main
    = Ok z1
    /\ ZoxideMain.modal z1 = ZoxideMain.modal ZoxideMain.main
    /\ ZoxideMain.Show Sample.asciiTrim "/cwd" (inr "/dir/a") (inr "/dir/a") z1
       = Ok z1.
Proof.
  destruct (Show_stays_closed Sample.asciiTrim "/cwd" (inr "") (inr "/dir/a")
              ZoxideMain.main ∅ eq_refl eq_refl eq_refl)
    as (z1 & H & Hm & Hagain).
  exists z1. split; [exact H |]. split; [exact Hm |]. apply Hagain.
Defined.

Lemma main_key_outcome_witness :
  MainKept (Sample.shownModal 3)
  /\ exists z' handled selected m' s,
       ZoxideMain.HandleKeypress Sample.asciiLower Sample.typeKey "down"
         (Sample.shownPlugin 3)
       = Ok (z', handled, selected)
       /\ ZoxideMain.modal z' = Some m' /\ MainKept m'
       /\ Render.RenderModal TextInput.Value (fun _ _ s => s) z' = Ok s.
Proof.
  assert (MainKept (Sample.shownModal 3)) as HI
    by (unfold MainKept; sample_bounds).
  split; [exact HI |].
  destruct (main_key_outcome Sample.asciiLower Sample.typeKey TextInput.Value
              (fun _ _ s => s) "down" (Sample.shownPlugin 3)
              (Sample.shownModal 3) eq_refl HI)
    as [[(Hkey & _) _]
       | (_ & z' & handled & selected & m' & s & H & _ & Hm & HI' & _ & _
          & Hs)];
    [discriminate Hkey |].
  exists z', handled, selected, m', s.
  split; [exact H |]. split; [exact Hm |]. split; [exact HI' | exact Hs].
Defined.

Lemma main_keys_outcome_witness :
  exists z' m',
    Sample.mainKeys ["down"; "/"; "b"; "enter"; "enter"] (Sample.shownPlugin 3)
    = Ok z'
    /\ ZoxideMain.modal z' = Some m' /\ 0 <= ZoxideMain.cursor m'.
Proof.
  assert (MainKept (Sample.shownModal 3)) as HI
    by (unfold MainKept; sample_bounds).
  apply (main_keys_outcome Sample.asciiLower Sample.typeKey TextInput.Value
           (fun _ _ s => s) ["down"; "/"; "b"; "enter"; "enter"]
           (Sample.shownPlugin 3) (Sample.shownModal 3) eq_refl HI).
  - vm_compute. discriminate.
  - by apply (bool_decide_unpack _).
  - by apply (bool_decide_unpack _).
Defined.

Lemma Show_opens_history_witness :
  exists z1 m1,
    ZoxideMain.Show Sample.asciiTrim "/cwd" (inr (Sample.historyOutput 3))
      (inr (Sample.historyOutput 3)) ZoxideMain.main
    = Ok z1
    /\ ZoxideMain.modal z1 = Some m1
    /\ ZoxideMain.entries m1 = ["/dir/a"; "/dir/b"; "/dir/c"]
    /\ MainKept m1.
Proof.
  destruct (Show_opens_history Sample.asciiTrim TextInput.Value
              (fun _ _ s => s) "/cwd" (Sample.historyOutput 3)
              (inr (Sample.historyOutput 3)) ZoxideMain.main ∅
              (ZoxideMain.mkModal false 60 20 0
                 (TextInput.setWidth 40
                    (TextInput.setCharLimit 100
                       (TextInput.setPlaceholder "Search zoxide history..."
                          TextInput.New)))
                 [] [] 0 "" false)
              eq_refl eq_refl)
    as (z1 & flags1 & m1 & s & H & _ & _ & Hm & _ & _ & He & _ & _ & _ & _
        & _ & _ & _ & _ & HI & _).
  - discriminate.
  - intros _. reflexivity.
  - simpl. lia.
  - vm_compute. discriminate.
  - exists z1, m1. split; [exact H |]. split; [exact Hm |].
    split; [exact He | exact HI].
Defined.

Lemma main_enter_selects_witness :
  exists z',
    ZoxideMain.HandleKeypress Sample.asciiLower Sample.typeKey "enter"
      (Sample.shownPlugin 3)
    = Ok (z', true, "/dir/a")
    /\ Render.RenderModal TextInput.Value (fun _ _ s => s) z' = Ok "".
Proof.
  destruct (main_enter_selects Sample.asciiLower Sample.typeKey
              TextInput.Value (fun _ _ s => s) (Sample.shownPlugin 3)
              (Sample.shownModal 3) eq_refl eq_refl eq_refl)
    as (selected & z' & H & Hsel & _ & _ & _ & Hs).
  - reflexivity.
  - sample_bounds.
  - vm_compute in Hsel. injection Hsel as <-. by exists z'.
Defined.
